(** * mcp-zenskar: the tool-invocation pipeline of the two server scripts

    A shallow embedding of the request pipeline of the Zenskar MCP server,
    in its two scripts: [src/server.js] ([executeTool], the handler
    registered by [setupTools], [normalizeUsageEventPayload],
    [formatClickHouseDateTime] and the response processor) and the second,
    CommonJS script with the approval gate, the limits, the environment
    fallback and the usage records ([executeAPICall], [checkNeedsApproval],
    [generateApprovalRequest] and the registered handler), with the
    properties of the specification stated over them.

    JavaScript values are a small inductive type, strings are the bytes of
    their UTF-8 form (lengths are counted in UTF-16 code units, as
    JavaScript counts them), objects are association lists in insertion
    order, the network is an explicit oracle and every [fetch] is recorded
    in a trace, and an exception is a result constructor. *)

From Stdlib Require Import String Ascii List ZArith Lia Bool DecimalString.
Import ListNotations.
Local Open Scope string_scope.
Local Open Scope list_scope.
Set Warnings "-register-all,-abstract-large-number".

(** ** JavaScript values *)

Module JS.

(** JSON-shaped values.  A number is an integer (a page size, a count),
    standing for the double nearest to it; a number with a fractional
    part, [NaN] and the infinities have no value here, so nothing below
    speaks of an invocation that carries one.  A string is the UTF-8
    bytes of a well-formed text. *)
Inductive value : Type :=
| VUndef : value
| VNull : value
| VBool : bool -> value
| VNum : Z -> value
| VStr : string -> value
| VArr : list value -> value
| VObj : list (string * value) -> value.

Definition object : Type := list (string * value).

(** [ToBoolean]. *)
Definition truthy (v : value) : bool :=
  match v with
  | VUndef | VNull => false
  | VBool b => b
  | VNum n => negb (Z.eqb n 0)
  | VStr s => negb (String.eqb s "")
  | VArr _ | VObj _ => true
  end.

Definition is_undefined (v : value) : bool :=
  match v with VUndef => true | _ => false end.

(** [v && typeof v === 'object' && !Array.isArray(v)] *)
Definition is_plain_object (v : value) : bool :=
  match v with VObj _ => true | _ => false end.


(** [o[k]] among the own properties of [o]: the property, [undefined]
    when absent.  This is what [o[k]] gives for every name that is not
    [inherited]; the names read below are fixed names of the scripts, none
    of them inherited, or names declared by the tool catalogue. *)
Fixpoint get (o : object) (k : string) : value :=
  match o with
  | [] => VUndef
  | (k', v) :: o' => if String.eqb k' k then v else get o' k
  end.

Fixpoint has (o : object) (k : string) : bool :=
  match o with
  | [] => false
  | (k', _) :: o' => String.eqb k' k || has o' k
  end.

(** [o[k] = v] for a name that is not [inherited]: an existing key keeps
    its place, a new key goes last. *)
Fixpoint set (o : object) (k : string) (v : value) : object :=
  match o with
  | [] => [(k, v)]
  | (k', v') :: o' =>
      if String.eqb k' k then (k', v) :: o' else (k', v') :: set o' k v
  end.

(** The rest pattern [{ a, b, ...rest }]: the object without some keys. *)
Definition without (ks : list string) (o : object) : object :=
  filter (fun kv => negb (existsb (String.eqb (fst kv)) ks)) o.

(** The decimal digits of an integer, all of them. *)
Definition string_of_Z (n : Z) : string :=
  NilZero.string_of_int (Z.to_int n).

(** The double nearest to a positive integer, ties to even. *)
Definition nearest_double (n : Z) : Z :=
  let b := Z.log2 n in
  if (b <=? 52)%Z then n
  else
    let e := (b - 52)%Z in
    let q := Z.shiftr n e in
    let r := (n - Z.shiftl q e)%Z in
    let half := Z.shiftl 1 (e - 1) in
    let m := if (r <? half)%Z then q
             else if (half <? r)%Z then (q + 1)%Z
             else if Z.even q then q else (q + 1)%Z in
    Z.shiftl m e.

(** The double an integer stands for, as the integer it is; 2^1024
    stands for the infinity. *)
Definition double_of (n : Z) : Z :=
  let d := nearest_double (Z.abs n) in
  let d := if (2 ^ 1024 <=? d)%Z then (2 ^ 1024)%Z else d in
  if (n <? 0)%Z then (- d)%Z else d.

(** Whether the integer [c] is read back as the double [v], [v] at least
    2^53: it lies within half a unit in the last place of [v], the ends
    counting when the significand is even. *)
Definition rounds_to (v c : Z) : bool :=
  let e := (Z.log2 v - 52)%Z in
  let m := Z.shiftr v e in
  let up4 := Z.shiftl 1 (e + 1) in
  let lo4 := if (m =? 2 ^ 52)%Z then Z.shiftl 1 e else up4 in
  let d4 := (4 * (c - v))%Z in
  if Z.even m then ((- lo4 <=? d4) && (d4 <=? up4))%Z
  else ((- lo4 <? d4) && (d4 <? up4))%Z.

(** The number of decimal digits of a positive integer. *)
Definition digit_count (v : Z) : Z := Z.of_nat (String.length (string_of_Z v)).

(** The integer of [k] significant digits that is read back as [v] and
    is nearest to it, if there is one. *)
Definition candidate (v k : Z) : option Z :=
  let scale := (10 ^ (digit_count v - k))%Z in
  let s1 := (v / scale)%Z in
  let c1 := (s1 * scale)%Z in
  let c2 := (c1 + scale)%Z in
  match rounds_to v c1, rounds_to v c2 with
  | true, true =>
      Some (if (v - c1 <? c2 - v)%Z then c1
            else if (c2 - v <? v - c1)%Z then c2
            else if Z.even s1 then c1 else c2)
  | true, false => Some c1
  | false, true => Some c2
  | false, false => None
  end.

(** The shortest such integer, of at most 17 significant digits. *)
Fixpoint shortest (v : Z) (ks : list Z) : Z :=
  match ks with
  | [] => v
  | k :: ks' =>
      match candidate v k with
      | Some c => c
      | None => shortest v ks'
      end
  end.

(** A text without its final zeros. *)
Fixpoint strip_zeros (s : string) : string :=
  match s with
  | EmptyString => EmptyString
  | String c s' =>
      match strip_zeros s' with
      | EmptyString => if Ascii.eqb c "0" then EmptyString else String c EmptyString
      | r => String c r
      end
  end.

(** The exponent form [d.ddde+x] of an integer of at least 22 digits. *)
Definition exponent_form (c : Z) : string :=
  let all := string_of_Z c in
  let x := string_of_Z (Z.of_nat (String.length all) - 1) in
  match strip_zeros all with
  | String d EmptyString => String d ("e+" ++ x)
  | String d rest => String d ("." ++ rest ++ "e+" ++ x)
  | EmptyString => all
  end.

(** The decimal digits of a positive integer below 2^53, which is a
    double; [Infinity] when the nearest double overflows. *)
Definition positive_to_string (n : Z) : string :=
  if (n <=? 2 ^ 53)%Z then string_of_Z n
  else
    let v := nearest_double n in
    if (2 ^ 1024 <=? v)%Z then "Infinity"
    else
      let c := shortest v [1; 2; 3; 4; 5; 6; 7; 8; 9; 10; 11; 12; 13; 14; 15; 16; 17]%Z in
      if (c <? 10 ^ 21)%Z then string_of_Z c else exponent_form c.

(** [Number::toString] on an integer.  A number is a double: an integer
    above 2^53 in magnitude stands for the double nearest to it, and is
    printed with the fewest digits that read back as that double, in
    exponent form from 10^21 on. *)
Definition number_to_string (n : Z) : string :=
  if (n =? 0)%Z then "0"
  else if (n <? 0)%Z then "-" ++ positive_to_string (- n)
  else positive_to_string n.

Definition join (sep : string) (l : list string) : string :=
  String.concat sep l.

(** [ToString], as [URLSearchParams.append] and [String.prototype.replace]
    apply it to their argument.  Inside [Array.prototype.join], [null] and
    [undefined] give the empty string. *)
Fixpoint toStr (v : value) : string :=
  match v with
  | VUndef => "undefined"
  | VNull => "null"
  | VBool true => "true"
  | VBool false => "false"
  | VNum n => number_to_string n
  | VStr s => s
  | VArr l =>
      join "," (map (fun x => match x with
                              | VUndef | VNull => ""
                              | _ => toStr x
                              end) l)
  | VObj _ => "[object Object]"
  end.

End JS.

(** ** Strings *)

Module Str.

Definition is_ws (c : ascii) : bool :=
  let n := nat_of_ascii c in
  (n =? 32)%nat || ((9 <=? n)%nat && (n <=? 13)%nat).

(** U+00A0 in UTF-8. *)
Definition is_ws2 (c d : ascii) : bool :=
  (nat_of_ascii c =? 194)%nat && (nat_of_ascii d =? 160)%nat.

(** The white space and line terminators of three bytes in UTF-8:
    U+1680, U+2000 to U+200A, U+2028, U+2029, U+202F, U+205F, U+3000
    and U+FEFF. *)
Definition is_ws3 (c d e : ascii) : bool :=
  let x := nat_of_ascii c in
  let y := nat_of_ascii d in
  let z := nat_of_ascii e in
  ((x =? 225) && (y =? 154) && (z =? 128))%nat
  || ((x =? 226) && (y =? 128)
      && (((128 <=? z) && (z <=? 138)) || (z =? 168) || (z =? 169) || (z =? 175)))%nat
  || ((x =? 226) && (y =? 129) && (z =? 159))%nat
  || ((x =? 227) && (y =? 128) && (z =? 128))%nat
  || ((x =? 239) && (y =? 187) && (z =? 191))%nat.

(** The string without its leading white space.  A string is its UTF-8
    bytes; a white-space character is one, two or three of them. *)
Fixpoint ltrim (s : string) : string :=
  match s with
  | EmptyString => EmptyString
  | String c s1 =>
      if is_ws c then ltrim s1
      else
        match s1 with
        | String d s2 =>
            if is_ws2 c d then ltrim s2
            else
              match s2 with
              | String e s3 => if is_ws3 c d e then ltrim s3 else s
              | EmptyString => s
              end
        | EmptyString => s
        end
  end.

(** The string without its trailing white space: it ends where what is
    left is white space only. *)
Fixpoint rtrim (s : string) : string :=
  match s with
  | EmptyString => EmptyString
  | String c s' =>
      if String.eqb (ltrim s) EmptyString then EmptyString else String c (rtrim s')
  end.

(** [s.trim()]: the white space and the line terminators of ECMAScript,
    ASCII or not. *)
Definition trim (s : string) : string := rtrim (ltrim s).

(** The number of UTF-16 code units a byte of UTF-8 stands for: none
    for a continuation byte, two for the first byte of a character of
    four bytes (a surrogate pair), one for any other. *)
Definition units (c : ascii) : nat :=
  let n := N_of_ascii c in
  if ((128 <=? n) && (n <? 192))%N then 0
  else if (240 <=? n)%N then 2 else 1.

(** [s.length]: the number of UTF-16 code units. *)
Fixpoint jsLength (s : string) : nat :=
  match s with
  | EmptyString => 0
  | String c s' => units c + jsLength s'
  end.

(** The first surrogate of the character of four bytes that starts with
    [b0], [b1] and [b2], as three bytes of generalised UTF-8: what is
    left of the character when it is cut after one code unit. *)
Definition high_surrogate (b0 b1 b2 : ascii) : string :=
  let top := (((N_of_ascii b0 mod 8) * 262144 + (N_of_ascii b1 mod 64) * 4096
               + (N_of_ascii b2 mod 64) * 64) / 1024)%N in
  let hs := (55296 + (top - 64))%N in
  String (ascii_of_N 237)
    (String (ascii_of_N (128 + (hs / 64) mod 64))
       (String (ascii_of_N (128 + hs mod 64)) EmptyString)).

Definition byte_at (s : string) (i : nat) : ascii :=
  match String.get i s with
  | Some c => c
  | None => zero
  end.

(** [s.substring(0, n)]: the first [n] code units. *)
Fixpoint jsPrefix (n : nat) (s : string) : string :=
  match s with
  | EmptyString => EmptyString
  | String c s' =>
      match units c with
      | 0 => String c (jsPrefix n s')
      | 1 =>
          match n with
          | 0 => EmptyString
          | S n' => String c (jsPrefix n' s')
          end
      | _ =>
          match n with
          | 0 => EmptyString
          | 1 => high_surrogate c (byte_at s' 0) (byte_at s' 1)
          | S (S n') => String c (jsPrefix n' s')
          end
      end
  end.

(** [s.replace(c, r)] for a one-character pattern and a replacement
    without [$]: the first occurrence only. *)
Fixpoint replace_first_char (c : ascii) (r : string) (s : string) : string :=
  match s with
  | EmptyString => EmptyString
  | String d s' =>
      if Ascii.eqb d c then r ++ s' else String d (replace_first_char c r s')
  end.

(** [s.replace(/Z$/i, '')] *)
Fixpoint strip_final_z (s : string) : string :=
  match s with
  | EmptyString => EmptyString
  | String c EmptyString =>
      if Ascii.eqb c "Z" || Ascii.eqb c "z" then EmptyString else s
  | String c s' => String c (strip_final_z s')
  end.

(** [s.startsWith(p)] *)
Definition starts_with (p s : string) : bool := String.prefix p s.

Definition upper_char (c : ascii) : ascii :=
  let n := nat_of_ascii c in
  if (97 <=? n)%nat && (n <=? 122)%nat then ascii_of_nat (n - 32) else c.

(** [s.toUpperCase()] on a text whose letters are ASCII, as the method
    names of a catalogue are. *)
Fixpoint toUpperCase (s : string) : string :=
  match s with
  | EmptyString => EmptyString
  | String c s' => String (upper_char c) (toUpperCase s')
  end.

(** [s] without its prefix [p], when it starts with [p]. *)
Fixpoint strip_prefix (p s : string) : option string :=
  match p, s with
  | EmptyString, _ => Some s
  | String a p', String b s' =>
      if Ascii.eqb a b then strip_prefix p' s' else None
  | String _ _, EmptyString => None
  end.

(** [s.indexOf(p)] as the split of [s] around the first occurrence of
    [p]: the part before and the part after. *)
Fixpoint split_first (p s : string) : option (string * string) :=
  match strip_prefix p s with
  | Some b => Some (EmptyString, b)
  | None =>
      match s with
      | EmptyString => None
      | String c s' =>
          match split_first p s' with
          | Some (a, b) => Some (String c a, b)
          | None => None
          end
      end
  end.

(** [GetSubstitution] for a string pattern (no capture groups):
    [$$] is a dollar sign, [$&] the match, [$`] the text before it and
    [$'] the text after it; every other character stands for itself. *)
Fixpoint expand_replacement (matched before after r : string) : string :=
  match r with
  | EmptyString => EmptyString
  | String "$" (String c r') =>
      if Ascii.eqb c "$" then String "$" (expand_replacement matched before after r')
      else if Ascii.eqb c "&" then matched ++ expand_replacement matched before after r'
      else if Ascii.eqb c "`" then before ++ expand_replacement matched before after r'
      else if Ascii.eqb c "'" then after ++ expand_replacement matched before after r'
      else String "$" (String c (expand_replacement matched before after r'))
  | String c r' => String c (expand_replacement matched before after r')
  end.

(** [s.replace(p, r)] for a string pattern [p]. *)
Definition replace (p r s : string) : string :=
  match split_first p s with
  | Some (a, b) => a ++ expand_replacement p a b r ++ b
  | None => s
  end.

End Str.

(** ** URL encodings *)

Module Url.

Definition hex_digit (n : nat) : ascii :=
  if (n <? 10)%nat then ascii_of_nat (48 + n) else ascii_of_nat (55 + n).

(** [%XX] of one byte, upper-case hexadecimal. *)
Definition percent (c : ascii) : string :=
  let n := nat_of_ascii c in
  String "%" (String (hex_digit (n / 16)) (String (hex_digit (n mod 16)) EmptyString)).

Definition is_alnum (c : ascii) : bool :=
  let n := nat_of_ascii c in
  ((48 <=? n)%nat && (n <=? 57)%nat)
  || ((65 <=? n)%nat && (n <=? 90)%nat)
  || ((97 <=? n)%nat && (n <=? 122)%nat).

Definition one_of (set : string) (c : ascii) : bool :=
  existsb (Ascii.eqb c) (list_ascii_of_string set).

(** The application/x-www-form-urlencoded byte serializer that
    [URLSearchParams.prototype.toString] applies to names and values. *)
Fixpoint form_encode (s : string) : string :=
  match s with
  | EmptyString => EmptyString
  | String c s' =>
      if is_alnum c || one_of "*-._" c then String c (form_encode s')
      else if Ascii.eqb c " " then String "+" (form_encode s')
      else percent c ++ form_encode s'
  end.

(** [encodeURIComponent]: everything but the unreserved marks is
    percent-encoded, byte by byte. *)
Fixpoint encodeURIComponent (s : string) : string :=
  match s with
  | EmptyString => EmptyString
  | String c s' =>
      if is_alnum c || one_of "-_.!~*'()" c then String c (encodeURIComponent s')
      else percent c ++ encodeURIComponent s'
  end.

(** A [URLSearchParams] object: its list of entries, in append order. *)
Definition searchParams : Type := list (string * string).

Definition append (q : searchParams) (name value : string) : searchParams :=
  q ++ [(name, value)].

Definition toString (q : searchParams) : string :=
  String.concat "&"
    (map (fun nv => (form_encode (fst nv) ++ "=" ++ form_encode (snd nv))%string) q).

End Url.

(** ** The tool catalogue and the network *)

Module Config.

(** One argument descriptor of a tool of [mcp-config.json]. *)
Record argSpec : Type := mkArg {
  arg_name : string;
  arg_type : string;
  arg_position : string;
  arg_required : bool;
  arg_description : string
}.

Record requestTemplate : Type := mkTemplate {
  tpl_url : string;
  tpl_method : string
}.

(** A tool of the catalogue.  [needsApproval] is the flag a configuration
    may carry for a tool. *)
Record toolSpec : Type := mkTool {
  tool_name : string;
  tool_description : string;
  tool_args : list argSpec;
  tool_requestTemplate : requestTemplate;
  tool_needsApproval : bool
}.

Record config : Type := mkConfig {
  server_name : string;
  server_baseUrl : string;
  tools : list toolSpec
}.

End Config.

Module Net.

(** What [fetch] is called with.  [req_body] is the object that
    [JSON.stringify] serialises into the request body, [None] for the
    [null] body. *)
Record request : Type := mkRequest {
  req_url : string;
  req_method : string;
  req_headers : list (string * string);
  req_body : option JS.object
}.

(** What awaiting [fetch] and [response.text()] gives: a response with its
    status and text, or a rejection with the message of its error. *)
Inductive fetch_result : Type :=
| Response (status : Z) (text : string)
| Rejected (message : string).

(** [response.ok] *)
Definition ok (status : Z) : bool := (200 <=? status)%Z && (status <=? 299)%Z.

(** The surroundings of one invocation: the network, the JSON parser and
    two-space pretty-printer of the runtime, and the variables of the
    process environment ([process.env]). *)
Record host : Type := mkHost {
  env : string -> option string;
  fetch : request -> fetch_result;
  JSON_parse : string -> option JS.value;
  JSON_stringify2 : JS.value -> string
}.

End Net.

(** ** response-processor.js *)

Module ResponseProcessor.

Definition maxResponseLength : nat := 50000.

Definition nl : string := String (ascii_of_nat 10) EmptyString.

(** [processResponse(responseData, toolName)].  [JSON.stringify] gives
    [undefined] for [undefined], whose [length] cannot be read: the
    [catch] then returns its fixed text. *)
Definition processResponse (h : Net.host) (responseData : JS.value) (toolName : string) : string :=
  match responseData with
  | JS.VUndef => "Error processing response"
  | _ =>
      let response :=
        match responseData with
        | JS.VStr s => s
        | v => Net.JSON_stringify2 h v
        end in
      if (maxResponseLength <? Str.jsLength response)%nat
      then (Str.jsPrefix maxResponseLength response
            ++ nl ++ nl ++ "[Response truncated due to length]")%string
      else response
  end.

End ResponseProcessor.

(** ** server.js *)

Module Server.
Import JS Config Net.

Definition nl : string := ResponseProcessor.nl.

Definition CLICKHOUSE_DATETIME_KEYS : list string :=
  ["DateTime64"; "DateTime"; "DateTime32"].

(** [formatClickHouseDateTime] on a string: the first [T] and the first
    [t] become a space, a final [Z] or [z] goes, the result is trimmed. *)
Definition formatClickHouseDateTime_string (s : string) : string :=
  Str.trim
    (Str.strip_final_z
       (Str.replace_first_char "t" " " (Str.replace_first_char "T" " " s))).

Definition formatClickHouseDateTime (v : value) : value :=
  match v with
  | VStr s => VStr (formatClickHouseDateTime_string s)
  | _ => v
  end.

(** [if (typeof o[key] === 'string') o[key] = formatClickHouseDateTime(o[key])] *)
Definition formatKey (o : object) (key : string) : object :=
  match get o key with
  | VStr s => set o key (formatClickHouseDateTime (VStr s))
  | _ => o
  end.

Definition normalizeUsageEventPayload (eventPayload : value) : value :=
  match eventPayload with
  | VObj o =>
      let normalized := formatKey o "timestamp" in
      match get normalized "data" with
      | VObj d =>
          VObj (set normalized "data"
                  (VObj (fold_left formatKey CLICKHOUSE_DATETIME_KEYS d)))
      | _ => VObj normalized
      end
  | _ => eventPayload
  end.

(** The result of an asynchronous function: the value it resolves to, or
    the message of the error it throws. *)
Inductive outcome (A : Type) : Type :=
| Returned : A -> outcome A
| Thrown : string -> outcome A.
Arguments Returned {A} _.
Arguments Thrown {A} _.

(** An invocation's result together with the [fetch] calls it made, in
    order. *)
Record run (A : Type) : Type := mkRun {
  result : outcome A;
  calls : list request
}.
Arguments mkRun {A} _ _.
Arguments result {A} _.
Arguments calls {A} _.

(** The [{ content: [{ type: "text", text }] }] payload. *)
Record payload : Type := mkPayload { text : string }.

Definition buildHeaders (organization authorization : string) : list (string * string) :=
  [ ("Content-Type", "application/json");
    ("Accept", "application/json");
    ("organisation", organization);
    ("Authorization",
      if Str.starts_with "Bearer " authorization then authorization
      else ("Bearer " ++ authorization)%string) ].

(** The loop that fills the path placeholders of the URL. *)
Definition pathStep (toolArgs : object) (url : string) (arg : argSpec) : string :=
  if String.eqb (arg_position arg) "path" && truthy (get toolArgs (arg_name arg))
  then Str.replace ("{" ++ arg_name arg ++ "}")%string (toStr (get toolArgs (arg_name arg))) url
  else url.

Definition substitutePath (tool : toolSpec) (toolArgs : object) (url : string) : string :=
  fold_left (pathStep toolArgs) (tool_args tool) url.

(** The loop that fills [queryParams]. *)
Definition queryStep (toolArgs : object) (q : Url.searchParams) (arg : argSpec) : Url.searchParams :=
  if String.eqb (arg_position arg) "query" && negb (is_undefined (get toolArgs (arg_name arg)))
  then Url.append q (arg_name arg) (toStr (get toolArgs (arg_name arg)))
  else q.

Definition buildQuery (tool : toolSpec) (toolArgs : object) : Url.searchParams :=
  fold_left (queryStep toolArgs) (tool_args tool) [].

Definition buildUrl (cfg : config) (tool : toolSpec) (toolArgs : object) : string :=
  let url := substitutePath tool toolArgs
               (server_baseUrl cfg ++ tpl_url (tool_requestTemplate tool))%string in
  let qs := Url.toString (buildQuery tool toolArgs) in
  if String.eqb qs "" then url else (url ++ "?" ++ qs)%string.

(** [Object.entries(eventPayload).forEach(...)]: every entry whose value
    is defined is assigned to the body under its key.  Assigning to
    [__proto__] reaches the setter every object inherits, which adds no
    property: such an entry leaves the fields of the body as they are. *)
Definition flattenInto (bodyArgs eventPayload : object) : object :=
  fold_left (fun b kv => if is_undefined (snd kv) || String.eqb (fst kv) "__proto__"
                         then b else set b (fst kv) (snd kv))
    eventPayload bodyArgs.

(** The loop that fills [bodyArgs]. *)
Definition bodyStep (tool : toolSpec) (toolArgs : object) (bodyArgs : object) (arg : argSpec) : object :=
  if String.eqb (arg_position arg) "body" && negb (is_undefined (get toolArgs (arg_name arg)))
  then
    if String.eqb (tool_name tool) "ingestRawMetricEvent" && String.eqb (arg_name arg) "event"
    then
      match normalizeUsageEventPayload (get toolArgs (arg_name arg)) with
      | VObj e => flattenInto bodyArgs e
      | eventPayload => set bodyArgs (arg_name arg) eventPayload
      end
    else set bodyArgs (arg_name arg) (get toolArgs (arg_name arg))
  else bodyArgs.

Definition defaultDataschema : value :=
  VObj [ ("customer_id", VStr "String");
         ("timestamp", VStr "DateTime64");
         ("data", VObj [ ("String", VStr "String");
                         ("Int64", VStr "Int64");
                         ("Float64", VStr "Float64");
                         ("Date32", VStr "Date32");
                         ("DateTime64", VStr "DateTime64");
                         ("UUID", VStr "UUID");
                         ("Bool", VStr "Bool") ]) ].

(** [a || b] *)
Definition or_else (a b : value) : value := if truthy a then a else b.

(** [if (!bodyArgs[k]) bodyArgs[k] = v] *)
Definition defaultKey (bodyArgs : object) (k : string) (v : value) : object :=
  if truthy (get bodyArgs k) then bodyArgs else set bodyArgs k v.

(** The [createRawMetric] block. *)
Definition rawMetricDefaults (toolArgs bodyArgs : object) : object :=
  let b1 := defaultKey bodyArgs "connector"
              (or_else (get toolArgs "connector") (VStr "push_to_zenskar")) in
  let b2 := defaultKey b1 "api_type"
              (or_else (get toolArgs "api_type") (VStr "PUSH")) in
  let b3 := defaultKey b2 "dataschema" defaultDataschema in
  defaultKey b3 "column_order" (VArr [VStr "timestamp"]).

Definition isMutating (method : string) : bool :=
  existsb (String.eqb (Str.toUpperCase method)) ["POST"; "PUT"; "PATCH"].

(** [bodyArgs] when the block of the mutating methods ends. *)
Definition collectBody (tool : toolSpec) (toolArgs : object) : object :=
  let bodyArgs := fold_left (bodyStep tool toolArgs) (tool_args tool) [] in
  if String.eqb (tool_name tool) "createRawMetric"
  then rawMetricDefaults toolArgs bodyArgs else bodyArgs.

(** The object whose serialisation is the request body, [None] for no
    body. *)
Definition buildBody (tool : toolSpec) (toolArgs : object) : option object :=
  if isMutating (tpl_method (tool_requestTemplate tool)) then
    match collectBody tool toolArgs with
    | [] => None
    | bodyArgs => Some bodyArgs
    end
  else None.

Definition buildRequest (cfg : config) (tool : toolSpec) (toolArgs : object)
    (organization authorization : string) : request :=
  {| req_url := buildUrl cfg tool toolArgs;
     req_method := tpl_method (tool_requestTemplate tool);
     req_headers := buildHeaders organization authorization;
     req_body := buildBody tool toolArgs |}.

Definition failureText (toolName message : string) : string :=
  ("Error executing " ++ toolName ++ ": " ++ message ++ nl ++ nl
   ++ "This might be due to:" ++ nl
   ++ "- Invalid parameters" ++ nl
   ++ "- API rate limiting" ++ nl
   ++ "- Network connectivity issues" ++ nl
   ++ "- Authentication problems (check organization ID and Bearer token)"
   ++ nl ++ nl
   ++ "Please verify your credentials and try again.")%string.

(** The [try] block around [fetch]: the response is read, a status
    outside 2xx is thrown, and whatever is thrown is thrown again with the
    tool's name and the hints. *)
Definition perform (h : host) (tool : toolSpec) (req : request) : outcome payload :=
  match fetch h req with
  | Response status responseText =>
      if ok status then
        let responseData :=
          match JSON_parse h responseText with
          | Some v => v
          | None => VStr responseText
          end in
        Returned (mkPayload
          (ResponseProcessor.processResponse h responseData (tool_name tool)))
      else
        Thrown (failureText (tool_name tool)
                  ("HTTP " ++ number_to_string status ++ ": " ++ responseText)%string)
  | Rejected message => Thrown (failureText (tool_name tool) message)
  end.

(** [executeTool(tool, args)].  The credentials are read first; a value
    that is truthy but not a string has no [substring] or [startsWith]
    method, and calling it throws. *)
Definition executeTool (cfg : config) (h : host) (tool : toolSpec) (args : object) : run payload :=
  let organization := get args "organization" in
  let authorization := get args "authorization" in
  let toolArgs := without ["organization"; "authorization"] args in
  if negb (truthy organization) then
    mkRun (Thrown "Organization ID is required for API access") []
  else if negb (truthy authorization) then
    mkRun (Thrown "Authorization token is required for API access") []
  else
    match organization, authorization with
    | VStr org, VStr auth =>
        let req := buildRequest cfg tool toolArgs org auth in
        mkRun (perform h tool req) [req]
    | VStr _, _ => mkRun (Thrown "authorization.startsWith is not a function") []
    | _, _ => mkRun (Thrown "organization.substring is not a function") []
    end.

(** The handler that [setupTools] registers for a tool: whatever
    [executeTool] throws is caught and turned into a text payload. *)
Definition toolHandler (cfg : config) (h : host) (tool : toolSpec) (args : object) : run payload :=
  let r := executeTool cfg h tool args in
  match result r with
  | Returned p => mkRun (Returned p) (calls r)
  | Thrown message => mkRun (Returned (mkPayload ("Error: " ++ message)%string)) (calls r)
  end.

End Server.

(** ** server.js: the input schema of a tool *)

Module Schema.
Import JS Config.

(** The Zod types [generateInputSchema] builds: [z.string()],
    [z.number()], [z.boolean()], [z.record(z.any())], [z.array(z.any())]. *)
Inductive zodType : Type := ZString | ZNumber | ZBoolean | ZRecord | ZArray.

(** One field of the schema: its type, its description, and whether
    [.optional()] was applied. *)
Record zodField : Type := mkField {
  z_type : zodType;
  z_description : string;
  z_optional : bool
}.

(** The schema object: its fields by name, in insertion order. *)
Definition shape : Type := list (string * zodField).

Fixpoint find (o : shape) (k : string) : option zodField :=
  match o with
  | [] => None
  | (k', f) :: o' => if String.eqb k' k then Some f else find o' k
  end.

(** [schemaObj[k] = f] *)
Fixpoint put (o : shape) (k : string) (f : zodField) : shape :=
  match o with
  | [] => [(k, f)]
  | (k', f') :: o' =>
      if String.eqb k' k then (k', f) :: o' else (k', f') :: put o' k f
  end.

(** The [switch] on [arg.type]. *)
Definition typeOf (t : string) : zodType :=
  if String.eqb t "string" then ZString
  else if String.eqb t "integer" || String.eqb t "number" then ZNumber
  else if String.eqb t "boolean" then ZBoolean
  else if String.eqb t "object" then ZRecord
  else if String.eqb t "array" then ZArray
  else ZString.

Definition fieldOf (arg : argSpec) : zodField :=
  mkField (typeOf (arg_type arg)) (arg_description arg) (negb (arg_required arg)).

Definition credentialFields : shape :=
  [ ("organization",
     mkField ZString "Organization ID for multi-tenant API access (required)" false);
    ("authorization",
     mkField ZString "Bearer token for API authentication (required)" false) ].

(** [generateInputSchema(tool)] *)
Definition generateInputSchema (tool : toolSpec) : shape :=
  fold_left (fun schemaObj arg => put schemaObj (arg_name arg) (fieldOf arg))
    (tool_args tool) credentialFields.



End Schema.

(** ** The second server script

    The repository holds a second script of the same server, in CommonJS,
    with the approval gate, the limits and the telemetry.  Its request
    builder, its credential lookup and its approval check are embedded
    here, to be set beside [Server]. *)

Module Variant.
Import JS Config Net.

Definition lower_char (c : ascii) : ascii :=
  let n := nat_of_ascii c in
  if (65 <=? n)%nat && (n <=? 90)%nat then ascii_of_nat (n + 32) else c.

Fixpoint toLowerCase (s : string) : string :=
  match s with
  | EmptyString => EmptyString
  | String c s' => String (lower_char c) (toLowerCase s')
  end.

Definition normalizeClickHouseType (type : value) : value :=
  match type with
  | VStr t =>
      let trimmed := Str.trim t in
      if String.eqb trimmed "" then type
      else
        let lower := toLowerCase trimmed in
        if String.eqb lower "boolean" then VStr "Bool"
        else if String.eqb lower "string" then VStr "String"
        else if String.eqb lower "int" || String.eqb lower "int64" then VStr "Int64"
        else if String.eqb lower "float" || String.eqb lower "float64"
                || String.eqb lower "double" then VStr "Float64"
        else if String.eqb lower "date" || String.eqb lower "date32" then VStr "Date32"
        else if String.eqb lower "datetime" || String.eqb lower "datetime64"
        then VStr "DateTime64"
        else if String.eqb lower "uuid" then VStr "UUID"
        else VStr trimmed
  | _ => type
  end.

(** [if (o[k]) o[k] = normalizeClickHouseType(o[k])] *)
Definition normalizeKey (o : object) (k : string) : object :=
  if truthy (get o k) then set o k (normalizeClickHouseType (get o k)) else o.

Definition normalizeRawMetricDataschema (schema : value) : value :=
  match schema with
  | VObj o =>
      let normalized := normalizeKey (normalizeKey o "customer_id") "timestamp" in
      match get normalized "data" with
      | VObj d =>
          VObj (set normalized "data"
                  (VObj (fold_left (fun acc kv => set acc (fst kv) (normalizeClickHouseType (snd kv)))
                           d [])))
      | _ => VObj normalized
      end
  | _ => schema
  end.

(** The path loop: the value is percent-encoded before it replaces the
    placeholder. *)
Definition pathStep (cleanArgs : object) (url : string) (arg : argSpec) : string :=
  if String.eqb (arg_position arg) "path" && negb (is_undefined (get cleanArgs (arg_name arg)))
  then Str.replace ("{" ++ arg_name arg ++ "}")%string
         (Url.encodeURIComponent (toStr (get cleanArgs (arg_name arg)))) url
  else url.

Definition substitutePath (tool : toolSpec) (cleanArgs : object) (url : string) : string :=
  fold_left (pathStep cleanArgs) (tool_args tool) url.

(** [v !== undefined && v !== null && v !== ''] *)
Definition present (v : value) : bool :=
  match v with
  | VUndef | VNull => false
  | VStr s => negb (String.eqb s "")
  | _ => true
  end.

(** The entries one value adds: a boolean as its text, an array one
    entry for each element, anything else as its text. *)
Definition appendValue (q : Url.searchParams) (name : string) (v : value) : Url.searchParams :=
  match v with
  | VArr l => fold_left (fun q' x => Url.append q' name (toStr x)) l q
  | _ => Url.append q name (toStr v)
  end.

Definition queryStep (cleanArgs : object) (q : Url.searchParams) (arg : argSpec) : Url.searchParams :=
  if String.eqb (arg_position arg) "query" && present (get cleanArgs (arg_name arg))
  then appendValue q (arg_name arg) (get cleanArgs (arg_name arg))
  else q.

(** [queryParams.has(key)] *)
Definition hasParam (q : Url.searchParams) (key : string) : bool :=
  existsb (fun nv => String.eqb (fst nv) key) q.

Definition declaredAt (tool : toolSpec) (position key : string) : bool :=
  existsb (fun arg => String.eqb (arg_position arg) position && String.eqb (arg_name arg) key)
    (tool_args tool).

(** The loop over the remaining keys of the arguments. *)
Definition extraStep (tool : toolSpec) (cleanArgs : object) (q : Url.searchParams)
    (kv : string * value) : Url.searchParams :=
  if negb (hasParam q (fst kv)) && present (get cleanArgs (fst kv))
     && negb (declaredAt tool "path" (fst kv)) && negb (declaredAt tool "body" (fst kv))
  then appendValue q (fst kv) (get cleanArgs (fst kv))
  else q.

Definition buildQuery (tool : toolSpec) (cleanArgs : object) : Url.searchParams :=
  fold_left (extraStep tool cleanArgs) cleanArgs
    (fold_left (queryStep cleanArgs) (tool_args tool) []).

Definition defaultDataschema : value :=
  VObj [ ("customer_id", VStr "string");
         ("timestamp", VStr "timestamp");
         ("data", VObj [ ("usage_amount", VStr "decimal");
                         ("feature_id", VStr "string") ]) ].

(** The [createRawMetric] block: the defaults, the dataschema in the
    backend's type names, and [column_order] set whatever the caller
    gave. *)
Definition rawMetricDefaults (cleanArgs bodyParams : object) : object :=
  let b1 := Server.defaultKey bodyParams "connector"
              (Server.or_else (get cleanArgs "connector") (VStr "push_to_zenskar")) in
  let b2 := Server.defaultKey b1 "api_type"
              (Server.or_else (get cleanArgs "api_type") (VStr "PUSH")) in
  let b3 := Server.defaultKey b2 "dataschema" defaultDataschema in
  let b4 := if truthy (get b3 "dataschema")
            then set b3 "dataschema" (normalizeRawMetricDataschema (get b3 "dataschema"))
            else b3 in
  set b4 "column_order" (VArr [VStr "timestamp"]).

(** [a?.[k]]: the property of an object, [undefined] of anything else. *)
Definition field (v : value) (k : string) : value :=
  match v with
  | VObj o => get o k
  | _ => VUndef
  end.

Definition envValue (h : host) (k : string) : value :=
  match env h k with
  | Some s => VStr s
  | None => VUndef
  end.

(** [userContext?.organization || process.env.ZENSKAR_ORGANIZATION] *)
Definition resolveOrganization (h : host) (userContext : value) : value :=
  Server.or_else (field userContext "organization") (envValue h "ZENSKAR_ORGANIZATION").

(** The credential: the context's [authorization], then its headers,
    then the environment's token behind [Bearer ]. *)
Definition resolveAuthorization (h : host) (userContext : value) : value :=
  Server.or_else (field userContext "authorization")
    (Server.or_else (field (field userContext "headers") "authorization")
       (Server.or_else (field (field userContext "headers") "Authorization")
          (match envValue h "ZENSKAR_AUTH_TOKEN" with
           | VStr t => if String.eqb t "" then VNull else VStr ("Bearer " ++ t)
           | _ => VNull
           end))).

(** [checkNeedsApproval] for a tool whose flag is a boolean: whether an
    approval request is due, and the arguments as the check leaves them
    (an approved decision with [modifiedArguments] replaces every
    argument but [__userContext]). *)
Definition checkNeedsApproval (tool : toolSpec) (args : object) : bool * object :=
  if negb (tool_needsApproval tool) then (false, args)
  else
    let userContext := get args "__userContext" in
    match field (field userContext "approval") "approved" with
    | VBool true =>
        match field (field userContext "approval") "modifiedArguments" with
        | VObj modifiedArgs =>
            (false,
             set (fold_left (fun a kv => set a (fst kv) (snd kv)) modifiedArgs
                    (filter (fun kv => String.eqb (fst kv) "__userContext") args))
               "__userContext" userContext)
        | _ => (false, args)
        end
    | _ => (true, args)
    end.

(** What a tool's [needsApproval] may hold: a value of the
    configuration, or a function of the arguments, which returns a value
    or throws. *)
Inductive approvalFlag : Type :=
| FlagValue (v : value)
| FlagPredicate (p : object -> Server.outcome value).

(** [checkNeedsApproval] for either kind of flag: what it returns and
    the arguments as it leaves them, or the message of what the flag's
    function throws.  (The [modifiedArguments] of an approved decision
    are an object or absent, as in [checkNeedsApproval] above.) *)
Definition checkNeedsApprovalOf (flag : approvalFlag) (args : object)
    : Server.outcome (value * object) :=
  if negb (match flag with FlagValue v => truthy v | FlagPredicate _ => true end)
  then Server.Returned (VBool false, args)
  else
    let userContext := get args "__userContext" in
    match field (field userContext "approval") "approved" with
    | VBool true =>
        match field (field userContext "approval") "modifiedArguments" with
        | VObj modifiedArgs =>
            Server.Returned
              (VBool false,
               set (fold_left (fun a kv => set a (fst kv) (snd kv)) modifiedArgs
                      (filter (fun kv => String.eqb (fst kv) "__userContext") args))
                 "__userContext" userContext)
        | _ => Server.Returned (VBool false, args)
        end
    | _ =>
        match flag with
        | FlagPredicate p =>
            match p args with
            | Server.Returned v => Server.Returned (v, args)
            | Server.Thrown message => Server.Thrown message
            end
        | FlagValue v =>
            Server.Returned
              (VBool (match v with VBool true => true | _ => false end), args)
        end
    end.

(** [tool.requestTemplate?.method || 'GET'] *)
Definition methodOf (tool : toolSpec) : string :=
  if String.eqb (tpl_method (tool_requestTemplate tool)) "" then "GET"
  else tpl_method (tool_requestTemplate tool).

(** The [extractContractFromRaw] block: [organization_id] is filled
    from the context or the environment when the body has none. *)
Definition contractDefaults (h : host) (userContext : value) (bodyParams : object) : object :=
  if truthy (get bodyParams "organization_id") then bodyParams
  else
    let orgId := resolveOrganization h userContext in
    if truthy orgId then set bodyParams "organization_id" orgId else bodyParams.

(** The request body of [executeAPICall]: the object that is
    serialised, [None] for no body.  Every method but [GET] and [DELETE],
    compared as written, builds one. *)
Definition buildBody (h : host) (tool : toolSpec) (userContext : value)
    (cleanArgs : object) : option object :=
  if negb (String.eqb (methodOf tool) "GET") && negb (String.eqb (methodOf tool) "DELETE")
  then
    let b0 := fold_left (Server.bodyStep tool cleanArgs) (tool_args tool) [] in
    let b1 := if String.eqb (tool_name tool) "extractContractFromRaw"
              then contractDefaults h userContext b0 else b0 in
    let b2 := if String.eqb (tool_name tool) "createRawMetric"
              then rawMetricDefaults cleanArgs b1 else b1 in
    match b2 with
    | [] => None
    | _ => Some b2
    end
  else None.

(** The loop over the headers of the user context: a header is added
    when its value is truthy and the headers built so far have nothing
    truthy under its lower-case name. *)
Definition extraHeaderStep (contextHeaders : object) (headers : object)
    (kv : string * value) : object :=
  if truthy (get contextHeaders (fst kv))
     && negb (truthy (get headers (toLowerCase (fst kv))))
  then set headers (fst kv) (get contextHeaders (fst kv))
  else headers.

(** The headers of [executeAPICall], or the message of the error it
    throws; [templateHeaders] are the headers of the tool's request
    template, which are set last. *)
Definition buildHeaders (h : host) (userContext : value)
    (templateHeaders : object) : Server.outcome object :=
  let headers0 :=
    [ ("Content-Type", VStr "application/json");
      ("User-Agent", VStr "Zenskar-MCP-Server/1.0.0");
      ("apiversion", VStr "20230501") ] in
  let orgId := resolveOrganization h userContext in
  let authToken := resolveAuthorization h userContext in
  if negb (truthy orgId) then
    Server.Thrown
      "Organization ID is required for API access. Set ZENSKAR_ORGANIZATION env var or provide in user context."
  else if negb (truthy authToken) then
    Server.Thrown
      "Authorization token is required for API access. Set ZENSKAR_AUTH_TOKEN env var or provide in user context."
  else
    match authToken with
    | VStr token =>
        let headers1 := set headers0 "organisation" orgId in
        let headers2 :=
          set headers1 "Authorization"
            (VStr (if Str.starts_with "Bearer " token then token
                   else ("Bearer " ++ token)%string)) in
        let headers3 :=
          if truthy (field userContext "apiKey")
          then set headers2 "x-api-key" (field userContext "apiKey")
          else if truthy (field (field userContext "headers") "x-api-key")
          then set headers2 "x-api-key" (field (field userContext "headers") "x-api-key")
          else headers2 in
        let headers4 :=
          match field userContext "headers" with
          | VObj contextHeaders =>
              fold_left (extraHeaderStep contextHeaders) contextHeaders headers3
          | _ => headers3
          end in
        Server.Returned
          (fold_left (fun hs kv => set hs (fst kv) (snd kv)) templateHeaders headers4)
    | _ => Server.Thrown "authToken.startsWith is not a function"
    end.

(** [getFieldType] *)
Definition getFieldType (apiType : string) : string :=
  if String.eqb apiType "string" then "text"
  else if String.eqb apiType "integer" || String.eqb apiType "number" then "number"
  else if String.eqb apiType "boolean" then "checkbox"
  else "text".

(** One field of the approval form. *)
Record fieldDescriptor : Type := mkFieldDescriptor {
  fd_name : string;
  fd_label : string;
  fd_type : string;
  fd_required : bool;
  fd_value : value;
  fd_sensitive : bool
}.

Record approvalRequest : Type := mkApprovalRequest {
  ar_type : string;
  ar_toolName : string;
  ar_toolDescription : string;
  ar_arguments : object;
  ar_approvalConfig : value;
  ar_fields : list fieldDescriptor
}.

(** [a.includes(name)] for an array of the configuration. *)
Definition includes (a : value) (name : string) : bool :=
  match a with
  | VArr l => existsb (fun x => match x with VStr s => String.eqb s name | _ => false end) l
  | _ => false
  end.

Definition defaultApprovalConfig (tool : toolSpec) : value :=
  VObj [ ("title", VStr ("Approve " ++ tool_name tool));
         ("description",
          VStr ("This action requires your approval: " ++ tool_description tool));
         ("warningText", VStr "Please review the parameters carefully before proceeding.");
         ("confirmText", VStr "Approve");
         ("cancelText", VStr "Cancel") ].

(** [generateApprovalRequest(tool, args)]; [approvalConfig] is the
    tool's [approvalConfig], [undefined] when the configuration gives
    none. *)
Definition generateApprovalRequest (tool : toolSpec) (approvalConfig : value)
    (args : object) : approvalRequest :=
  let cleanArgs := without ["__userContext"] args in
  {| ar_type := "approval_required";
     ar_toolName := tool_name tool;
     ar_toolDescription := tool_description tool;
     ar_arguments := cleanArgs;
     ar_approvalConfig := Server.or_else approvalConfig (defaultApprovalConfig tool);
     ar_fields :=
       map (fun arg =>
              {| fd_name := arg_name arg;
                 fd_label := if String.eqb (arg_description arg) "" then arg_name arg
                             else arg_description arg;
                 fd_type := getFieldType (arg_type arg);
                 fd_required := arg_required arg;
                 fd_value := get cleanArgs (arg_name arg);
                 fd_sensitive := includes (field approvalConfig "sensitiveFields") (arg_name arg) |})
         (tool_args tool) |}.

End Variant.

(** ** The second server script: the call and the tool handler *)

Module VariantServer.
Import JS Config.

(** What a tool of the configuration carries besides [Config.toolSpec]:
    its [approvalConfig], the headers of its request template and the
    [prependBody] of its response template ([undefined] and empty when
    the configuration gives none). *)
Record toolExtras : Type := mkExtras {
  approvalConfig : value;
  templateHeaders : object;
  prependBody : value
}.

(** What awaiting [fetch] and [response.text()] gives in this script,
    where the status text is read too. *)
Inductive response : Type :=
| Answer (status : Z) (statusText : string) (text : string)
| Failure (message : string).

(** The result of [validateToolLimits]. *)
Record validation : Type := mkValidation {
  valid : bool;
  adjustedArgs : object;
  warnings : list string;
  errors : list string
}.

(** The result of [generateTokenUsageFeedback]. *)
Record feedback : Type := mkFeedback {
  fb_message : string;
  fb_severity : string;
  fb_suggestions : list string
}.

(** The record handed to [tokenUsageMonitor.logUsage]. *)
Record usage : Type := mkUsage {
  u_userId : value;
  u_chatId : value;
  u_tool : string;
  u_requestTokens : nat;
  u_responseTokens : nat;
  u_totalTokens : nat;
  u_status : string;
  u_reason : value;
  u_limitRequested : value;
  u_limitApplied : value
}.

(** The surroundings of the script: the process environment and JSON
    functions of [Net.host], the network, the compact [JSON.stringify],
    the two functions of the limits library and the clock.
    [tokenUsageMonitor.logUsage] is awaited inside a [try] whose [catch]
    only logs, so the handler goes on the same whether it resolves or
    rejects: the records it is called with are kept in the trace. *)
Record world : Type := mkWorld {
  host : Net.host;
  fetch : Net.request -> response;
  JSON_stringify : value -> string;
  validateToolLimits : string -> object -> validation;
  generateTokenUsageFeedback : string -> object -> feedback;
  currentDateTime : value
}.

Definition nl : string := ResponseProcessor.nl.

Definition bytes (l : list nat) : string :=
  fold_right (fun n s => String (ascii_of_nat n) s) EmptyString l.

(** The bullet and the clipboard mark, byte for byte as the script
    holds them, and the double quote. *)
Definition bullet : string := bytes [195; 162; 226; 130; 172; 194; 162].
Definition clipboard : string := bytes [195; 176; 197; 184; 226; 128; 156; 226; 128; 185].
Definition dq : string := bytes [34].

(** [tool.requestTemplate?.url || '/'] *)
Definition urlOf (tool : toolSpec) : string :=
  if String.eqb (tpl_url (tool_requestTemplate tool)) "" then "/"
  else tpl_url (tool_requestTemplate tool).

(** [process.env.ZENSKAR_API_BASE_URL || 'https://api.zenskar.com'] *)
Definition baseUrl (w : world) : string :=
  match Net.env (host w) "ZENSKAR_API_BASE_URL" with
  | Some b => if String.eqb b "" then "https://api.zenskar.com" else b
  | None => "https://api.zenskar.com"
  end.

(** The URL the request goes to: placeholders filled, query string
    appended, the base URL in front unless the template's URL is
    absolute. *)
Definition fullUrl (w : world) (tool : toolSpec) (cleanArgs : object) : string :=
  let url0 := urlOf tool in
  let isAbsoluteUrl := Str.starts_with "http://" url0 || Str.starts_with "https://" url0 in
  let url1 := Variant.substitutePath tool cleanArgs url0 in
  let qs := Url.toString (Variant.buildQuery tool cleanArgs) in
  let url2 := if String.eqb qs "" then url1 else (url1 ++ "?" ++ qs)%string in
  if isAbsoluteUrl then url2 else (baseUrl w ++ url2)%string.

(** [executeAPICall(tool, args)]: the value it resolves to or the
    message of the error it throws, with the [fetch] calls it made. *)
Definition executeAPICall (w : world) (x : toolExtras) (tool : toolSpec)
    (args : object) : Server.run value :=
  if String.eqb (tool_name tool) "getCurrentDateTime" then
    Server.mkRun (Server.Returned (currentDateTime w)) []
  else
    let userContext := get args "__userContext" in
    let cleanArgs := without ["__userContext"] args in
    match Variant.buildHeaders (host w) userContext (templateHeaders x) with
    | Server.Thrown message => Server.mkRun (Server.Thrown message) []
    | Server.Returned headers =>
        let req :=
          {| Net.req_url := fullUrl w tool cleanArgs;
             Net.req_method := Variant.methodOf tool;
             Net.req_headers := map (fun kv => (fst kv, toStr (snd kv))) headers;
             Net.req_body := Variant.buildBody (host w) tool userContext cleanArgs |} in
        match fetch w req with
        | Answer status statusText responseText =>
            if Net.ok status then
              let result :=
                match Net.JSON_parse (host w) responseText with
                | Some v => v
                | None => VStr responseText
                end in
              Server.mkRun
                (Server.Returned
                   (if truthy (prependBody x)
                    then VObj [ ("template_info", prependBody x); ("api_response", result) ]
                    else result))
                [req]
            else
              Server.mkRun
                (Server.Thrown
                   ("Network error: API request failed: " ++ number_to_string status ++ " "
                    ++ statusText ++ nl ++ "Response: " ++ responseText))
                [req]
        | Failure message =>
            Server.mkRun (Server.Thrown ("Network error: " ++ message)) [req]
        end
    end.

(** What the handler returns to the host. *)
Record toolResult : Type := mkResult {
  text : string;
  isError : bool;
  isApprovalRequired : bool;
  approvalRequest : option Variant.approvalRequest
}.

(** One invocation: its result, its network calls and the usage records
    it handed to the monitor. *)
Record trace : Type := mkTrace {
  result : toolResult;
  calls : list Net.request;
  logs : list usage
}.

(** [Math.ceil(n / 4)] *)
Definition estimateTokens (n : nat) : nat := (n + 3) / 4.

(** [a !== b] on the values a limit takes; two objects or arrays count
    as different. *)
Definition strict_neq (a b : value) : bool :=
  match a, b with
  | VUndef, VUndef | VNull, VNull => false
  | VBool x, VBool y => negb (Bool.eqb x y)
  | VNum x, VNum y => negb (Z.eqb (double_of x) (double_of y))
  | VStr x, VStr y => negb (String.eqb x y)
  | _, _ => true
  end.

Definition fieldValue (f : Variant.fieldDescriptor) : value :=
  VObj [ ("name", VStr (Variant.fd_name f));
         ("label", VStr (Variant.fd_label f));
         ("type", VStr (Variant.fd_type f));
         ("required", VBool (Variant.fd_required f));
         ("value", Variant.fd_value f);
         ("sensitive", VBool (Variant.fd_sensitive f)) ].

(** The approval request as the object that is serialised. *)
Definition approvalRequestValue (r : Variant.approvalRequest) : value :=
  VObj [ ("type", VStr (Variant.ar_type r));
         ("toolName", VStr (Variant.ar_toolName r));
         ("toolDescription", VStr (Variant.ar_toolDescription r));
         ("arguments", VObj (Variant.ar_arguments r));
         ("approvalConfig", Variant.ar_approvalConfig r);
         ("fields", VArr (map fieldValue (Variant.ar_fields r))) ].

Definition blockedText : string :=
  ("I'm sorry, but this request is too large to process efficiently. To get better results, please try:"
   ++ nl ++ nl
   ++ bullet ++ " Using smaller numbers when asking for lists (try 10-20 items instead of larger amounts)" ++ nl
   ++ bullet ++ " Being more specific with your search criteria" ++ nl
   ++ bullet ++ " Breaking your request into smaller parts" ++ nl ++ nl
   ++ "For example, instead of asking for all customers, try asking for "
   ++ dq ++ "customers created this month" ++ dq ++ " or "
   ++ dq ++ "customers from a specific region." ++ dq)%string.

Definition warningText : string :=
  (nl ++ nl ++ "---" ++ nl ++ "**" ++ clipboard ++ " Response Summary:**" ++ nl
   ++ "Your request returned a large amount of data, so I've shown you a summary with the most relevant information. "
   ++ "If you need more specific details, try asking for:" ++ nl ++ nl
   ++ bullet ++ " Specific items by ID or name" ++ nl
   ++ bullet ++ " Data from a particular time period" ++ nl
   ++ bullet ++ " Filtered results based on status or category" ++ nl ++ nl
   ++ "This helps ensure faster and more focused results.")%string.

Definition errorText (toolName message : string) : string :=
  ("Error executing " ++ toolName ++ ": " ++ message ++ nl ++ nl
   ++ "This might be due to:" ++ nl
   ++ "- Invalid parameters" ++ nl
   ++ "- API rate limiting" ++ nl
   ++ "- Network connectivity issues" ++ nl
   ++ "- Authentication problems" ++ nl
   ++ "- Token usage limits exceeded" ++ nl ++ nl
   ++ "Please check the parameters and try again with smaller limits if needed.")%string.

(** The handler registered for a tool, from the approval check on:
    [check] is what [checkNeedsApproval] returned, as a truth value, and
    the arguments as it left them. *)
Definition afterCheck (w : world) (x : toolExtras) (tool : toolSpec)
    (check : bool * object) : trace :=
  let needsApproval := fst check in
  let args := snd check in
  let userContext := get args "__userContext" in
  let isApproved :=
    match Variant.field userContext "approved" with VBool true => true | _ => false end in
  if needsApproval && negb isApproved then
    let request := Variant.generateApprovalRequest tool (approvalConfig x) args in
    mkTrace
      (mkResult (Net.JSON_stringify2 (host w) (approvalRequestValue request))
         false true (Some request))
      [] []
  else
    let userId := Server.or_else (Variant.field userContext "userId") (VStr "unknown") in
    let chatId := Server.or_else (Variant.field userContext "chatId") VNull in
    let requestTokens := estimateTokens (Str.jsLength (JSON_stringify w (VObj args))) in
    let limitsValidation := validateToolLimits w (tool_name tool) args in
    if negb (valid limitsValidation) then
      mkTrace (mkResult blockedText true false None) []
        [ mkUsage userId chatId (tool_name tool) requestTokens 200 (requestTokens + 200)
            "blocked" (VStr (String.concat "; " (errors limitsValidation)))
            (get args "limit") VNull ]
    else
      let adjusted := adjustedArgs limitsValidation in
      let limitChanged :=
        truthy (get args "limit") && truthy (get adjusted "limit")
        && strict_neq (get args "limit") (get adjusted "limit") in
      let limitRequested := if limitChanged then get args "limit" else VNull in
      let limitApplied := if limitChanged then get adjusted "limit" else VNull in
      let tokenFeedback := generateTokenUsageFeedback w (tool_name tool) adjusted in
      let call := executeAPICall w x tool adjusted in
      match Server.result call with
      | Server.Thrown message =>
          let errorMessage := errorText (tool_name tool) message in
          let responseTokens := estimateTokens (Str.jsLength errorMessage) in
          mkTrace (mkResult errorMessage true false None) (Server.calls call)
            [ mkUsage userId chatId (tool_name tool) requestTokens responseTokens
                (requestTokens + responseTokens) "blocked"
                (VStr ("Execution failed: " ++ message)) limitRequested limitApplied ]
      | Server.Returned rawResult =>
          let processed :=
            ResponseProcessor.processResponse (host w) rawResult (tool_name tool) in
          let truncated :=
            negb (Nat.eqb (List.length (warnings limitsValidation)) 0)
            || String.eqb (fb_severity tokenFeedback) "warning" in
          let responseText :=
            if truncated then (processed ++ warningText)%string else processed in
          let responseTokens := estimateTokens (Str.jsLength responseText) in
          mkTrace (mkResult responseText false false None) (Server.calls call)
            [ mkUsage userId chatId (tool_name tool) requestTokens responseTokens
                (requestTokens + responseTokens)
                (if truncated then "truncated" else "success")
                (if truncated then VStr "Response optimized due to size limits" else VNull)
                limitRequested limitApplied ]
      end.

(** The handler registered for a tool whose flag is a boolean. *)
Definition toolHandler (w : world) (x : toolExtras) (tool : toolSpec)
    (args0 : object) : trace :=
  afterCheck w x tool (Variant.checkNeedsApproval tool args0).

(** The handler registered for a tool with either kind of flag.  What
    the flag's function throws is caught by the handler like any other
    error: no token of the request has been counted yet, and no limit. *)
Definition toolHandlerOf (w : world) (x : toolExtras) (tool : toolSpec)
    (flag : Variant.approvalFlag) (args0 : object) : trace :=
  match Variant.checkNeedsApprovalOf flag args0 with
  | Server.Returned (needsApproval, args) =>
      afterCheck w x tool (truthy needsApproval, args)
  | Server.Thrown message =>
      let userContext := get args0 "__userContext" in
      let userId := Server.or_else (Variant.field userContext "userId") (VStr "unknown") in
      let chatId := Server.or_else (Variant.field userContext "chatId") VNull in
      let errorMessage := errorText (tool_name tool) message in
      let responseTokens := estimateTokens (Str.jsLength errorMessage) in
      mkTrace (mkResult errorMessage true false None) []
        [ mkUsage userId chatId (tool_name tool) 0 responseTokens
            (0 + responseTokens) "blocked"
            (VStr ("Execution failed: " ++ message)) VNull VNull ]
  end.

End VariantServer.

(** ** Notions of the specification *)

Module Spec.
Import JS.

(** The approval decision of an invocation context: [true] when the
    arguments carry [__userContext.approval.approved === true]. *)
Definition approvedDecision (args : object) : bool :=
  match get args "__userContext" with
  | VObj ctx =>
      match get ctx "approval" with
      | VObj a => match get a "approved" with VBool true => true | _ => false end
      | _ => false
      end
  | _ => false
  end.

(** The decision the handler reads at the top of the context:
    [__userContext.approved === true]. *)
Definition approvedInContext (args : object) : bool :=
  match Variant.field (get args "__userContext") "approved" with
  | VBool true => true
  | _ => false
  end.



(** The number of dot-delimited segments of a credential. *)
Fixpoint dotSegments (s : string) : nat :=
  match s with
  | EmptyString => 1
  | String c s' => if Ascii.eqb c "." then S (dotSegments s') else dotSegments s'
  end.

(** The value of a header of a request, when it is sent. *)
Fixpoint header (hs : list (string * string)) (name : string) : option string :=
  match hs with
  | [] => None
  | (n, v) :: hs' => if String.eqb n name then Some v else header hs' name
  end.

(** The characters of a calendar date or of a time of day in ISO 8601:
    digits and the punctuation [-], [:], [.], [+] and [,]. *)
Definition isoChar (c : ascii) : bool :=
  let n := nat_of_ascii c in
  ((48 <=? n)%nat && (n <=? 57)%nat) || Url.one_of "-:.+," c.

Fixpoint isoPart (s : string) : bool :=
  match s with
  | EmptyString => true
  | String c s' => isoChar c && isoPart s'
  end.

End Spec.

(** ** Sample catalogue and surroundings *)

Module Sample.
Import JS Config Net.

Definition cfg : config :=
  mkConfig "zenskar" "https://api.zenskar.com" [].

(** A process whose environment holds both fallback variables, and a
    network that answers every request with an empty list. *)
Definition hostWithEnv : host :=
  {| env := fun k =>
       if String.eqb k "ZENSKAR_ORGANIZATION" then Some "org_env"
       else if String.eqb k "ZENSKAR_AUTH_TOKEN" then Some "token_env"
       else None;
     fetch := fun _ => Response 200 "[]";
     JSON_parse := fun _ => None;
     JSON_stringify2 := fun _ => "" |}.

Definition listCustomers : toolSpec :=
  mkTool "listCustomers" "List customers"
    [ mkArg "limit" "integer" "query" false "Page size";
      mkArg "tags" "array" "query" false "Tags";
      mkArg "search" "string" "query" false "Search text";
      mkArg "active" "boolean" "query" false "Only active customers" ]
    (mkTemplate "/customers" "GET") false.

Definition getCustomer : toolSpec :=
  mkTool "getCustomer" "Get a customer"
    [ mkArg "customer_id" "string" "path" true "Customer id" ]
    (mkTemplate "/customers/{customer_id}" "GET") false.

Definition deleteCustomer : toolSpec :=
  mkTool "deleteCustomer" "Delete a customer"
    [ mkArg "customer_id" "string" "path" true "Customer id" ]
    (mkTemplate "/customers/{customer_id}" "DELETE") true.

Definition createRawMetric : toolSpec :=
  mkTool "createRawMetric" "Create a raw metric"
    [ mkArg "name" "string" "body" true "Metric name";
      mkArg "dataschema" "object" "body" false "Column types";
      mkArg "column_order" "array" "body" false "Column order" ]
    (mkTemplate "/usage/raw_metrics" "POST") false.

Definition ingestRawMetricEvent : toolSpec :=
  mkTool "ingestRawMetricEvent" "Ingest a usage event"
    [ mkArg "api_slug" "string" "path" true "Raw metric slug";
      mkArg "event" "object" "body" true "Usage event" ]
    (mkTemplate "/usage/{api_slug}" "POST") false.

Definition credentials : object :=
  [ ("organization", VStr "org_1"); ("authorization", VStr "sk_live_abc") ].

End Sample.

(** ** Sample surroundings of the second script *)

Module VariantSample.
Import JS VariantServer.

(** A world whose limits library rejects a [limit] above 100 and whose
    network answers every request with an empty list. *)
Definition strictWorld : world :=
  {| host := Sample.hostWithEnv;
     fetch := fun _ => Answer 200 "OK" "[]";
     JSON_stringify := fun _ => "{}";
     validateToolLimits := fun _ args =>
       match get args "limit" with
       | VNum n =>
           if (100 <? n)%Z then mkValidation false args [] ["limit too large"]
           else mkValidation true args [] []
       | _ => mkValidation true args [] []
       end;
     generateTokenUsageFeedback := fun _ _ =>
       mkFeedback "Limits validation unavailable" "info" [];
     currentDateTime := VNull |}.

Definition noExtras : toolExtras := mkExtras VUndef [] VUndef.

(** The same world with an API key of one segment as the token of the
    process environment. *)
Definition keyWorld : world :=
  {| host :=
       {| Net.env := fun k =>
            if String.eqb k "ZENSKAR_ORGANIZATION" then Some "org_env"
            else if String.eqb k "ZENSKAR_AUTH_TOKEN" then Some "sk_live_abc"
            else None;
          Net.fetch := Net.fetch Sample.hostWithEnv;
          Net.JSON_parse := Net.JSON_parse Sample.hostWithEnv;
          Net.JSON_stringify2 := Net.JSON_stringify2 Sample.hostWithEnv |};
     fetch := fetch strictWorld;
     JSON_stringify := JSON_stringify strictWorld;
     validateToolLimits := validateToolLimits strictWorld;
     generateTokenUsageFeedback := generateTokenUsageFeedback strictWorld;
     currentDateTime := VNull |}.

End VariantSample.

(** ** Auxiliary definitions of the proofs *)

Module Aux.
Import JS Config.

(** What one argument adds to [queryParams] in [Server.buildQuery]. *)
Definition queryEntry (toolArgs : object) (arg : argSpec) : list (string * string) :=
  if String.eqb (arg_position arg) "query" && negb (is_undefined (get toolArgs (arg_name arg)))
  then [(arg_name arg, toStr (get toolArgs (arg_name arg)))]
  else [].

(** A text without [$], in which [String.prototype.replace] sees no
    replacement pattern. *)
Fixpoint no_dollar (s : string) : bool :=
  match s with
  | EmptyString => true
  | String c s' => negb (Ascii.eqb c "$") && no_dollar s'
  end.

(** A text made of letters, digits, the marks [-_.!~*'()] and [%]
    only: it holds no [/], [?], [#], [&], [=], space or [$]. *)
Fixpoint url_safe (s : string) : bool :=
  match s with
  | EmptyString => true
  | String c s' =>
      (Url.is_alnum c || Url.one_of "-_.!~*'()%" c) && url_safe s'
  end.

(** Whether a character occurs in a text. *)
Fixpoint occurs (c : ascii) (s : string) : bool :=
  match s with
  | EmptyString => false
  | String d s' => Ascii.eqb d c || occurs c s'
  end.

(** What holds of every entry of the query string of the second
    script: its name has a value that is present, and is declared at the
    [query] position or is a key declared neither at [path] nor at
    [body]. *)
Definition entry_ok (tool : toolSpec) (cleanArgs : object) (nv : string * string) : Prop :=
  Variant.present (get cleanArgs (fst nv)) = true /\
  (Variant.declaredAt tool "query" (fst nv) = true \/
   (has cleanArgs (fst nv) = true /\
    Variant.declaredAt tool "path" (fst nv) = false /\
    Variant.declaredAt tool "body" (fst nv) = false)).

(** The number of bytes of the white-space character a text starts
    with, 0 when it starts with none. *)
Definition ws_len (s : string) : nat :=
  match s with
  | EmptyString => 0
  | String c s1 =>
      if Str.is_ws c then 1
      else match s1 with
           | String d s2 =>
               if Str.is_ws2 c d then 2
               else match s2 with
                    | String e s3 => if Str.is_ws3 c d e then 3 else 0
                    | EmptyString => 0
                    end
           | EmptyString => 0
           end
  end.

Fixpoint drop (n : nat) (s : string) : string :=
  match n, s with
  | O, _ => s
  | S n', String _ s' => drop n' s'
  | S _, EmptyString => EmptyString
  end.

(** An ASCII character that is not white space: it is no part of a
    white-space character. *)
Definition plain (a : ascii) : bool :=
  (nat_of_ascii a <? 128)%nat && negb (Str.is_ws a).

Fixpoint all_plain (s : string) : bool :=
  match s with
  | EmptyString => true
  | String c s' => plain c && all_plain s'
  end.

(** A text of the Basic Multilingual Plane: none of its characters takes
    four bytes, so each is one UTF-16 code unit. *)
Fixpoint bmp (s : string) : bool :=
  match s with
  | EmptyString => true
  | String c s' => (Str.units c <=? 1)%nat && bmp s'
  end.

(** The field [k] of a request body, [undefined] when the body is
    [null] or has no such field. *)
Definition bodyField (body : option object) (k : string) : value :=
  match body with
  | Some b => get b k
  | None => VUndef
  end.

End Aux.

(** ** Objects and strings: basic facts *)

Section ObjectFacts.
Import JS.

Lemma get_without_other (ks : list string) (o : object) (k : string) :
  existsb (String.eqb k) ks = false ->
  get (without ks o) k = get o k.
Proof.
  intros Hk. unfold without.
  induction o as [|[k' v] o IH]; simpl; [reflexivity|].
  destruct (String.eqb k' k) eqn:E.
  - apply String.eqb_eq in E. subst k'. rewrite Hk. simpl.
    rewrite String.eqb_refl. reflexivity.
  - destruct (existsb (String.eqb k') ks); simpl; [exact IH|].
    rewrite E. exact IH.
Qed.

Lemma get_set_same (o : object) (k : string) (v : value) :
  get (set o k v) k = v.
Proof.
  induction o as [|[k' v'] o IH]; simpl.
  - rewrite String.eqb_refl. reflexivity.
  - destruct (String.eqb k' k) eqn:E; simpl; rewrite E; [reflexivity|exact IH].
Qed.

Lemma get_set_other (o : object) (k k' : string) (v : value) :
  k <> k' -> get (set o k v) k' = get o k'.
Proof.
  intros Hne.
  induction o as [|[k0 v0] o IH]; simpl.
  - destruct (String.eqb k k') eqn:E; [apply String.eqb_eq in E; contradiction|reflexivity].
  - destruct (String.eqb k0 k) eqn:E; simpl.
    + apply String.eqb_eq in E. subst k0.
      destruct (String.eqb k k') eqn:E'; [apply String.eqb_eq in E'; contradiction|reflexivity].
    + destruct (String.eqb k0 k'); [reflexivity|exact IH].
Qed.

Lemma has_set (o : object) (k k' : string) (v : value) :
  has (set o k v) k' = String.eqb k k' || has o k'.
Proof.
  induction o as [|[k0 v0] o IH]; simpl.
  - reflexivity.
  - destruct (String.eqb k0 k) eqn:E; simpl.
    + apply String.eqb_eq in E. subst k0.
      destruct (String.eqb k k'); reflexivity.
    + rewrite IH. destruct (String.eqb k0 k'), (String.eqb k k'); reflexivity.
Qed.

Lemma has_false_get (o : object) (k : string) :
  has o k = false -> get o k = VUndef.
Proof.
  induction o as [|[k0 v0] o IH]; simpl; [reflexivity|].
  destruct (String.eqb k0 k); simpl; [discriminate|exact IH].
Qed.

End ObjectFacts.

(** [Number::toString] on sample integers: the digits up to 2^53, the
    nearest double in its shortest digits above it, exponent form from
    10^21 on. *)
Lemma number_to_string_samples :
  JS.number_to_string 500 = "500" /\
  JS.number_to_string (-42) = "-42" /\
  JS.number_to_string 9007199254740993 = "9007199254740992" /\
  JS.number_to_string 18446744073709551615 = "18446744073709552000" /\
  JS.number_to_string 999999999999999900000 = "999999999999999900000" /\
  JS.number_to_string 1000000000000000000000 = "1e+21" /\
  JS.number_to_string 123456789012345678901234567890 = "1.2345678901234568e+29".
Proof. repeat split; vm_compute; reflexivity. Qed.

(** ** Credentials (C5) *)

Section Credentials.
Import JS Config Net Server.
Variables (cfg : config) (h : host) (tool : toolSpec).

Lemma executeTool_calls_creds (args : object) (req : request) :
  In req (calls (executeTool cfg h tool args)) ->
  exists org auth,
    get args "organization" = VStr org /\ org <> "" /\
    get args "authorization" = VStr auth /\ auth <> "" /\
    req = buildRequest cfg tool (without ["organization"; "authorization"] args) org auth.
Proof.
  unfold executeTool.
  destruct (get args "organization") as [| |b|n|org|l|o] eqn:Ho; simpl;
    try contradiction;
    destruct (get args "authorization") as [| |b'|n'|auth|l'|o'] eqn:Ha; simpl;
    try contradiction;
    repeat match goal with
    | |- context [if ?c then _ else _] => destruct c eqn:?; simpl
    end; try contradiction.
  intros [<-|[]]. exists org, auth.
  repeat split; try reflexivity; intros ->; simpl in *; discriminate.
Qed.

Lemma toolHandler_calls (args : object) :
  calls (toolHandler cfg h tool args) = calls (executeTool cfg h tool args).
Proof.
  unfold toolHandler. destruct (result (executeTool cfg h tool args)); reflexivity.
Qed.

End Credentials.

(** C5: an invocation whose arguments give no organization id fails with
    the organization error, one that gives no credential fails with an
    authorization error, each before any network access and each on its
    own; and every request that reaches the network, through
    [executeTool] or through the registered handler, carries a non-empty
    organization id and a non-empty credential in its headers. *)
Theorem C5_credentials_required
    (cfg : Config.config) (h : Net.host) (tool : Config.toolSpec) (args : JS.object) :
  let r := Server.executeTool cfg h tool args in
  (JS.truthy (JS.get args "organization") = false ->
     Server.result r = Server.Thrown "Organization ID is required for API access"
     /\ Server.calls r = []) /\
  (JS.truthy (JS.get args "authorization") = false ->
     (Server.result r = Server.Thrown "Organization ID is required for API access"
      \/ Server.result r = Server.Thrown "Authorization token is required for API access")
     /\ Server.calls r = []) /\
  (JS.truthy (JS.get args "organization") = true ->
   JS.truthy (JS.get args "authorization") = false ->
     Server.result r = Server.Thrown "Authorization token is required for API access") /\
  (forall req, In req (Server.calls (Server.toolHandler cfg h tool args)) ->
     exists org auth,
       JS.get args "organization" = JS.VStr org /\ org <> "" /\
       JS.get args "authorization" = JS.VStr auth /\ auth <> "" /\
       Spec.header (Net.req_headers req) "organisation" = Some org /\
       Spec.header (Net.req_headers req) "Authorization"
         = Some (if Str.starts_with "Bearer " auth then auth
                 else ("Bearer " ++ auth)%string)).
Proof.
  cbv zeta. repeat split.
  - unfold Server.executeTool. rewrite H. reflexivity.
  - unfold Server.executeTool. rewrite H. reflexivity.
  - unfold Server.executeTool. rewrite H.
    destruct (JS.truthy (JS.get args "organization")); simpl; auto.
  - unfold Server.executeTool. rewrite H.
    destruct (JS.truthy (JS.get args "organization")); reflexivity.
  - intros Ho Ha. unfold Server.executeTool. rewrite Ho, Ha. reflexivity.
  - intros req Hin. rewrite toolHandler_calls in Hin.
    apply executeTool_calls_creds in Hin.
    destruct Hin as (org & auth & Ho & Hne & Ha & Hna & ->).
    exists org, auth. repeat split; auto.
Qed.

Lemma C5_credentials_required_witness :
  Server.result (Server.executeTool Sample.cfg Sample.hostWithEnv Sample.listCustomers
                   [("organization", JS.VStr "org_1")])
  = Server.Thrown "Authorization token is required for API access".
Proof.
  exact (proj1 (proj2 (proj2
    (C5_credentials_required Sample.cfg Sample.hostWithEnv Sample.listCustomers
       [("organization", JS.VStr "org_1")]))) eq_refl eq_refl).
Defined.

(** ** The invocation boundary (C10) *)

Lemma starts_with_app (p s : string) : Str.starts_with p (p ++ s) = true.
Proof.
  unfold Str.starts_with.
  induction p as [|c p IH]; simpl.
  - destruct s; reflexivity.
  - destruct (ascii_dec c c) as [_|ne]; [exact IH|contradiction].
Qed.



(** ** [server.js] beside the second script: approval, limits, environment *)

(** [server.js] has no approval gate: [deleteCustomer] flagged
    [needsApproval], with no approval decision in the arguments, is
    executed: the [DELETE] request is sent and the API's answer
    returned. *)
Lemma Server_flagged_tool_is_executed :
  let args := Sample.credentials ++ [("customer_id", JS.VStr "cus_1")] in
  Config.tool_needsApproval Sample.deleteCustomer = true /\
  Spec.approvedDecision args = false /\
  Server.toolHandler Sample.cfg Sample.hostWithEnv Sample.deleteCustomer args
  = Server.mkRun (Server.Returned (Server.mkPayload "[]"))
      [ {| Net.req_url := "https://api.zenskar.com/customers/cus_1";
           Net.req_method := "DELETE";
           Net.req_headers :=
             [ ("Content-Type", "application/json");
               ("Accept", "application/json");
               ("organisation", "org_1");
               ("Authorization", "Bearer sk_live_abc") ];
           Net.req_body := None |} ].
Proof.
  cbv zeta. split; [reflexivity|]. split; [reflexivity|]. vm_compute. reflexivity.
Qed.


Section QueryFacts.
Import JS Config Server Aux.

Lemma fold_queryStep (toolArgs : object) (l : list argSpec) (q : Url.searchParams) :
  fold_left (queryStep toolArgs) l q = q ++ flat_map (queryEntry toolArgs) l.
Proof.
  revert q. induction l as [|a l IH]; intros q; simpl.
  - rewrite app_nil_r. reflexivity.
  - rewrite IH. unfold queryStep, queryEntry, Url.append.
    destruct (String.eqb (arg_position a) "query"
              && negb (is_undefined (get toolArgs (arg_name a)))); simpl.
    + rewrite <- app_assoc. reflexivity.
    + reflexivity.
Qed.

Lemma buildQuery_flat_map (tool : toolSpec) (toolArgs : object) :
  buildQuery tool toolArgs = flat_map (queryEntry toolArgs) (tool_args tool).
Proof. unfold buildQuery. rewrite fold_queryStep. reflexivity. Qed.

Lemma string_app_empty (a b : string) : (a ++ b)%string = "" -> a = "" /\ b = "".
Proof. destruct a; simpl; [auto|discriminate]. Qed.

Lemma toString_empty (q : Url.searchParams) : Url.toString q = "" -> q = [].
Proof.
  destruct q as [|[n v] q]; [reflexivity|].
  unfold Url.toString. simpl. intros H.
  destruct (map _ q).
  - apply string_app_empty in H. destruct H as [_ H]. discriminate.
  - apply string_app_empty in H. destruct H as [H _].
    apply string_app_empty in H. destruct H as [_ H]. discriminate.
Qed.

End QueryFacts.

(** [server.js] has no limit check: [listCustomers] with [limit = 500]
    goes out with [limit=500] in its query string. *)
Lemma Server_limit_500_is_sent :
  Server.toolHandler Sample.cfg Sample.hostWithEnv Sample.listCustomers
    (Sample.credentials ++ [("limit", JS.VNum 500)])
  = Server.mkRun (Server.Returned (Server.mkPayload "[]"))
      [ {| Net.req_url := "https://api.zenskar.com/customers?limit=500";
           Net.req_method := "GET";
           Net.req_headers :=
             [ ("Content-Type", "application/json");
               ("Accept", "application/json");
               ("organisation", "org_1");
               ("Authorization", "Bearer sk_live_abc") ];
           Net.req_body := None |} ].
Proof. vm_compute. reflexivity. Qed.

(** [server.js] reads no process environment: with both variables set
    and no credentials in the arguments, the invocation fails with the
    organization error and makes no network call. *)
Lemma Server_environment_not_consulted :
  Net.env Sample.hostWithEnv "ZENSKAR_ORGANIZATION" = Some "org_env" /\
  Net.env Sample.hostWithEnv "ZENSKAR_AUTH_TOKEN" = Some "token_env" /\
  Server.executeTool Sample.cfg Sample.hostWithEnv Sample.listCustomers
    [("limit", JS.VNum 10)]
  = Server.mkRun (Server.Thrown "Organization ID is required for API access") [] /\
  Server.toolHandler Sample.cfg Sample.hostWithEnv Sample.listCustomers
    [("limit", JS.VNum 10)]
  = Server.mkRun
      (Server.Returned (Server.mkPayload "Error: Organization ID is required for API access"))
      [].
Proof. repeat split. Qed.

(** In [server.js] every credential, whatever its shape, is sent as the
    [Authorization] header, with [Bearer ] put in front only when the
    credential does not start with it, and no request carries an
    [x-api-key] header. *)
Lemma Server_credential_always_bearer
    (cfg : Config.config) (h : Net.host) (tool : Config.toolSpec) (args : JS.object)
    (req : Net.request) :
  In req (Server.calls (Server.toolHandler cfg h tool args)) ->
  exists auth,
    JS.get args "authorization" = JS.VStr auth /\
    Spec.header (Net.req_headers req) "Authorization"
      = Some (if Str.starts_with "Bearer " auth then auth
              else ("Bearer " ++ auth)%string) /\
    Spec.header (Net.req_headers req) "x-api-key" = None.
Proof.
  intros Hin. rewrite toolHandler_calls in Hin.
  apply executeTool_calls_creds in Hin.
  destruct Hin as (org & auth & Ho & Hne & Ha & Hna & ->).
  exists auth. repeat split; auto.
Qed.

(** ** The credential's header (C3) *)

(** C3: a credential of one segment (no dot), which the specification
    sends as a vendor API-key header, is sent by both scripts as
    [Authorization: Bearer], and neither sends an [x-api-key] header
    for it: [server.js] from the arguments, the second script from the
    user context and from the process environment alike. *)
Lemma C3_api_key_sent_as_bearer :
  Spec.dotSegments "sk_live_abc" = 1 /\
  (exists req,
     Server.calls (Server.toolHandler Sample.cfg Sample.hostWithEnv Sample.listCustomers
                     [ ("organization", JS.VStr "org_1");
                       ("authorization", JS.VStr "sk_live_abc") ]) = [req] /\
     Spec.header (Net.req_headers req) "Authorization" = Some "Bearer sk_live_abc" /\
     Spec.header (Net.req_headers req) "x-api-key" = None) /\
  (exists req,
     Server.calls
       (VariantServer.executeAPICall VariantSample.strictWorld VariantSample.noExtras
          Sample.listCustomers
          [ ("__userContext",
             JS.VObj [ ("organization", JS.VStr "org_1");
                       ("authorization", JS.VStr "sk_live_abc") ]) ]) = [req] /\
     Spec.header (Net.req_headers req) "Authorization" = Some "Bearer sk_live_abc" /\
     Spec.header (Net.req_headers req) "x-api-key" = None) /\
  (exists req,
     Server.calls
       (VariantServer.executeAPICall VariantSample.keyWorld VariantSample.noExtras
          Sample.listCustomers []) = [req] /\
     Net.env (VariantServer.host VariantSample.keyWorld) "ZENSKAR_AUTH_TOKEN"
     = Some "sk_live_abc" /\
     Spec.header (Net.req_headers req) "Authorization" = Some "Bearer sk_live_abc" /\
     Spec.header (Net.req_headers req) "x-api-key" = None).
Proof.
  split; [reflexivity|]. split; [|split].
  - eexists. split; [vm_compute; reflexivity|]. split; reflexivity.
  - eexists. split; [vm_compute; reflexivity|]. split; reflexivity.
  - eexists. split; [vm_compute; reflexivity|]. split; [reflexivity|]. split; reflexivity.
Qed.

(** ** The request builder on sample invocations (C6, C8, C9) *)

(** C6 on [server.js]: [createRawMetric] called with a [column_order] of
    its own and no [dataschema]: the default dataschema is put in, and
    the caller's [column_order] stays in the body as it came. *)
Lemma C6_column_order_of_caller_kept :
  Server.buildBody Sample.createRawMetric
    [ ("name", JS.VStr "api_calls");
      ("column_order", JS.VArr [JS.VStr "customer_id"; JS.VStr "timestamp"]) ]
  = Some [ ("name", JS.VStr "api_calls");
           ("column_order", JS.VArr [JS.VStr "customer_id"; JS.VStr "timestamp"]);
           ("connector", JS.VStr "push_to_zenskar");
           ("api_type", JS.VStr "PUSH");
           ("dataschema", Server.defaultDataschema) ].
Proof. vm_compute. reflexivity. Qed.

(** What [server.js] does for [column_order]: the caller's value when it
    is truthy, [["timestamp"]] otherwise. *)
Lemma rawMetricDefaults_column_order (toolArgs bodyArgs : JS.object) :
  JS.get (Server.rawMetricDefaults toolArgs bodyArgs) "column_order"
  = if JS.truthy (JS.get bodyArgs "column_order")
    then JS.get bodyArgs "column_order"
    else JS.VArr [JS.VStr "timestamp"].
Proof.
  unfold Server.rawMetricDefaults.
  set (b3 := Server.defaultKey _ "dataschema" _).
  assert (H3 : JS.get b3 "column_order" = JS.get bodyArgs "column_order").
  { unfold b3, Server.defaultKey.
    repeat match goal with
    | |- context [if ?c then _ else _] => destruct c
    end;
    repeat (rewrite get_set_other by discriminate); reflexivity. }
  unfold Server.defaultKey at 1. rewrite H3.
  destruct (JS.truthy (JS.get bodyArgs "column_order")).
  - exact H3.
  - apply get_set_same.
Qed.

(** C8 on [server.js]: a [null] limit, an array of two tags and an empty
    search text give three query entries: [null] as text, the array
    joined into one entry, and the empty string. *)
Lemma C8_null_empty_and_array_entries :
  Server.buildQuery Sample.listCustomers
    [ ("limit", JS.VNull);
      ("tags", JS.VArr [JS.VStr "gold"; JS.VStr "eu"]);
      ("search", JS.VStr "");
      ("active", JS.VBool true) ]
  = [ ("limit", "null"); ("tags", "gold,eu"); ("search", ""); ("active", "true") ]
  /\ Server.buildUrl Sample.cfg Sample.listCustomers
       [ ("limit", JS.VNull);
         ("tags", JS.VArr [JS.VStr "gold"; JS.VStr "eu"]);
         ("search", JS.VStr "");
         ("active", JS.VBool true) ]
     = "https://api.zenskar.com/customers?limit=null&tags=gold%2Ceu&search=&active=true".
Proof. split; vm_compute; reflexivity. Qed.

(** C9 on [server.js]: a customer id with [/], [?], [&] and a space goes
    into the URL as it is, not percent-encoded. *)
Lemma C9_path_value_not_encoded :
  Server.buildUrl Sample.cfg Sample.getCustomer
    [ ("customer_id", JS.VStr "a/b?x=1&y=2 3") ]
  = "https://api.zenskar.com/customers/a/b?x=1&y=2 3"
  /\ Url.encodeURIComponent "a/b?x=1&y=2 3" = "a%2Fb%3Fx%3D1%26y%3D2%203".
Proof. split; vm_compute; reflexivity. Qed.

(** ** Trimming *)

Section Trimming.
Import Aux.

Lemma ltrim_step (s : string) :
  Str.ltrim s = match ws_len s with O => s | n => Str.ltrim (drop n s) end.
Proof.
  destruct s as [|c s1]; [reflexivity|]. simpl.
  destruct (Str.is_ws c); [reflexivity|].
  destruct s1 as [|d s2]; [reflexivity|].
  destruct (Str.is_ws2 c d); [reflexivity|].
  destruct s2 as [|e s3]; [reflexivity|].
  destruct (Str.is_ws3 c d e); reflexivity.
Qed.

Lemma ws_len_bound (s : string) : ws_len s <= String.length s.
Proof.
  destruct s as [|c s1]; simpl; [lia|].
  destruct (Str.is_ws c); [lia|].
  destruct s1 as [|d s2]; [lia|].
  destruct (Str.is_ws2 c d); [simpl; lia|].
  destruct s2 as [|e s3]; [lia|].
  destruct (Str.is_ws3 c d e); simpl; lia.
Qed.

Lemma drop_length (n : nat) (s : string) :
  n <= String.length s -> String.length (drop n s) = String.length s - n.
Proof.
  revert s. induction n as [|n IH]; intros s H; simpl; [lia|].
  destruct s as [|c s]; simpl in *; [lia|]. apply IH. lia.
Qed.

Lemma drop_app (n : nat) (a w : string) :
  n <= String.length a -> drop n (a ++ w) = (drop n a ++ w)%string.
Proof.
  revert a. induction n as [|n IH]; intros a H; simpl; [reflexivity|].
  destruct a as [|c a]; simpl in *; [lia|]. apply IH. lia.
Qed.

Lemma ws_len_app (a w : string) :
  ws_len a <> 0 -> ws_len (a ++ w) = ws_len a.
Proof.
  destruct a as [|c a1]; simpl; [congruence|].
  destruct (Str.is_ws c); [reflexivity|].
  destruct a1 as [|d a2]; simpl; [congruence|].
  destruct (Str.is_ws2 c d); [reflexivity|].
  destruct a2 as [|e a3]; simpl; [congruence|].
  destruct (Str.is_ws3 c d e); [reflexivity|congruence].
Qed.

(** Strong induction on the length of a text. *)
Lemma string_length_ind (P : string -> Prop) :
  (forall s, (forall t, String.length t < String.length s -> P t) -> P s) ->
  forall s, P s.
Proof.
  intros H s. remember (String.length s) as n eqn:E.
  revert s E. induction n as [n IH] using lt_wf_ind.
  intros s ->. apply H. intros t Ht. exact (IH _ Ht t eq_refl).
Qed.

Lemma ltrim_length (s : string) : String.length (Str.ltrim s) <= String.length s.
Proof.
  induction s as [s IH] using string_length_ind.
  rewrite ltrim_step. destruct (ws_len s) as [|n] eqn:E; [lia|].
  pose proof (ws_len_bound s) as Hb. rewrite E in Hb.
  assert (Hd := drop_length (S n) s Hb).
  specialize (IH (drop (S n) s)). lia.
Qed.

Lemma ltrim_fixed (s : string) : Str.ltrim s = s <-> ws_len s = 0.
Proof.
  split.
  - intros H. destruct (ws_len s) as [|n] eqn:E; [reflexivity|]. exfalso.
    rewrite ltrim_step, E in H.
    pose proof (ws_len_bound s) as Hb. rewrite E in Hb.
    pose proof (ltrim_length (drop (S n) s)) as Hl.
    rewrite H, drop_length in Hl by exact Hb. lia.
  - intros H. rewrite ltrim_step, H. reflexivity.
Qed.

Lemma ltrim_idem (s : string) : Str.ltrim (Str.ltrim s) = Str.ltrim s.
Proof.
  induction s as [s IH] using string_length_ind.
  rewrite (ltrim_step s). destruct (ws_len s) as [|n] eqn:E.
  - apply ltrim_fixed. exact E.
  - apply IH. pose proof (ws_len_bound s) as Hb. rewrite E in Hb.
    rewrite drop_length by exact Hb. lia.
Qed.

Lemma ltrim_app_blank (a w : string) :
  Str.ltrim a = "" -> Str.ltrim (a ++ w) = Str.ltrim w.
Proof.
  induction a as [a IH] using string_length_ind. intros Ha.
  rewrite ltrim_step in Ha. destruct (ws_len a) as [|n] eqn:E.
  - subst a. reflexivity.
  - pose proof (ws_len_bound a) as Hb. rewrite E in Hb.
    rewrite ltrim_step, ws_len_app, E by congruence.
    rewrite drop_app by exact Hb. apply IH; [|exact Ha].
    rewrite drop_length by exact Hb. lia.
Qed.

Lemma rtrim_split (s : string) :
  exists w, s = (Str.rtrim s ++ w)%string /\ Str.ltrim w = "".
Proof.
  induction s as [|c s IH].
  - exists "". split; reflexivity.
  - cbn [Str.rtrim]. destruct (String.eqb (Str.ltrim (String c s)) "") eqn:E.
    + exists (String c s). split; [reflexivity|]. apply String.eqb_eq. exact E.
    + destruct IH as (w & Hs & Hw). exists w. split; [|exact Hw].
      simpl. rewrite <- Hs. reflexivity.
Qed.

Lemma rtrim_idem (s : string) : Str.rtrim (Str.rtrim s) = Str.rtrim s.
Proof.
  induction s as [|c s IH]; [reflexivity|].
  cbn [Str.rtrim]. destruct (String.eqb (Str.ltrim (String c s)) "") eqn:E; [reflexivity|].
  cbn [Str.rtrim].
  destruct (String.eqb (Str.ltrim (String c (Str.rtrim s))) "") eqn:E'.
  - exfalso. apply String.eqb_eq in E'. apply String.eqb_neq in E. apply E.
    destruct (rtrim_split s) as (w & Hs & Hw).
    rewrite Hs at 1.
    change (String c (Str.rtrim s ++ w)) with ((String c (Str.rtrim s)) ++ w)%string.
    rewrite ltrim_app_blank by exact E'. exact Hw.
  - rewrite IH. reflexivity.
Qed.

Lemma ltrim_rtrim (s : string) :
  Str.ltrim s = s -> Str.ltrim (Str.rtrim s) = Str.rtrim s.
Proof.
  intros H. apply ltrim_fixed. apply ltrim_fixed in H.
  destruct (ws_len (Str.rtrim s)) as [|n] eqn:E; [reflexivity|]. exfalso.
  destruct (rtrim_split s) as (w & Hs & _).
  assert (Hl : ws_len s = S n).
  { rewrite Hs at 1. rewrite ws_len_app by congruence. exact E. }
  congruence.
Qed.

Lemma trim_idem (s : string) : Str.trim (Str.trim s) = Str.trim s.
Proof.
  unfold Str.trim. rewrite (ltrim_rtrim (Str.ltrim s) (ltrim_idem s)).
  apply rtrim_idem.
Qed.

Lemma ws_len_plain (a : ascii) (t : string) : plain a = true -> ws_len (String a t) = 0.
Proof.
  unfold plain. intros H. apply andb_prop in H. destruct H as [Hlt Hws].
  apply negb_true_iff in Hws. apply Nat.ltb_lt in Hlt.
  simpl. rewrite Hws.
  destruct t as [|d t2]; [reflexivity|].
  assert (H2 : Str.is_ws2 a d = false).
  { unfold Str.is_ws2. destruct (Nat.eqb_spec (nat_of_ascii a) 194); [lia|reflexivity]. }
  rewrite H2. destruct t2 as [|e t3]; [reflexivity|].
  assert (H3 : Str.is_ws3 a d e = false).
  { unfold Str.is_ws3.
    repeat match goal with
    | |- context [(nat_of_ascii a =? ?k)%nat] =>
        destruct (Nat.eqb_spec (nat_of_ascii a) k); [lia|]
    end. reflexivity. }
  rewrite H3. reflexivity.
Qed.

Lemma is_ws2_second_plain (c a : ascii) : plain a = true -> Str.is_ws2 c a = false.
Proof.
  unfold plain. intros H. apply andb_prop in H. destruct H as [Hlt _].
  apply Nat.ltb_lt in Hlt. unfold Str.is_ws2.
  destruct (Nat.eqb_spec (nat_of_ascii a) 160); [lia|]. apply andb_false_r.
Qed.

Lemma is_ws3_second_plain (c a e : ascii) : plain a = true -> Str.is_ws3 c a e = false.
Proof.
  unfold plain. intros H. apply andb_prop in H. destruct H as [Hlt _].
  apply Nat.ltb_lt in Hlt. unfold Str.is_ws3.
  repeat match goal with
  | |- context [(nat_of_ascii a =? ?k)%nat] =>
      destruct (Nat.eqb_spec (nat_of_ascii a) k); [lia|]
  end.
  rewrite ?andb_false_r, ?andb_false_l. reflexivity.
Qed.

Lemma is_ws3_third_plain (c d a : ascii) : plain a = true -> Str.is_ws3 c d a = false.
Proof.
  unfold plain. intros H. apply andb_prop in H. destruct H as [Hlt _].
  apply Nat.ltb_lt in Hlt. unfold Str.is_ws3.
  repeat match goal with
  | |- context [(nat_of_ascii a =? ?k)%nat] =>
      destruct (Nat.eqb_spec (nat_of_ascii a) k); [lia|]
  end.
  destruct (Nat.leb_spec 128 (nat_of_ascii a)); [lia|].
  rewrite ?andb_false_r, ?andb_false_l. reflexivity.
Qed.

Lemma ws_len_before_plain (x : string) (a : ascii) (t : string) :
  plain a = true -> ws_len (x ++ String a t) <= String.length x.
Proof.
  intros Ha. destruct x as [|c x1].
  - simpl append. rewrite ws_len_plain by exact Ha. simpl. lia.
  - simpl. destruct (Str.is_ws c); [lia|].
    destruct x1 as [|d x2]; simpl.
    + rewrite is_ws2_second_plain by exact Ha.
      destruct t as [|e t']; [lia|].
      rewrite is_ws3_second_plain by exact Ha. lia.
    + destruct (Str.is_ws2 c d); [lia|].
      destruct x2 as [|e x3]; simpl.
      * rewrite is_ws3_third_plain by exact Ha. lia.
      * destruct (Str.is_ws3 c d e); lia.
Qed.

Lemma ltrim_before_plain (x : string) (a : ascii) (t : string) :
  plain a = true -> Str.ltrim (x ++ String a t) <> "".
Proof.
  intros Ha. induction x as [x IH] using string_length_ind.
  rewrite ltrim_step.
  destruct (ws_len (x ++ String a t)) as [|n] eqn:E.
  - destruct x; discriminate.
  - pose proof (ws_len_before_plain x a t Ha) as Hb. rewrite E in Hb.
    rewrite drop_app by exact Hb. apply IH.
    rewrite drop_length by exact Hb. lia.
Qed.

Lemma rtrim_before_plain (x : string) (a : ascii) (t : string) :
  plain a = true -> Str.rtrim (String a t) = String a t ->
  Str.rtrim (x ++ String a t) = (x ++ String a t)%string.
Proof.
  intros Ha Ht. induction x as [|c x IH]; [exact Ht|].
  change ((String c x ++ String a t)%string) with (String c (x ++ String a t)).
  cbn [Str.rtrim].
  destruct (String.eqb (Str.ltrim (String c (x ++ String a t))) "") eqn:E.
  - apply String.eqb_eq in E. exfalso.
    exact (ltrim_before_plain (String c x) a t Ha E).
  - rewrite IH. reflexivity.
Qed.

Lemma rtrim_all_plain (s : string) : all_plain s = true -> Str.rtrim s = s.
Proof.
  induction s as [|c s IH]; [reflexivity|].
  intros H. simpl in H. apply andb_prop in H. destruct H as [Hc Hs].
  cbn [Str.rtrim].
  destruct (String.eqb (Str.ltrim (String c s)) "") eqn:E.
  - apply String.eqb_eq in E. exfalso. exact (ltrim_before_plain "" c s Hc E).
  - rewrite IH by exact Hs. reflexivity.
Qed.

Lemma ltrim_plain (a : ascii) (t : string) :
  plain a = true -> Str.ltrim (String a t) = String a t.
Proof. intros Ha. apply ltrim_fixed. apply ws_len_plain. exact Ha. Qed.

End Trimming.

(** ** ISO 8601 timestamps under [formatClickHouseDateTime] *)

Section DateTimeFacts.

Lemma string_app_assoc (a b c : string) :
  ((a ++ b) ++ c)%string = (a ++ (b ++ c))%string.
Proof. induction a as [|x a IH]; simpl; [reflexivity|rewrite IH; reflexivity]. Qed.

Lemma string_app_nil_r (a : string) : (a ++ "")%string = a.
Proof. induction a as [|x a IH]; simpl; [reflexivity|rewrite IH; reflexivity]. Qed.

Lemma isoChar_plain (c : ascii) :
  Spec.isoChar c = true ->
  Ascii.eqb c "T" = false /\ Ascii.eqb c "t" = false /\
  Ascii.eqb c "Z" = false /\ Ascii.eqb c "z" = false /\ Str.is_ws c = false.
Proof.
  destruct c as [[] [] [] [] [] [] [] []]; vm_compute; intros H;
    try discriminate; repeat split.
Qed.

Lemma replace_first_char_absent (c : ascii) (r s : string) :
  Spec.isoChar c = false -> Spec.isoPart s = true ->
  Str.replace_first_char c r s = s.
Proof.
  intros Hc. induction s as [|d s IH]; simpl; [reflexivity|].
  intros H. apply andb_prop in H. destruct H as [Hd Hs].
  destruct (Ascii.eqb d c) eqn:E.
  - apply Ascii.eqb_eq in E. subst d. rewrite Hc in Hd. discriminate.
  - rewrite IH by exact Hs. reflexivity.
Qed.

Lemma replace_first_char_here (c : ascii) (r s x : string) :
  Spec.isoChar c = false -> Spec.isoPart s = true ->
  Str.replace_first_char c r (s ++ String c x) = (s ++ r ++ x)%string.
Proof.
  intros Hc. induction s as [|d s IH]; simpl.
  - intros _. rewrite Ascii.eqb_refl. reflexivity.
  - intros H. apply andb_prop in H. destruct H as [Hd Hs].
    destruct (Ascii.eqb d c) eqn:E.
    + apply Ascii.eqb_eq in E. subst d. rewrite Hc in Hd. discriminate.
    + rewrite IH by exact Hs. reflexivity.
Qed.

Lemma isoPart_app (a b : string) :
  Spec.isoPart a = true -> Spec.isoPart b = true -> Spec.isoPart (a ++ b) = true.
Proof.
  intros Ha Hb. induction a as [|c a IH]; simpl in *; [exact Hb|].
  apply andb_prop in Ha. destruct Ha as [Hc Ha]. rewrite Hc, IH by exact Ha. reflexivity.
Qed.

Lemma strip_final_z_iso (s : string) :
  Spec.isoPart s = true -> Str.strip_final_z s = s.
Proof.
  induction s as [|c s IH]; simpl; [reflexivity|].
  intros H. apply andb_prop in H. destruct H as [Hc Hs].
  destruct s as [|d s'].
  - destruct (isoChar_plain c Hc) as (_ & _ & HZ & Hz & _). rewrite HZ, Hz. reflexivity.
  - rewrite IH by exact Hs. reflexivity.
Qed.

Lemma strip_final_z_app (s t : string) :
  t <> "" -> Str.strip_final_z (s ++ t) = (s ++ Str.strip_final_z t)%string.
Proof.
  intros Ht. induction s as [|c s IH]; simpl; [reflexivity|].
  destruct (s ++ t)%string eqn:E.
  - destruct s; simpl in E; [contradiction|discriminate].
  - rewrite <- IH. reflexivity.
Qed.

Lemma strip_final_z_zulu (s : string) :
  s <> "" -> Spec.isoPart s = true -> Str.strip_final_z (s ++ "Z") = s.
Proof.
  intros Hne. induction s as [|c s IH]; [contradiction|]. simpl.
  intros H. apply andb_prop in H. destruct H as [Hc Hs].
  destruct s as [|d s']; simpl.
  - reflexivity.
  - simpl in IH. rewrite IH; [reflexivity|discriminate|exact Hs].
Qed.

Lemma isoChar_is_plain (c : ascii) : Spec.isoChar c = true -> Aux.plain c = true.
Proof.
  destruct c as [[] [] [] [] [] [] [] []]; vm_compute; intros H;
    try discriminate; reflexivity.
Qed.

Lemma isoPart_all_plain (s : string) : Spec.isoPart s = true -> Aux.all_plain s = true.
Proof.
  induction s as [|c s IH]; simpl; [reflexivity|].
  intros H. apply andb_prop in H. destruct H as [Hc Hs].
  rewrite (isoChar_is_plain c Hc), IH by exact Hs. reflexivity.
Qed.

Lemma rtrim_iso (s : string) : Spec.isoPart s = true -> Str.rtrim s = s.
Proof. intros H. apply rtrim_all_plain, isoPart_all_plain, H. Qed.

Lemma ltrim_iso (c : ascii) (s : string) :
  Spec.isoChar c = true -> Str.ltrim (String c s) = String c s.
Proof. intros Hc. apply ltrim_plain, isoChar_is_plain, Hc. Qed.

(** A date, [T], a time and an optional final [Z] become the date, a
    space and the time. *)
Lemma formatClickHouseDateTime_iso (date time : string) :
  date <> "" -> time <> "" ->
  Spec.isoPart date = true -> Spec.isoPart time = true ->
  Server.formatClickHouseDateTime_string (date ++ "T" ++ time ++ "Z")
  = (date ++ " " ++ time)%string
  /\ Server.formatClickHouseDateTime_string (date ++ "T" ++ time)
     = (date ++ " " ++ time)%string.
Proof.
  intros Hd Ht Hdi Hti.
  assert (Hfin : Str.trim (date ++ " " ++ time) = (date ++ " " ++ time)%string).
  { rewrite <- (string_app_assoc date " " time).
    unfold Str.trim. destruct date as [|c d]; [contradiction|].
    simpl in Hdi. apply andb_prop in Hdi. destruct Hdi as [Hc _].
    change (((String c d ++ " ") ++ time)%string)
      with (String c ((d ++ " ") ++ time)).
    rewrite (ltrim_iso c _ Hc).
    destruct time as [|a t]; [contradiction|].
    simpl in Hti. apply andb_prop in Hti. destruct Hti as [Ha Hti].
    apply (rtrim_before_plain (String c (d ++ " ")) a t (isoChar_is_plain a Ha)).
    apply rtrim_iso. simpl. rewrite Ha, Hti. reflexivity. }
  assert (Hno_t : forall rest : string,
    Spec.isoPart rest = true ->
    Str.replace_first_char "t" " " (date ++ " " ++ rest) = (date ++ " " ++ rest)%string).
  { intros rest Hr. clear Hfin Hd.
    induction date as [|c d IH]; simpl.
    - rewrite replace_first_char_absent; [reflexivity|reflexivity|exact Hr].
    - simpl in Hdi. apply andb_prop in Hdi. destruct Hdi as [Hc Hdi].
      destruct (isoChar_plain c Hc) as (_ & Hct & _). rewrite Hct.
      simpl in IH. rewrite IH by exact Hdi. reflexivity. }
  unfold Server.formatClickHouseDateTime_string. split.
  - change (date ++ "T" ++ time ++ "Z")%string
      with (date ++ String "T" (time ++ "Z"))%string.
    rewrite (replace_first_char_here "T" " " date (time ++ "Z")) by (auto; reflexivity).
    assert (Hz : Str.replace_first_char "t" " " (date ++ " " ++ time ++ "Z")
                 = (date ++ " " ++ time ++ "Z")%string).
    { clear Hfin Hd Hno_t.
      induction date as [|c d IH]; simpl.
      - clear Ht. induction time as [|c t IHt]; simpl; [reflexivity|].
        simpl in Hti. apply andb_prop in Hti. destruct Hti as [Hc Hti].
        destruct (isoChar_plain c Hc) as (_ & Hct & _). rewrite Hct.
        simpl in IHt. injection (IHt Hti) as ->. reflexivity.
      - simpl in Hdi. apply andb_prop in Hdi. destruct Hdi as [Hc Hdi].
        destruct (isoChar_plain c Hc) as (_ & Hct & _). rewrite Hct.
        simpl in IH. rewrite IH by exact Hdi. reflexivity. }
    rewrite Hz.
    replace (date ++ " " ++ time ++ "Z")%string with ((date ++ " ") ++ (time ++ "Z"))%string
      by (apply string_app_assoc).
    rewrite strip_final_z_app by (destruct time; discriminate).
    rewrite strip_final_z_zulu by assumption.
    rewrite (string_app_assoc date " " time). exact Hfin.
  - change (date ++ "T" ++ time)%string with (date ++ String "T" time)%string.
    rewrite (replace_first_char_here "T" " " date time) by (auto; reflexivity).
    rewrite Hno_t by exact Hti.
    replace (date ++ " " ++ time)%string with ((date ++ " ") ++ time)%string
      by (apply string_app_assoc).
    rewrite strip_final_z_app by exact Ht.
    rewrite strip_final_z_iso by exact Hti.
    rewrite (string_app_assoc date " " time). exact Hfin.
Qed.

End DateTimeFacts.

(** ** Flattening the usage event *)

Section EventFacts.
Import JS Config Server.

Lemma get_defined_has (o : object) (k : string) :
  get o k <> VUndef -> has o k = true.
Proof.
  intros H. destruct (has o k) eqn:E; [reflexivity|].
  apply has_false_get in E. contradiction.
Qed.

Lemma has_In (o : object) (k : string) :
  has o k = true -> In (k, get o k) o.
Proof.
  induction o as [|[k0 v0] o IH]; simpl; [discriminate|].
  destruct (String.eqb k0 k) eqn:E; simpl.
  - intros _. apply String.eqb_eq in E. subst k0. left. reflexivity.
  - intros H. right. exact (IH H).
Qed.

Lemma has_keys (o : object) (k : string) :
  has o k = true <-> In k (map fst o).
Proof.
  induction o as [|[k0 v0] o IH]; simpl.
  - split; [discriminate|contradiction].
  - destruct (String.eqb k0 k) eqn:E; simpl.
    + apply String.eqb_eq in E. split; auto.
    + apply String.eqb_neq in E. rewrite IH. split; [auto|intros [H|H]; [contradiction|exact H]].
Qed.

Lemma keys_set_present (o : object) (k : string) (v : value) :
  has o k = true -> map fst (set o k v) = map fst o.
Proof.
  induction o as [|[k0 v0] o IH]; simpl; [discriminate|].
  destruct (String.eqb k0 k) eqn:E; simpl.
  - reflexivity.
  - intros H. rewrite IH by exact H. reflexivity.
Qed.

Lemma keys_formatKey (o : object) (k : string) :
  map fst (formatKey o k) = map fst o.
Proof.
  unfold formatKey. destruct (get o k) eqn:E; try reflexivity.
  apply keys_set_present. apply get_defined_has. rewrite E. discriminate.
Qed.

Lemma get_formatKey_same (o : object) (k : string) :
  get (formatKey o k) k = formatClickHouseDateTime (get o k).
Proof.
  unfold formatKey. destruct (get o k) eqn:E; simpl; try (rewrite E; reflexivity).
  apply get_set_same.
Qed.

Lemma get_formatKey_other (o : object) (k k' : string) :
  k <> k' -> get (formatKey o k) k' = get o k'.
Proof.
  intros Hne. unfold formatKey. destruct (get o k); try reflexivity.
  apply get_set_other. exact Hne.
Qed.

(** The flattening loop, key by key. *)
Lemma flattenInto_get_absent (e b : object) (k : string) :
  ~ In k (map fst e) -> get (flattenInto b e) k = get b k.
Proof.
  unfold flattenInto. revert b.
  induction e as [|[k0 v0] e IH]; intros b Hk; simpl; [reflexivity|].
  simpl in Hk. rewrite IH by tauto.
  destruct (is_undefined v0 || String.eqb k0 "__proto__"); [reflexivity|].
  apply get_set_other. tauto.
Qed.

Lemma flattenInto_get_present (e b : object) (k : string) (v : value) :
  NoDup (map fst e) -> In (k, v) e -> is_undefined v = false -> k <> "__proto__" ->
  get (flattenInto b e) k = v.
Proof.
  unfold flattenInto. revert b.
  induction e as [|[k0 v0] e IH]; intros b Hnd Hin Hv Hk; simpl; [contradiction|].
  simpl in Hnd. inversion Hnd as [|? ? Hnot Hnd']; subst.
  destruct Hin as [Heq|Hin].
  - injection Heq as -> ->. rewrite Hv.
    apply String.eqb_neq in Hk. rewrite Hk. cbn [orb].
    change (get (flattenInto (set b k v) e) k = v).
    rewrite flattenInto_get_absent by exact Hnot. apply get_set_same.
  - apply IH; assumption.
Qed.

Lemma flattenInto_has (e b : object) (k : string) :
  has (flattenInto b e) k = true -> has b k = true \/ In k (map fst e).
Proof.
  unfold flattenInto. revert b.
  induction e as [|[k0 v0] e IH]; intros b; simpl; [auto|].
  intros H. apply IH in H. destruct H as [H|H]; [|auto].
  destruct (is_undefined v0 || String.eqb k0 "__proto__"); [auto|].
  rewrite has_set in H. apply orb_prop in H. destruct H as [H|H]; [|auto].
  apply String.eqb_eq in H. auto.
Qed.

(** [normalizeUsageEventPayload] on a plain object: the same keys, the
    timestamp formatted, the date-time columns of [data] formatted, all
    else as it was. *)
Lemma normalize_object (e : object) :
  exists e',
    normalizeUsageEventPayload (VObj e) = VObj e' /\
    map fst e' = map fst e /\
    (forall k, k <> "timestamp" -> k <> "data" -> get e' k = get e k) /\
    (forall s, get e "timestamp" = VStr s ->
               get e' "timestamp" = VStr (formatClickHouseDateTime_string s)) /\
    (forall d, get e "data" = VObj d ->
       exists d',
         get e' "data" = VObj d' /\
         map fst d' = map fst d /\
         (forall k s, In k CLICKHOUSE_DATETIME_KEYS -> get d k = VStr s ->
                      get d' k = VStr (formatClickHouseDateTime_string s)) /\
         (forall k, ~ In k CLICKHOUSE_DATETIME_KEYS -> get d' k = get d k)).
Proof.
  unfold normalizeUsageEventPayload.
  assert (Hdata : get (formatKey e "timestamp") "data" = get e "data")
    by (apply get_formatKey_other; discriminate).
  destruct (get (formatKey e "timestamp") "data") as [| |b|n|s|l|d] eqn:Ed;
    try (eexists; split; [reflexivity|];
         split; [apply keys_formatKey|];
         split; [intros k H1 H2; apply get_formatKey_other; auto|];
         split; [intros s' Hs; rewrite get_formatKey_same, Hs; reflexivity|];
         intros d0 Hd0; rewrite <- Hdata in Hd0; discriminate).
  eexists. split; [reflexivity|].
  split.
  { rewrite keys_set_present; [apply keys_formatKey|].
    apply get_defined_has. rewrite Ed. discriminate. }
  split.
  { intros k H1 H2. rewrite get_set_other by auto. apply get_formatKey_other; auto. }
  split.
  { intros s' Hs. rewrite get_set_other by discriminate.
    rewrite get_formatKey_same, Hs. reflexivity. }
  intros d0 Hd0. rewrite <- Hdata in Hd0. injection Hd0 as <-.
  eexists. split; [apply get_set_same|].
  unfold CLICKHOUSE_DATETIME_KEYS. simpl.
  split; [rewrite !keys_formatKey; reflexivity|].
  split.
  - intros k s' [<-|[<-|[<-|[]]]] Hs.
    + rewrite !get_formatKey_other by discriminate.
      rewrite get_formatKey_same, Hs. reflexivity.
    + rewrite get_formatKey_other by discriminate.
      rewrite get_formatKey_same, get_formatKey_other by discriminate.
      rewrite Hs. reflexivity.
    + rewrite get_formatKey_same, !get_formatKey_other by discriminate.
      rewrite Hs. reflexivity.
  - intros k Hk. rewrite !get_formatKey_other; [reflexivity| | |];
      intros <-; apply Hk; auto.
Qed.

(** The same, value by value: the timestamp and the three date-time
    columns of [data] are what [formatClickHouseDateTime] makes of them,
    whatever they are, and a [data] that is no object is left alone. *)
Lemma normalize_object_values (e : object) :
  exists e',
    normalizeUsageEventPayload (VObj e) = VObj e' /\
    map fst e' = map fst e /\
    (forall k, k <> "timestamp" -> k <> "data" -> get e' k = get e k) /\
    get e' "timestamp" = formatClickHouseDateTime (get e "timestamp") /\
    (is_plain_object (get e "data") = false -> get e' "data" = get e "data") /\
    (forall d, get e "data" = VObj d ->
       exists d',
         get e' "data" = VObj d' /\
         map fst d' = map fst d /\
         get d' "DateTime64" = formatClickHouseDateTime (get d "DateTime64") /\
         get d' "DateTime" = formatClickHouseDateTime (get d "DateTime") /\
         get d' "DateTime32" = formatClickHouseDateTime (get d "DateTime32") /\
         (forall k, k <> "DateTime64" -> k <> "DateTime" -> k <> "DateTime32" ->
                    get d' k = get d k)).
Proof.
  destruct (normalize_object e) as (e' & He' & Hkeys & Hother & _ & _).
  exists e'. split; [exact He'|]. split; [exact Hkeys|]. split; [exact Hother|].
  assert (Hd : get (formatKey e "timestamp") "data" = get e "data")
    by (apply get_formatKey_other; discriminate).
  unfold normalizeUsageEventPayload in He'. rewrite Hd in He'.
  split.
  { destruct (get e "data"); injection He' as <-;
      rewrite ?get_set_other by discriminate; apply get_formatKey_same. }
  split.
  { intros Hn. destruct (get e "data"); try discriminate Hn; injection He' as <-;
      exact Hd. }
  intros d Hed. rewrite Hed in He'. injection He' as <-.
  eexists. split; [apply get_set_same|].
  unfold CLICKHOUSE_DATETIME_KEYS. cbn [fold_left].
  split; [rewrite !keys_formatKey; reflexivity|].
  split.
  { rewrite !get_formatKey_other by discriminate. apply get_formatKey_same. }
  split.
  { rewrite get_formatKey_other by discriminate.
    rewrite get_formatKey_same, get_formatKey_other by discriminate. reflexivity. }
  split.
  { rewrite get_formatKey_same, !get_formatKey_other by discriminate. reflexivity. }
  intros k H1 H2 H3. rewrite !get_formatKey_other by (intros <-; auto). reflexivity.
Qed.

End EventFacts.

(** ** The event-ingestion body (C7) *)

Section IngestBody.
Import JS Config Server.
Variables (tool : toolSpec) (toolArgs : object) (e : object).
Hypothesis Hname : tool_name tool = "ingestRawMetricEvent".
Hypothesis Hevent : get toolArgs "event" = VObj e.

Lemma bodyStep_event (b : object) (a : argSpec) :
  arg_name a = "event" -> arg_position a = "body" ->
  exists e', normalizeUsageEventPayload (VObj e) = VObj e' /\
             bodyStep tool toolArgs b a = flattenInto b e'.
Proof.
  intros Hn Hp. destruct (normalize_object e) as (e' & He' & _).
  exists e'. split; [exact He'|].
  unfold bodyStep. rewrite Hn, Hp, Hname, Hevent, He'. reflexivity.
Qed.

Lemma bodyStep_not_body (b : object) (a : argSpec) :
  arg_position a <> "body" -> bodyStep tool toolArgs b a = b.
Proof.
  intros Hp. unfold bodyStep. apply String.eqb_neq in Hp. rewrite Hp. reflexivity.
Qed.

Lemma fold_bodyStep_not_body (l : list argSpec) (b : object) :
  (forall a, In a l -> arg_position a <> "body") ->
  fold_left (bodyStep tool toolArgs) l b = b.
Proof.
  revert b. induction l as [|a l IH]; intros b H; simpl; [reflexivity|].
  rewrite bodyStep_not_body by (apply H; left; reflexivity).
  apply IH. intros a' Ha'. apply H. right. exact Ha'.
Qed.

(** No step of the loop nests the event under [event]. *)
Lemma bodyStep_no_event_key (b : object) (a : argSpec) :
  has e "event" = false -> has b "event" = false ->
  has (bodyStep tool toolArgs b a) "event" = false.
Proof.
  intros He Hb. unfold bodyStep.
  destruct (String.eqb (arg_position a) "body"
            && negb (is_undefined (get toolArgs (arg_name a)))); [|exact Hb].
  rewrite Hname. simpl.
  destruct (String.eqb (arg_name a) "event") eqn:En.
  - apply String.eqb_eq in En. rewrite En, Hevent.
    destruct (normalize_object e) as (e' & -> & Hk & _).
    destruct (has (flattenInto b e') "event") eqn:Hf; [|reflexivity].
    apply flattenInto_has in Hf. destruct Hf as [Hf|Hf].
    + rewrite Hb in Hf. discriminate.
    + rewrite Hk in Hf. apply has_keys in Hf. rewrite He in Hf. discriminate.
  - rewrite has_set, En. exact Hb.
Qed.

Lemma fold_bodyStep_no_event_key (l : list argSpec) (b : object) :
  has e "event" = false -> has b "event" = false ->
  has (fold_left (bodyStep tool toolArgs) l b) "event" = false.
Proof.
  intros He. revert b. induction l as [|a l IH]; intros b Hb; simpl; [exact Hb|].
  apply IH. apply bodyStep_no_event_key; assumption.
Qed.

(** Once the event is flattened, a later argument changes none of its
    fields unless it bears the name of one of the event's keys. *)
Lemma fold_bodyStep_keeps_event (e' : object) (l : list argSpec) (b : object) :
  normalizeUsageEventPayload (VObj e) = VObj e' ->
  NoDup (map fst e') ->
  (forall a, In a l -> arg_position a = "body" -> ~ In (arg_name a) (map fst e')) ->
  (forall k, k <> "__proto__" -> is_undefined (get e' k) = false -> get b k = get e' k) ->
  forall k, k <> "__proto__" -> is_undefined (get e' k) = false ->
            get (fold_left (bodyStep tool toolArgs) l b) k = get e' k.
Proof.
  intros He' Hnd. revert b.
  induction l as [|a l IH]; intros b Hl Hb; simpl; [exact Hb|].
  apply IH; [intros a' Ha'; apply Hl; right; exact Ha'|].
  intros k Hproto Hk. unfold bodyStep.
  destruct (String.eqb (arg_position a) "body") eqn:Ep; simpl; [|apply Hb; assumption].
  destruct (is_undefined (get toolArgs (arg_name a))); simpl; [apply Hb; assumption|].
  assert (Hin : In k (map fst e')).
  { apply has_keys. apply get_defined_has. intros Hu. rewrite Hu in Hk. discriminate. }
  rewrite Hname. simpl.
  destruct (String.eqb (arg_name a) "event") eqn:En.
  - apply String.eqb_eq in En. rewrite En, Hevent, He'.
    apply flattenInto_get_present; [exact Hnd| |exact Hk|exact Hproto].
    apply has_In. apply has_keys. exact Hin.
  - rewrite get_set_other; [apply Hb; assumption|].
    intros <-. apply String.eqb_eq in Ep.
    exact (Hl a (or_introl eq_refl) Ep Hin).
Qed.

Lemma collectBody_ingest :
  collectBody tool toolArgs = fold_left (bodyStep tool toolArgs) (tool_args tool) [].
Proof. unfold collectBody. rewrite Hname. reflexivity. Qed.

Lemma bodyField_buildBody (k : string) :
  isMutating (tpl_method (tool_requestTemplate tool)) = true ->
  Aux.bodyField (buildBody tool toolArgs) k = get (collectBody tool toolArgs) k.
Proof.
  intros Hm. unfold buildBody. rewrite Hm.
  destruct (collectBody tool toolArgs); reflexivity.
Qed.

End IngestBody.

(** C7: for [ingestRawMetricEvent] with a mutating method and an [event]
    body argument that is a plain object (no body argument declared
    after it bearing the name of one of its keys): the event is
    flattened, so the request has a body as soon as the event has a
    defined key, every defined key of the event is a field of the body
    with the event's value (but [__proto__], which is no name a field
    can be assigned under), and the body has no [event] field unless the
    event has an [event] key of its own; the [timestamp] field is what
    [formatClickHouseDateTime] makes of the event's timestamp, so a
    date, [T], a time and a final [Z] (or none) become the date, a space
    and the time, and a timestamp that is no string is passed as it is;
    for an object-valued [data] the same holds at [DateTime64], at
    [DateTime] and at [DateTime32], its keys stay in their order and its
    other keys keep their values; a [data] that is no object is passed as
    it is. *)
Theorem C7_event_normalised_and_flattened
    (tool : Config.toolSpec) (toolArgs e : JS.object)
    (pre post : list Config.argSpec) (ev : Config.argSpec) :
  Config.tool_name tool = "ingestRawMetricEvent" ->
  Server.isMutating (Config.tpl_method (Config.tool_requestTemplate tool)) = true ->
  Config.tool_args tool = pre ++ ev :: post ->
  Config.arg_name ev = "event" -> Config.arg_position ev = "body" ->
  (forall a, In a post -> Config.arg_position a = "body" ->
             ~ In (Config.arg_name a) (map fst e)) ->
  JS.get toolArgs "event" = JS.VObj e ->
  NoDup (map fst e) ->
  let body := Server.buildBody tool toolArgs in
  let iso := fun (date time : string) (zulu : bool) =>
               (date ++ "T" ++ time ++ (if zulu then "Z" else ""))%string in
  ((exists k, k <> "__proto__" /\ JS.is_undefined (JS.get e k) = false) ->
   exists b, body = Some b) /\
  (forall k, k <> "timestamp" -> k <> "data" -> k <> "__proto__" ->
     JS.is_undefined (JS.get e k) = false ->
     Aux.bodyField body k = JS.get e k) /\
  (JS.has e "event" = false -> Aux.bodyField body "event" = JS.VUndef) /\
  (JS.is_undefined (JS.get e "timestamp") = false ->
     Aux.bodyField body "timestamp"
     = Server.formatClickHouseDateTime (JS.get e "timestamp")) /\
  (forall date time zulu,
     date <> "" -> time <> "" ->
     Spec.isoPart date = true -> Spec.isoPart time = true ->
     JS.get e "timestamp" = JS.VStr (iso date time zulu) ->
     Aux.bodyField body "timestamp" = JS.VStr (date ++ " " ++ time)) /\
  (forall d, JS.get e "data" = JS.VObj d ->
     exists d',
       Aux.bodyField body "data" = JS.VObj d' /\
       map fst d' = map fst d /\
       JS.get d' "DateTime64" = Server.formatClickHouseDateTime (JS.get d "DateTime64") /\
       JS.get d' "DateTime" = Server.formatClickHouseDateTime (JS.get d "DateTime") /\
       JS.get d' "DateTime32" = Server.formatClickHouseDateTime (JS.get d "DateTime32") /\
       (forall k date time zulu,
          k = "DateTime64" \/ k = "DateTime" \/ k = "DateTime32" ->
          date <> "" -> time <> "" ->
          Spec.isoPart date = true -> Spec.isoPart time = true ->
          JS.get d k = JS.VStr (iso date time zulu) ->
          JS.get d' k = JS.VStr (date ++ " " ++ time)) /\
       (forall k, k <> "DateTime64" -> k <> "DateTime" -> k <> "DateTime32" ->
                  JS.get d' k = JS.get d k)) /\
  (JS.is_plain_object (JS.get e "data") = false ->
   JS.is_undefined (JS.get e "data") = false ->
   Aux.bodyField body "data" = JS.get e "data").
Proof.
  intros Hname Hm Hargs Hn Hp Hpost Hev Hnd body iso.
  destruct (normalize_object_values e)
    as (e' & He' & Hkeys & Hother & Hts & Hplain & Hdata).
  set (bpre := fold_left (Server.bodyStep tool toolArgs) pre []).
  assert (Hnd' : NoDup (map fst e')) by (rewrite Hkeys; exact Hnd).
  assert (Hflat : forall k, k <> "__proto__" -> JS.is_undefined (JS.get e' k) = false ->
                            Aux.bodyField body k = JS.get e' k).
  { intros k Hproto Hk. unfold body. rewrite bodyField_buildBody by exact Hm.
    rewrite collectBody_ingest by exact Hname.
    rewrite Hargs, fold_left_app. cbn [fold_left]. fold bpre.
    apply (fold_bodyStep_keeps_event tool toolArgs e Hname Hev e'); auto.
    - intros a Ha Hpa. rewrite Hkeys. exact (Hpost a Ha Hpa).
    - intros k' Hproto' Hk'.
      destruct (bodyStep_event tool toolArgs e Hname Hev bpre ev Hn Hp) as (e2 & He2 & ->).
      rewrite He' in He2. injection He2 as <-.
      apply flattenInto_get_present; [exact Hnd'| |exact Hk'|exact Hproto'].
      apply has_In. apply get_defined_has. intros Hu. rewrite Hu in Hk'. discriminate. }
  assert (Hformat_defined : forall v,
            JS.is_undefined v = false ->
            JS.is_undefined (Server.formatClickHouseDateTime v) = false).
  { intros v Hv. destruct v; try reflexivity. discriminate Hv. }
  assert (Hiso : forall date time zulu,
            date <> "" -> time <> "" ->
            Spec.isoPart date = true -> Spec.isoPart time = true ->
            Server.formatClickHouseDateTime (JS.VStr (iso date time zulu))
            = JS.VStr (date ++ " " ++ time)).
  { intros date time zulu Hd Ht Hdi Hti. unfold iso. cbn [Server.formatClickHouseDateTime].
    f_equal. destruct (formatClickHouseDateTime_iso date time Hd Ht Hdi Hti) as [Hz Hno].
    destruct zulu; [exact Hz|].
    rewrite string_app_nil_r. exact Hno. }
  assert (Hdefined : forall k, JS.is_undefined (JS.get e k) = false ->
                               JS.is_undefined (JS.get e' k) = false).
  { intros k Hk.
    destruct (String.eqb_spec k "timestamp") as [->|Hk1].
    { rewrite Hts. apply Hformat_defined. exact Hk. }
    destruct (String.eqb_spec k "data") as [->|Hk2].
    { destruct (JS.get e "data") as [| | | | | |d] eqn:Ed;
        try (rewrite Hplain by reflexivity; exact Hk).
      destruct (Hdata d eq_refl) as (d' & -> & _). reflexivity. }
    rewrite Hother by assumption. exact Hk. }
  split.
  { intros (k & Hproto & Hk). unfold body, Server.buildBody. rewrite Hm.
    destruct (Server.collectBody tool toolArgs) as [|kv b] eqn:Eb;
      [|exists (kv :: b); reflexivity].
    exfalso. pose proof (Hdefined k Hk) as Hdk. pose proof (Hflat k Hproto Hdk) as Hf.
    unfold body in Hf. rewrite bodyField_buildBody in Hf by exact Hm.
    rewrite Eb in Hf. cbn [JS.get] in Hf.
    rewrite <- Hf in Hdk. discriminate Hdk. }
  split.
  { intros k H1 H2 H3 Hk. rewrite Hflat; rewrite ?Hother by assumption; auto. }
  split.
  { intros He. unfold body. rewrite bodyField_buildBody by exact Hm.
    rewrite collectBody_ingest by exact Hname.
    apply has_false_get.
    apply (fold_bodyStep_no_event_key tool toolArgs e Hname Hev); [exact He|reflexivity]. }
  split.
  { intros Hk. rewrite Hflat; [exact Hts|discriminate|apply Hdefined; exact Hk]. }
  split.
  { intros date time zulu Hd Ht Hdi Hti Hs.
    rewrite Hflat; [|discriminate|apply Hdefined; rewrite Hs; reflexivity].
    rewrite Hts, Hs. apply Hiso; assumption. }
  split.
  { intros d Hd. destruct (Hdata d Hd) as (d' & Hd' & Hdk & H64 & Hdt & H32 & Hrest).
    exists d'. split.
    { rewrite Hflat; [exact Hd'|discriminate|rewrite Hd'; reflexivity]. }
    split; [exact Hdk|]. split; [exact H64|]. split; [exact Hdt|]. split; [exact H32|].
    split; [|exact Hrest].
    intros k date time zulu Hk Hdne Htne Hdi Hti Hs.
    destruct Hk as [-> | [-> | ->]];
      [rewrite H64|rewrite Hdt|rewrite H32]; rewrite Hs; apply Hiso; assumption. }
  intros Hnp Hk. rewrite Hflat; [apply Hplain; exact Hnp|discriminate|].
  apply Hdefined. exact Hk.
Qed.

Lemma C7_event_normalised_and_flattened_witness :
  let body :=
    Server.buildBody Sample.ingestRawMetricEvent
      [ ("api_slug", JS.VStr "api_calls");
        ("event", JS.VObj
           [ ("customer_id", JS.VStr "cus_1");
             ("timestamp", JS.VStr "2024-01-01T10:00:00Z");
             ("data", JS.VObj [ ("DateTime64", JS.VStr "2024-01-01T10:00:00.123Z");
                                ("Int64", JS.VNum 3) ]) ]) ] in
  Aux.bodyField body "timestamp" = JS.VStr "2024-01-01 10:00:00" /\
  Aux.bodyField body "customer_id" = JS.VStr "cus_1" /\
  Aux.bodyField body "event" = JS.VUndef /\
  exists d',
    Aux.bodyField body "data" = JS.VObj d' /\
    JS.get d' "DateTime64" = JS.VStr "2024-01-01 10:00:00.123" /\
    JS.get d' "Int64" = JS.VNum 3.
Proof.
  cbv zeta.
  assert (Hpost : forall a : Config.argSpec, In a [] -> Config.arg_position a = "body" ->
            ~ In (Config.arg_name a)
                (map fst [ ("customer_id", JS.VStr "cus_1");
                           ("timestamp", JS.VStr "2024-01-01T10:00:00Z");
                           ("data", JS.VObj [ ("DateTime64", JS.VStr "2024-01-01T10:00:00.123Z");
                                              ("Int64", JS.VNum 3) ]) ]))
    by (intros a []).
  assert (Hnd : NoDup (map fst [ ("customer_id", JS.VStr "cus_1");
                                 ("timestamp", JS.VStr "2024-01-01T10:00:00Z");
                                 ("data", JS.VObj [ ("DateTime64", JS.VStr "2024-01-01T10:00:00.123Z");
                                                    ("Int64", JS.VNum 3) ]) ]))
    by (repeat constructor; simpl; intuition discriminate).
  destruct (C7_event_normalised_and_flattened Sample.ingestRawMetricEvent
       [ ("api_slug", JS.VStr "api_calls");
         ("event", JS.VObj
            [ ("customer_id", JS.VStr "cus_1");
              ("timestamp", JS.VStr "2024-01-01T10:00:00Z");
              ("data", JS.VObj [ ("DateTime64", JS.VStr "2024-01-01T10:00:00.123Z");
                                 ("Int64", JS.VNum 3) ]) ]) ]
       _
       [ Config.mkArg "api_slug" "string" "path" true "Raw metric slug" ] []
       (Config.mkArg "event" "object" "body" true "Usage event")
       eq_refl eq_refl eq_refl eq_refl eq_refl Hpost eq_refl Hnd)
    as (_ & Hkey & Hevent & _ & Hts & Hdata & _).
  split.
  { apply (Hts "2024-01-01" "10:00:00" true); try reflexivity; discriminate. }
  split.
  { apply Hkey; try reflexivity; discriminate. }
  split.
  { apply Hevent. reflexivity. }
  destruct (Hdata _ eq_refl) as (d' & Hd' & _ & _ & _ & _ & Hiso & Hrest).
  exists d'. split; [exact Hd'|]. split.
  - apply (Hiso "DateTime64" "2024-01-01" "10:00:00.123" true);
      try reflexivity; try discriminate. left. reflexivity.
  - rewrite Hrest by discriminate. reflexivity.
Defined.

(** ** The second server script beside [server.js] *)

(** There a path value is percent-encoded. *)
Lemma Variant_path_value_encoded :
  Variant.substitutePath Sample.getCustomer
    [ ("customer_id", JS.VStr "a/b?x=1&y=2 3") ]
    "https://api.zenskar.com/customers/{customer_id}"
  = "https://api.zenskar.com/customers/a%2Fb%3Fx%3D1%26y%3D2%203".
Proof. vm_compute. reflexivity. Qed.

(** There [null] and the empty string add no query entry, and an array
    adds one entry for each element. *)
Lemma Variant_query_entries :
  Variant.buildQuery Sample.listCustomers
    [ ("limit", JS.VNull);
      ("tags", JS.VArr [JS.VStr "gold"; JS.VStr "eu"]);
      ("search", JS.VStr "");
      ("active", JS.VBool true) ]
  = [ ("tags", "gold"); ("tags", "eu"); ("active", "true") ].
Proof. vm_compute. reflexivity. Qed.

(** There [column_order] is [["timestamp"]] whatever the caller gave. *)
Lemma Variant_column_order_forced (cleanArgs bodyParams : JS.object) :
  JS.get (Variant.rawMetricDefaults cleanArgs bodyParams) "column_order"
  = JS.VArr [JS.VStr "timestamp"].
Proof. unfold Variant.rawMetricDefaults. apply get_set_same. Qed.

(** There the process environment supplies what the context lacks, and
    the context comes first. *)
Lemma Variant_environment_fallback (h : Net.host) (org token : string) :
  Net.env h "ZENSKAR_ORGANIZATION" = Some org -> org <> "" ->
  Net.env h "ZENSKAR_AUTH_TOKEN" = Some token -> token <> "" ->
  Variant.resolveOrganization h JS.VUndef = JS.VStr org /\
  Variant.resolveAuthorization h JS.VUndef = JS.VStr ("Bearer " ++ token) /\
  (forall o, o <> "" ->
     Variant.resolveOrganization h (JS.VObj [("organization", JS.VStr o)]) = JS.VStr o).
Proof.
  intros Ho Hone Ht Htne.
  unfold Variant.resolveOrganization, Variant.resolveAuthorization, Variant.envValue.
  rewrite Ho, Ht.
  destruct org as [|c org]; [contradiction|].
  destruct token as [|c' token]; [contradiction|].
  repeat split.
  intros o Hne. destruct o as [|c'' o]; [contradiction|]. reflexivity.
Qed.

(** There a flagged tool without an affirmative decision is due an
    approval request, and its arguments are left as they are. *)
Lemma Variant_approval_due (tool : Config.toolSpec) (args : JS.object) :
  Config.tool_needsApproval tool = true ->
  Spec.approvedDecision args = false ->
  Variant.checkNeedsApproval tool args = (true, args).
Proof.
  intros Hflag Hdec. unfold Variant.checkNeedsApproval. rewrite Hflag. simpl.
  unfold Spec.approvedDecision in Hdec. unfold Variant.field.
  destruct (JS.get args "__userContext") as [| | | | | |ctx]; try reflexivity.
  destruct (JS.get ctx "approval") as [| | | | | |a]; try reflexivity.
  destruct (JS.get a "approved") as [| |[]| | | |]; try reflexivity.
  discriminate.
Qed.

(** ** More of [executeTool]: what reaches the network *)

Section Reach.
Import JS Config Net Server.

Lemma get_without_removed (ks : list string) (o : object) (k : string) :
  existsb (String.eqb k) ks = true -> get (without ks o) k = VUndef.
Proof.
  intros Hk. unfold without.
  induction o as [|[k' v] o IH]; simpl; [reflexivity|].
  destruct (existsb (String.eqb k') ks) eqn:E; simpl; [exact IH|].
  destruct (String.eqb k' k) eqn:E'; [|exact IH].
  apply String.eqb_eq in E'. subst k'. rewrite Hk in E. discriminate.
Qed.


End Reach.

(** ** More of [executeTool]: the query string *)

Section QueryShape.
Import JS Config Net Server.

Lemma buildQuery_In_iff (tool : toolSpec) (toolArgs : object) (n v : string) :
  In (n, v) (buildQuery tool toolArgs) <->
  exists a, In a (tool_args tool) /\ arg_position a = "query" /\ arg_name a = n /\
            get toolArgs n <> VUndef /\ v = toStr (get toolArgs n).
Proof.
  rewrite buildQuery_flat_map, in_flat_map. unfold Aux.queryEntry. split.
  - intros (a & Hin & Hentry). exists a.
    destruct (String.eqb (arg_position a) "query") eqn:Ep; simpl in Hentry; [|contradiction].
    destruct (get toolArgs (arg_name a)) eqn:Eg; simpl in Hentry;
      try contradiction;
      destruct Hentry as [Heq|[]]; injection Heq as <- <-;
      apply String.eqb_eq in Ep; rewrite Eg;
      repeat split; auto; discriminate.
  - intros (a & Hin & Hp & Hn & Hdef & ->). exists a. split; [exact Hin|].
    rewrite Hp, Hn. simpl.
    destruct (get toolArgs n); simpl; auto; congruence.
Qed.


(** X3: The credentials are taken out of the arguments before the request
    is built: whatever the tool declares, no query entry is named
    [organization] or [authorization], an argument of that name is not
    substituted into the path, and it adds nothing to the body. *)
Theorem credentials_not_forwarded
    (tool : toolSpec) (args : object) (a : argSpec) :
  let toolArgs := without ["organization"; "authorization"] args in
  (forall n v, In (n, v) (buildQuery tool toolArgs) ->
               n <> "organization" /\ n <> "authorization") /\
  (arg_name a = "organization" \/ arg_name a = "authorization" ->
   (forall url, pathStep toolArgs url a = url) /\
   (forall bodyArgs, bodyStep tool toolArgs bodyArgs a = bodyArgs)).
Proof.
  intros toolArgs.
  assert (Ho : get toolArgs "organization" = VUndef)
    by (apply get_without_removed; reflexivity).
  assert (Ha : get toolArgs "authorization" = VUndef)
    by (apply get_without_removed; reflexivity).
  split.
  - intros n v Hin. apply buildQuery_In_iff in Hin.
    destruct Hin as (a' & _ & _ & _ & Hdef & _).
    split; intros ->; contradiction.
  - intros Hn. unfold pathStep, bodyStep.
    destruct Hn as [-> | ->]; rewrite ?Ho, ?Ha; simpl;
      rewrite !andb_false_r; split; reflexivity.
Qed.

End QueryShape.


Lemma credentials_not_forwarded_witness :
  Server.pathStep
    (JS.without ["organization"; "authorization"] Sample.credentials)
    "https://api.zenskar.com/orgs/{organization}"
    (Config.mkArg "organization" "string" "path" true "Organization")
  = "https://api.zenskar.com/orgs/{organization}".
Proof.
  exact (proj1 (proj2 (credentials_not_forwarded Sample.getCustomer Sample.credentials
           (Config.mkArg "organization" "string" "path" true "Organization"))
           (or_introl eq_refl)) _).
Defined.

(** ** More of [executeTool]: the request body *)

Section BodyShape.
Import JS Config Net Server.

Lemma fold_bodyStep_plain (tool : toolSpec) (toolArgs : object)
    (l : list argSpec) (b : object) (k : string) :
  tool_name tool <> "ingestRawMetricEvent" ->
  get (fold_left (bodyStep tool toolArgs) l b) k
  = if existsb (fun a => String.eqb (arg_position a) "body" && String.eqb (arg_name a) k) l
       && negb (is_undefined (get toolArgs k))
    then get toolArgs k else get b k.
Proof.
  intros Hname. apply String.eqb_neq in Hname.
  revert b. induction l as [|a l IH]; intros b; simpl; [reflexivity|].
  rewrite IH. unfold bodyStep. rewrite Hname. simpl.
  destruct (String.eqb (arg_position a) "body") eqn:Ep; simpl; [|reflexivity].
  destruct (String.eqb (arg_name a) k) eqn:En; simpl.
  - apply String.eqb_eq in En. subst k.
    destruct (is_undefined (get toolArgs (arg_name a))) eqn:Eu; simpl.
    + rewrite andb_false_r. reflexivity.
    + rewrite andb_true_r. rewrite get_set_same.
      destruct (existsb _ l); reflexivity.
  - destruct (is_undefined (get toolArgs (arg_name a))); simpl; [reflexivity|].
    apply String.eqb_neq in En. rewrite get_set_other by exact En. reflexivity.
Qed.

Lemma fold_bodyStep_nothing (tool : toolSpec) (toolArgs : object)
    (l : list argSpec) (b : object) :
  (forall a, In a l -> arg_position a = "body" -> get toolArgs (arg_name a) = VUndef) ->
  fold_left (bodyStep tool toolArgs) l b = b.
Proof.
  revert b. induction l as [|a l IH]; intros b H; simpl; [reflexivity|].
  rewrite IH by (intros a' Ha'; apply H; right; exact Ha').
  unfold bodyStep.
  destruct (String.eqb (arg_position a) "body") eqn:Ep; simpl; [|reflexivity].
  apply String.eqb_eq in Ep. rewrite (H a (or_introl eq_refl) Ep). reflexivity.
Qed.

(** X4: The body of a tool other than the two with a transform of their
    own: a method other than POST, PUT and PATCH (in any letter case)
    sends no body; with no defined body argument the body is [null], not
    an empty object; otherwise each field of the body is the value of the
    body-position argument of that name, and nothing else is a field. *)
Theorem buildBody_plain_tool (tool : toolSpec) (toolArgs : object) :
  tool_name tool <> "ingestRawMetricEvent" ->
  tool_name tool <> "createRawMetric" ->
  (isMutating (tpl_method (tool_requestTemplate tool)) = false ->
     buildBody tool toolArgs = None) /\
  ((forall a, In a (tool_args tool) -> arg_position a = "body" ->
              get toolArgs (arg_name a) = VUndef) ->
     buildBody tool toolArgs = None) /\
  (isMutating (tpl_method (tool_requestTemplate tool)) = true ->
   forall k,
     Aux.bodyField (buildBody tool toolArgs) k
     = if existsb (fun a => String.eqb (arg_position a) "body" && String.eqb (arg_name a) k)
            (tool_args tool)
       then get toolArgs k else VUndef).
Proof.
  intros Hi Hc. apply String.eqb_neq in Hc.
  assert (Hcol : collectBody tool toolArgs
                 = fold_left (bodyStep tool toolArgs) (tool_args tool) []).
  { unfold collectBody. rewrite Hc. reflexivity. }
  split; [|split].
  - intros Hm. unfold buildBody. rewrite Hm. reflexivity.
  - intros Hnone. unfold buildBody. rewrite Hcol, fold_bodyStep_nothing by exact Hnone.
    destruct (isMutating _); reflexivity.
  - intros Hm k. rewrite bodyField_buildBody by exact Hm.
    rewrite Hcol, fold_bodyStep_plain by exact Hi.
    destruct (existsb _ (tool_args tool)); simpl; [|reflexivity].
    destruct (get toolArgs k); reflexivity.
Qed.

Lemma defaultKey_truthy (b : object) (k : string) (v : value) :
  truthy v = true -> truthy (get (defaultKey b k v) k) = true.
Proof.
  intros Hv. unfold defaultKey.
  destruct (truthy (get b k)) eqn:E; [exact E|].
  rewrite get_set_same. exact Hv.
Qed.

Lemma defaultKey_other (b : object) (k k' : string) (v : value) :
  k <> k' -> get (defaultKey b k v) k' = get b k'.
Proof.
  intros Hne. unfold defaultKey. destruct (truthy (get b k)); [reflexivity|].
  apply get_set_other. exact Hne.
Qed.

Lemma defaultKey_kept (b : object) (k : string) (v : value) :
  truthy (get b k) = true -> defaultKey b k v = b.
Proof. intros H. unfold defaultKey. rewrite H. reflexivity. Qed.

Lemma or_else_truthy (a b : value) : truthy b = true -> truthy (or_else a b) = true.
Proof. intros Hb. unfold or_else. destruct (truthy a) eqn:E; [exact E|exact Hb]. Qed.

(** X5: [createRawMetric] with a mutating method always sends a body, and
    in it [connector], [api_type], [dataschema] and [column_order] are
    all truthy; a field of these four that the body arguments gave a
    truthy value keeps that value. *)
Theorem createRawMetric_body (tool : toolSpec) (toolArgs : object) :
  tool_name tool = "createRawMetric" ->
  isMutating (tpl_method (tool_requestTemplate tool)) = true ->
  exists b,
    buildBody tool toolArgs = Some b /\
    truthy (get b "connector") = true /\
    truthy (get b "api_type") = true /\
    truthy (get b "dataschema") = true /\
    truthy (get b "column_order") = true /\
    (forall k, In k ["connector"; "api_type"; "dataschema"; "column_order"] ->
       truthy (get toolArgs k) = true ->
       existsb (fun a => String.eqb (arg_position a) "body" && String.eqb (arg_name a) k)
         (tool_args tool) = true ->
       get b k = get toolArgs k).
Proof.
  intros Hname Hm.
  set (b0 := fold_left (bodyStep tool toolArgs) (tool_args tool) []).
  assert (Hcol : collectBody tool toolArgs = rawMetricDefaults toolArgs b0).
  { unfold collectBody. rewrite Hname. reflexivity. }
  assert (Hb0 : forall k,
    get b0 k
    = if existsb (fun a => String.eqb (arg_position a) "body" && String.eqb (arg_name a) k)
           (tool_args tool) && negb (is_undefined (get toolArgs k))
      then get toolArgs k else VUndef).
  { intros k. unfold b0. rewrite fold_bodyStep_plain; [reflexivity|].
    rewrite Hname. discriminate. }
  set (b := rawMetricDefaults toolArgs b0).
  assert (H1 : truthy (get b "connector") = true).
  { unfold b, rawMetricDefaults.
    rewrite !defaultKey_other by discriminate.
    apply defaultKey_truthy, or_else_truthy. reflexivity. }
  assert (H2 : truthy (get b "api_type") = true).
  { unfold b, rawMetricDefaults.
    rewrite !defaultKey_other by discriminate.
    apply defaultKey_truthy, or_else_truthy. reflexivity. }
  assert (H3 : truthy (get b "dataschema") = true).
  { unfold b, rawMetricDefaults.
    rewrite !defaultKey_other by discriminate.
    apply defaultKey_truthy. reflexivity. }
  assert (H4 : truthy (get b "column_order") = true).
  { unfold b, rawMetricDefaults. apply defaultKey_truthy. reflexivity. }
  exists b. split.
  { unfold buildBody. rewrite Hm, Hcol. fold b.
    destruct b; [discriminate H1|reflexivity]. }
  repeat (split; [assumption|]).
  intros k Hk Ht Hd.
  assert (Hk0 : get b0 k = get toolArgs k).
  { rewrite Hb0, Hd. destruct (get toolArgs k); reflexivity. }
  assert (Ht0 : truthy (get b0 k) = true) by (rewrite Hk0; exact Ht).
  rewrite <- Hk0. unfold b, rawMetricDefaults.
  simpl in Hk. destruct Hk as [<-|[<-|[<-|[<-|[]]]]].
  - rewrite !defaultKey_other by discriminate.
    rewrite defaultKey_kept by exact Ht0. reflexivity.
  - rewrite !defaultKey_other by discriminate.
    rewrite (defaultKey_kept (defaultKey b0 "connector" _) "api_type");
      [apply defaultKey_other; discriminate|].
    rewrite defaultKey_other by discriminate. exact Ht0.
  - rewrite !defaultKey_other by discriminate.
    rewrite (defaultKey_kept _ "dataschema");
      [rewrite !defaultKey_other by discriminate; reflexivity|].
    rewrite !defaultKey_other by discriminate. exact Ht0.
  - rewrite (defaultKey_kept _ "column_order");
      [rewrite !defaultKey_other by discriminate; reflexivity|].
    rewrite !defaultKey_other by discriminate. exact Ht0.
Qed.

End BodyShape.

Lemma buildBody_plain_tool_witness :
  Aux.bodyField
    (Server.buildBody
       (Config.mkTool "createCustomer" "Create a customer"
          [ Config.mkArg "customer_name" "string" "body" true "Name";
            Config.mkArg "dry_run" "boolean" "query" false "Validate only" ]
          (Config.mkTemplate "/customers" "post") false)
       [ ("customer_name", JS.VStr "Acme"); ("dry_run", JS.VBool true) ])
    "dry_run"
  = JS.VUndef.
Proof.
  refine (proj2 (proj2 (buildBody_plain_tool
    (Config.mkTool "createCustomer" "Create a customer"
       [ Config.mkArg "customer_name" "string" "body" true "Name";
         Config.mkArg "dry_run" "boolean" "query" false "Validate only" ]
       (Config.mkTemplate "/customers" "post") false)
    [ ("customer_name", JS.VStr "Acme"); ("dry_run", JS.VBool true) ] _ _))
    eq_refl "dry_run"); simpl; discriminate.
Defined.

Lemma createRawMetric_body_witness :
  exists b,
    Server.buildBody Sample.createRawMetric
      [ ("name", JS.VStr "api_calls"); ("column_order", JS.VArr []) ] = Some b /\
    JS.get b "column_order" = JS.VArr [].
Proof.
  destruct (createRawMetric_body Sample.createRawMetric
              [ ("name", JS.VStr "api_calls"); ("column_order", JS.VArr []) ]
              eq_refl eq_refl) as (b & Hb & _ & _ & _ & _ & Hkeep).
  exists b. split; [exact Hb|].
  apply (Hkeep "column_order"); simpl; auto.
Defined.

(** ** More of [executeTool]: headers and path *)

Section HeadersAndPath.
Import JS Config Net Server.

Lemma starts_with_split (p s : string) :
  Str.starts_with p s = true -> exists t, s = (p ++ t)%string.
Proof.
  unfold Str.starts_with. revert s.
  induction p as [|c p IH]; intros s; simpl.
  - intros _. exists s. reflexivity.
  - destruct s as [|d s]; simpl; [discriminate|].
    destruct (ascii_dec c d) as [e|ne]; [|discriminate].
    intros H. destruct (IH s H) as [t Ht]. exists t. rewrite e, Ht. reflexivity.
Qed.

(** X6: Every request carries the same four headers, its [Authorization]
    value starts with [Bearer ], and a credential given with or without
    that prefix builds the same request. *)
Theorem authorization_header_shape
    (cfg : config) (tool : toolSpec) (toolArgs : object) (org auth : string) :
  let req := buildRequest cfg tool toolArgs org auth in
  map fst (req_headers req) = ["Content-Type"; "Accept"; "organisation"; "Authorization"] /\
  (exists t, Spec.header (req_headers req) "Authorization" = Some ("Bearer " ++ t)%string) /\
  buildRequest cfg tool toolArgs org ("Bearer " ++ auth)
  = buildRequest cfg tool toolArgs org
      (if Str.starts_with "Bearer " auth then ("Bearer " ++ auth)%string else auth).
Proof.
  cbv zeta. split; [reflexivity|]. split.
  - unfold buildRequest, buildHeaders. cbn [req_headers Spec.header String.eqb Ascii.eqb Bool.eqb].
    simpl Spec.header.
    destruct (Str.starts_with "Bearer " auth) eqn:E.
    + destruct (starts_with_split _ _ E) as [t ->]. exists t. reflexivity.
    + exists auth. reflexivity.
  - destruct (Str.starts_with "Bearer " auth) eqn:E; [reflexivity|].
    unfold buildRequest, buildHeaders.
    rewrite (starts_with_app "Bearer " auth), E. reflexivity.
Qed.

(** X7: A path argument whose value is missing, empty, zero, [false] or
    [null] is not substituted: the placeholder stays in the URL. *)
Theorem substitutePath_falsy (tool : toolSpec) (toolArgs : object) (url : string) :
  (forall a, In a (tool_args tool) -> arg_position a = "path" ->
             truthy (get toolArgs (arg_name a)) = false) ->
  substitutePath tool toolArgs url = url.
Proof.
  unfold substitutePath. generalize (tool_args tool) as l.
  induction l as [|a l IH]; intros H; simpl; [reflexivity|].
  replace (pathStep toolArgs url a) with url.
  - apply IH. intros a' Ha'. apply H. right. exact Ha'.
  - unfold pathStep.
    destruct (String.eqb (arg_position a) "path") eqn:Ep; simpl; [|reflexivity].
    apply String.eqb_eq in Ep. rewrite (H a (or_introl eq_refl) Ep). reflexivity.
Qed.

Lemma strip_prefix_sound (p s b : string) :
  Str.strip_prefix p s = Some b -> s = (p ++ b)%string.
Proof.
  revert s. induction p as [|c p IH]; intros s; simpl.
  - intros H. injection H as ->. reflexivity.
  - destruct s as [|d s]; [discriminate|].
    destruct (Ascii.eqb c d) eqn:E; [|discriminate].
    apply Ascii.eqb_eq in E. subst d. intros H. rewrite (IH s H). reflexivity.
Qed.

Lemma strip_prefix_complete (p b : string) :
  Str.strip_prefix p (p ++ b) = Some b.
Proof.
  induction p as [|c p IH]; simpl; [reflexivity|].
  rewrite Ascii.eqb_refl. exact IH.
Qed.

Lemma split_first_sound (p s a b : string) :
  Str.split_first p s = Some (a, b) -> s = (a ++ p ++ b)%string.
Proof.
  revert a. induction s as [|c s IH]; intros a; simpl.
  - destruct (Str.strip_prefix p "") as [b'|] eqn:E; [|discriminate].
    intros H. injection H as <- <-. apply strip_prefix_sound in E. exact E.
  - destruct (Str.strip_prefix p (String c s)) as [b'|] eqn:E.
    + intros H. injection H as <- <-. apply strip_prefix_sound in E. exact E.
    + destruct (Str.split_first p s) as [[a' b']|] eqn:E'; [|discriminate].
      intros H. injection H as <- <-. rewrite (IH a' eq_refl). reflexivity.
Qed.

Lemma split_first_complete (p a b : string) :
  exists a' b', Str.split_first p (a ++ p ++ b) = Some (a', b')
                /\ (String.length a' <= String.length a)%nat.
Proof.
  induction a as [|c a IH].
  - exists EmptyString, b. simpl.
    destruct (p ++ b)%string eqn:E; simpl; rewrite <- E, strip_prefix_complete;
      split; auto.
  - destruct IH as (a' & b' & H & Hlen). simpl.
    destruct (Str.strip_prefix p (String c (a ++ p ++ b))) as [b0|].
    + exists EmptyString, b0. split; [reflexivity|simpl; lia].
    + rewrite H. exists (String c a'), b'. split; [reflexivity|simpl; lia].
Qed.

Lemma expand_replacement_plain (m a b r : string) :
  Aux.no_dollar r = true -> Str.expand_replacement m a b r = r.
Proof.
  induction r as [|c r IH]; simpl; [reflexivity|].
  intros H. apply andb_prop in H. destruct H as [Hc Hr].
  rewrite IH by exact Hr.
  destruct c as [[] [] [] [] [] [] [] []]; try reflexivity; discriminate Hc.
Qed.

End HeadersAndPath.

(** X8: A path argument whose value is a non-empty text without [$]
    replaces one occurrence of its placeholder, the first one, by the
    text as it is; a URL without the placeholder is left as it is,
    whatever the value. *)
Theorem pathStep_substitutes
    (toolArgs : JS.object) (a : Config.argSpec) :
  let placeholder := ("{" ++ Config.arg_name a ++ "}")%string in
  (forall url,
     (forall pre post, url <> (pre ++ placeholder ++ post)%string) ->
     Server.pathStep toolArgs url a = url) /\
  (forall v pre post,
     Config.arg_position a = "path" ->
     JS.get toolArgs (Config.arg_name a) = JS.VStr v ->
     v <> "" -> Aux.no_dollar v = true ->
     exists pre' post',
       (pre ++ placeholder ++ post)%string = (pre' ++ placeholder ++ post')%string /\
       (String.length pre' <= String.length pre)%nat /\
       Server.pathStep toolArgs (pre ++ placeholder ++ post) a
       = (pre' ++ v ++ post')%string).
Proof.
  intros placeholder. split.
  - intros url Hno. unfold Server.pathStep.
    destruct (String.eqb (Config.arg_position a) "path"
              && JS.truthy (JS.get toolArgs (Config.arg_name a))); [|reflexivity].
    unfold Str.replace. fold placeholder.
    destruct (Str.split_first placeholder url) as [[x y]|] eqn:E; [|reflexivity].
    apply split_first_sound in E. exfalso. exact (Hno x y E).
  - intros v pre post Hp Hv Hne Hd.
    destruct (split_first_complete placeholder pre post) as (pre' & post' & Hs & Hlen).
    exists pre', post'. split; [apply split_first_sound; exact Hs|]. split; [exact Hlen|].
    assert (Ht : JS.truthy (JS.VStr v) = true).
    { simpl. destruct (String.eqb v "") eqn:E; [|reflexivity].
      apply String.eqb_eq in E. contradiction. }
    unfold Server.pathStep. rewrite Hp, Hv, Ht, String.eqb_refl. cbn [andb JS.toStr].
    unfold Str.replace. fold placeholder. rewrite Hs.
    rewrite expand_replacement_plain by exact Hd. reflexivity.
Qed.

Lemma pathStep_substitutes_witness :
  exists pre' post',
    ("https://api.zenskar.com/customers/" ++ "{customer_id}" ++ "/invoices")%string
    = (pre' ++ "{customer_id}" ++ post')%string /\
    (String.length pre' <= String.length "https://api.zenskar.com/customers/")%nat /\
    Server.pathStep [("customer_id", JS.VStr "cus_1")]
      ("https://api.zenskar.com/customers/" ++ "{customer_id}" ++ "/invoices")
      (Config.mkArg "customer_id" "string" "path" true "Customer id")
    = (pre' ++ "cus_1" ++ post')%string.
Proof.
  refine (proj2 (pathStep_substitutes [("customer_id", JS.VStr "cus_1")]
            (Config.mkArg "customer_id" "string" "path" true "Customer id"))
            "cus_1" "https://api.zenskar.com/customers/" "/invoices"
            eq_refl eq_refl _ eq_refl).
  discriminate.
Defined.

Lemma substitutePath_falsy_witness :
  Server.substitutePath Sample.getCustomer [("customer_id", JS.VStr "")]
    "https://api.zenskar.com/customers/{customer_id}"
  = "https://api.zenskar.com/customers/{customer_id}".
Proof.
  apply (substitutePath_falsy Sample.getCustomer [("customer_id", JS.VStr "")]).
  intros a [<-|[]] _. reflexivity.
Defined.

(** ** response-processor.js: truncation *)

Section Truncation.
Import JS Net.

Lemma jsLength_app (a b : string) :
  Str.jsLength (a ++ b) = (Str.jsLength a + Str.jsLength b)%nat.
Proof. induction a as [|c a IH]; simpl; [reflexivity|rewrite IH; lia]. Qed.

Lemma units_bound (c : ascii) : (Str.units c <= 2)%nat.
Proof.
  unfold Str.units.
  destruct ((128 <=? N_of_ascii c) && (N_of_ascii c <? 192))%N; [lia|].
  destruct (240 <=? N_of_ascii c)%N; lia.
Qed.

Lemma units_continuation (k : N) :
  (k < 64)%N -> Str.units (ascii_of_N (128 + k)) = 0%nat.
Proof.
  intros Hk. unfold Str.units. rewrite N_ascii_embedding by lia.
  destruct (N.leb_spec 128 (128 + k)); [|lia].
  destruct (N.ltb_spec (128 + k) 192); [reflexivity|lia].
Qed.

Lemma jsLength_high_surrogate (b0 b1 b2 : ascii) :
  Str.jsLength (Str.high_surrogate b0 b1 b2) = 1%nat.
Proof.
  unfold Str.high_surrogate. cbn [Str.jsLength].
  rewrite !units_continuation by (apply N.mod_lt; discriminate).
  reflexivity.
Qed.

(** [substring(0, n)] has [n] code units, or all of them. *)
Lemma jsLength_jsPrefix (n : nat) (s : string) :
  Str.jsLength (Str.jsPrefix n s) = Nat.min n (Str.jsLength s).
Proof.
  revert n. induction s as [|c s IH]; intros n; [destruct n; reflexivity|].
  cbn [Str.jsPrefix Str.jsLength]. pose proof (units_bound c) as Hb.
  destruct (Str.units c) as [|[|u]] eqn:E.
  - cbn [Str.jsLength]. rewrite E, IH. reflexivity.
  - destruct n as [|n]; [reflexivity|].
    cbn [Str.jsLength]. rewrite E, IH. reflexivity.
  - assert (u = 0)%nat by lia. subst u.
    destruct n as [|[|n]]; [reflexivity| |].
    + rewrite jsLength_high_surrogate. reflexivity.
    + cbn [Str.jsLength]. rewrite E, IH. reflexivity.
Qed.

(** Where no character of four bytes is cut, [substring(0, n)] is a
    prefix of the bytes. *)
Lemma jsPrefix_prefix (n : nat) (s : string) :
  Aux.bmp s = true -> exists rest, s = (Str.jsPrefix n s ++ rest)%string.
Proof.
  revert n. induction s as [|c s IH]; intros n H; [exists ""; reflexivity|].
  cbn [Aux.bmp] in H. apply andb_prop in H. destruct H as [Hc Hs].
  apply Nat.leb_le in Hc. cbn [Str.jsPrefix].
  destruct (Str.units c) as [|[|u]] eqn:E; [| |lia].
  - destruct (IH n Hs) as [rest Hr]. exists rest. simpl. rewrite <- Hr. reflexivity.
  - destruct n as [|n]; [exists (String c s); reflexivity|].
    destruct (IH n Hs) as [rest Hr]. exists rest. simpl. rewrite <- Hr. reflexivity.
Qed.

(** X9: [processResponse]: a text of at most 50000 UTF-16 code units is
    returned as it is; a longer one is cut to its first 50000 code units
    followed by the truncation notice, 50036 code units in all; so the
    result is never longer than that.  A value that is not a string is
    pretty-printed first, and [undefined], which has no text, gives the
    fixed text of the [catch]. *)
Theorem processResponse_truncates (h : host) (responseData : value) (toolName : string) :
  let response := match responseData with
                  | VStr s => s
                  | v => JSON_stringify2 h v
                  end in
  let out := ResponseProcessor.processResponse h responseData toolName in
  let limit := ResponseProcessor.maxResponseLength in
  ResponseProcessor.processResponse h VUndef toolName = "Error processing response" /\
  (is_undefined responseData = false ->
   ((Str.jsLength response <= limit)%nat -> out = response) /\
   ((limit < Str.jsLength response)%nat ->
      out = (Str.jsPrefix limit response ++ ResponseProcessor.nl ++ ResponseProcessor.nl
             ++ "[Response truncated due to length]")%string
      /\ Str.jsLength (Str.jsPrefix limit response) = limit
      /\ Str.jsLength out = (limit + 36)%nat
      /\ (Aux.bmp response = true ->
          exists rest, response = (Str.jsPrefix limit response ++ rest)%string))) /\
  (Str.jsLength out <= limit + 36)%nat.
Proof.
  intros response out limit. split; [reflexivity|].
  assert (Hout : is_undefined responseData = false ->
                 out = if (limit <? Str.jsLength response)%nat
                       then (Str.jsPrefix limit response ++ ResponseProcessor.nl
                             ++ ResponseProcessor.nl
                             ++ "[Response truncated due to length]")%string
                       else response).
  { unfold out, ResponseProcessor.processResponse, response, limit.
    destruct responseData; try reflexivity. discriminate. }
  assert (Hcut : (limit < Str.jsLength response)%nat ->
                 Str.jsLength (Str.jsPrefix limit response ++ ResponseProcessor.nl
                               ++ ResponseProcessor.nl
                               ++ "[Response truncated due to length]") = (limit + 36)%nat).
  { intros Hlt. rewrite jsLength_app, jsLength_jsPrefix.
    rewrite Nat.min_l by lia. reflexivity. }
  split.
  - intros Hdef. specialize (Hout Hdef).
    destruct (Nat.ltb_spec limit (Str.jsLength response)) as [Hlt|Hle].
    + split; [intros; lia|]. intros _.
      split; [exact Hout|]. split; [rewrite jsLength_jsPrefix; lia|].
      split; [rewrite Hout; apply Hcut; exact Hlt|].
      apply jsPrefix_prefix.
    + split; [intros _; exact Hout|]. intros; lia.
  - destruct (is_undefined responseData) eqn:Hdef.
    + destruct responseData; try discriminate Hdef.
      replace (Str.jsLength out) with 25%nat by reflexivity. lia.
    + specialize (Hout eq_refl).
      destruct (Nat.ltb_spec limit (Str.jsLength response)) as [Hlt|Hle].
      * rewrite Hout, Hcut by exact Hlt. lia.
      * rewrite Hout. lia.
Qed.

End Truncation.

(** ** [formatClickHouseDateTime] and [normalizeUsageEventPayload] again *)

Section FormatFacts.
Import JS Server.

Lemma replace_first_char_spaced (c : ascii) (r date time : string) :
  Spec.isoChar c = false -> Ascii.eqb " " c = false ->
  Spec.isoPart date = true -> Spec.isoPart time = true ->
  Str.replace_first_char c r (date ++ " " ++ time) = (date ++ " " ++ time)%string.
Proof.
  intros Hc Hsp Hd Ht. induction date as [|d date IH].
  - change ("" ++ " " ++ time)%string with (String " " time).
    cbn [Str.replace_first_char].
    rewrite Hsp, replace_first_char_absent by assumption. reflexivity.
  - cbn [Spec.isoPart] in Hd. apply andb_prop in Hd. destruct Hd as [Hd1 Hd2].
    change (String d date ++ " " ++ time)%string with (String d (date ++ " " ++ time)).
    cbn [Str.replace_first_char].
    destruct (Ascii.eqb d c) eqn:E.
    + apply Ascii.eqb_eq in E. subst d. rewrite Hc in Hd1. discriminate.
    + rewrite IH by exact Hd2. reflexivity.
Qed.

(** X10: What [formatClickHouseDateTime] returns has no white space around
    it, and formatting is stable on its own result for a timestamp: a
    date, a space and a time stay as they are, so formatting an ISO 8601
    timestamp twice gives what formatting it once gives. *)
Theorem formatClickHouseDateTime_stable (s date time : string) :
  Str.trim (formatClickHouseDateTime_string s) = formatClickHouseDateTime_string s /\
  (date <> "" -> time <> "" ->
   Spec.isoPart date = true -> Spec.isoPart time = true ->
   formatClickHouseDateTime_string (date ++ " " ++ time) = (date ++ " " ++ time)%string /\
   formatClickHouseDateTime_string
     (formatClickHouseDateTime_string (date ++ "T" ++ time ++ "Z"))
   = formatClickHouseDateTime_string (date ++ "T" ++ time ++ "Z")).
Proof.
  split; [apply trim_idem|].
  intros Hd Ht Hdi Hti.
  assert (Hfix : formatClickHouseDateTime_string (date ++ " " ++ time)
                 = (date ++ " " ++ time)%string).
  { destruct (formatClickHouseDateTime_iso date time Hd Ht Hdi Hti) as [_ H2].
    unfold formatClickHouseDateTime_string in *.
    rewrite !replace_first_char_spaced by (auto; reflexivity).
    change (date ++ "T" ++ time)%string with (date ++ String "T" time)%string in H2.
    rewrite (replace_first_char_here "T" " " date time) in H2 by (auto; reflexivity).
    rewrite replace_first_char_spaced in H2 by (auto; reflexivity).
    exact H2. }
  split; [exact Hfix|].
  destruct (formatClickHouseDateTime_iso date time Hd Ht Hdi Hti) as [-> _].
  exact Hfix.
Qed.

Lemma formatClickHouseDateTime_stable_witness :
  formatClickHouseDateTime_string "2024-01-01 10:00:00" = "2024-01-01 10:00:00".
Proof.
  refine (proj1 (proj2 (formatClickHouseDateTime_stable "" "2024-01-01" "10:00:00")
                   _ _ eq_refl eq_refl)); discriminate.
Defined.

End FormatFacts.

(** X11: [normalizeUsageEventPayload] neither adds, removes nor reorders a
    key of the event or of its [data]; a value that is not a plain object
    ([null], an array, a text) is returned as it is; in the event only
    [timestamp] and [data] can change, [timestamp] only when it is a
    string and [data] only when it is an object; and an event without a
    string timestamp and without an object [data] is returned
    unchanged. *)
Theorem normalizeUsageEventPayload_shape (e : JS.object) :
  Server.normalizeUsageEventPayload JS.VNull = JS.VNull /\
  (forall l, Server.normalizeUsageEventPayload (JS.VArr l) = JS.VArr l) /\
  (forall s, Server.normalizeUsageEventPayload (JS.VStr s) = JS.VStr s) /\
  exists e',
    Server.normalizeUsageEventPayload (JS.VObj e) = JS.VObj e' /\
    map fst e' = map fst e /\
    (forall k, k <> "timestamp" -> k <> "data" -> JS.get e' k = JS.get e k) /\
    JS.get e' "timestamp" = Server.formatClickHouseDateTime (JS.get e "timestamp") /\
    (forall d, JS.get e "data" = JS.VObj d ->
       exists d', JS.get e' "data" = JS.VObj d' /\ map fst d' = map fst d) /\
    (JS.is_plain_object (JS.get e "data") = false -> JS.get e' "data" = JS.get e "data") /\
    (JS.is_plain_object (JS.get e "data") = false ->
     (forall s, JS.get e "timestamp" <> JS.VStr s) -> e' = e).
Proof.
  split; [reflexivity|]. split; [reflexivity|]. split; [reflexivity|].
  destruct (normalize_object e) as (e' & He' & Hkeys & Hother & _ & Hdata).
  exists e'. split; [exact He'|]. split; [exact Hkeys|]. split; [exact Hother|].
  assert (Hd : JS.get (Server.formatKey e "timestamp") "data" = JS.get e "data")
    by (apply get_formatKey_other; discriminate).
  split.
  { unfold Server.normalizeUsageEventPayload in He'.
    destruct (JS.get (Server.formatKey e "timestamp") "data");
      injection He' as <-;
      rewrite ?get_set_other by discriminate;
      apply get_formatKey_same. }
  split.
  { intros d Hed. destruct (Hdata d Hed) as (d' & H1 & H2 & _). exists d'. auto. }
  assert (Hnp : JS.is_plain_object (JS.get e "data") = false ->
                e' = Server.formatKey e "timestamp").
  { intros Hn. unfold Server.normalizeUsageEventPayload in He'. rewrite Hd in He'.
    destruct (JS.get e "data"); try discriminate Hn; injection He' as <-; reflexivity. }
  split.
  { intros Hn. rewrite (Hnp Hn). exact Hd. }
  intros Hn Hts. rewrite (Hnp Hn). unfold Server.formatKey.
  destruct (JS.get e "timestamp") eqn:E; try reflexivity.
  exfalso. exact (Hts _ eq_refl).
Qed.

(** ** [generateInputSchema] *)

Section SchemaFacts.
Import JS Config Schema.

Lemma find_put_same (o : shape) (k : string) (f : zodField) :
  find (put o k f) k = Some f.
Proof.
  induction o as [|[k' f'] o IH]; simpl.
  - rewrite String.eqb_refl. reflexivity.
  - destruct (String.eqb k' k) eqn:E; simpl; rewrite E; [reflexivity|exact IH].
Qed.

Lemma find_put_other (o : shape) (k k' : string) (f : zodField) :
  k <> k' -> find (put o k f) k' = find o k'.
Proof.
  intros Hne. induction o as [|[k0 f0] o IH]; simpl.
  - destruct (String.eqb k k') eqn:E; [apply String.eqb_eq in E; contradiction|reflexivity].
  - destruct (String.eqb k0 k) eqn:E; simpl.
    + apply String.eqb_eq in E. subst k0.
      destruct (String.eqb k k') eqn:E'; [apply String.eqb_eq in E'; contradiction|reflexivity].
    + destruct (String.eqb k0 k'); [reflexivity|exact IH].
Qed.

Lemma fold_put_undeclared (l : list argSpec) (o : shape) (k : string) :
  ~ In k (map arg_name l) ->
  find (fold_left (fun s a => put s (arg_name a) (fieldOf a)) l o) k = find o k.
Proof.
  revert o. induction l as [|a l IH]; intros o Hk; simpl; [reflexivity|].
  simpl in Hk. rewrite IH by tauto. apply find_put_other. tauto.
Qed.

Lemma fold_put_declared (l : list argSpec) (o : shape) (a : argSpec) :
  NoDup (map arg_name l) -> In a l ->
  find (fold_left (fun s a => put s (arg_name a) (fieldOf a)) l o) (arg_name a)
  = Some (fieldOf a).
Proof.
  revert o. induction l as [|a0 l IH]; intros o Hnd Hin; simpl; [contradiction|].
  simpl in Hnd. inversion Hnd as [|? ? Hnot Hnd']; subst.
  destruct Hin as [->|Hin].
  - rewrite fold_put_undeclared by exact Hnot. apply find_put_same.
  - apply IH; assumption.
Qed.


(** X12: The schema of a tool whose arguments bear distinct names: each
    declared argument has its field, of the type its declaration maps to
    (text when the declared type is none of the known ones) and optional
    exactly when the argument is not required; [organization] and
    [authorization] are required texts unless the tool declares an
    argument of that name; no other name has a field. *)
Theorem generateInputSchema_fields (tool : toolSpec) :
  NoDup (map arg_name (tool_args tool)) ->
  (forall a, In a (tool_args tool) ->
     find (generateInputSchema tool) (arg_name a)
     = Some (mkField (typeOf (arg_type a)) (arg_description a) (negb (arg_required a)))) /\
  (forall k, ~ In k (map arg_name (tool_args tool)) ->
     find (generateInputSchema tool) k = find credentialFields k) /\
  (forall k, ~ In k (map arg_name (tool_args tool)) ->
     k <> "organization" -> k <> "authorization" ->
     find (generateInputSchema tool) k = None).
Proof.
  intros Hnd. unfold generateInputSchema. split; [|split].
  - intros a Hin. apply (fold_put_declared _ _ a Hnd Hin).
  - intros k Hk. apply fold_put_undeclared. exact Hk.
  - intros k Hk H1 H2. rewrite fold_put_undeclared by exact Hk.
    assert (E1 : String.eqb "organization" k = false)
      by (apply String.eqb_neq; congruence).
    assert (E2 : String.eqb "authorization" k = false)
      by (apply String.eqb_neq; congruence).
    unfold credentialFields. cbn [find]. rewrite E1, E2. reflexivity.
Qed.


End SchemaFacts.

Lemma generateInputSchema_fields_witness :
  Schema.find (Schema.generateInputSchema Sample.listCustomers) "limit"
  = Some (Schema.mkField Schema.ZNumber "Page size" true).
Proof.
  refine (proj1 (generateInputSchema_fields Sample.listCustomers _)
            (Config.mkArg "limit" "integer" "query" false "Page size") _).
  - repeat constructor; simpl; intuition discriminate.
  - simpl. auto.
Defined.


(** ** The second server script: path values *)

Section VariantPath.
Import JS Config.

Lemma url_safe_app (a b : string) :
  Aux.url_safe a = true -> Aux.url_safe b = true -> Aux.url_safe (a ++ b) = true.
Proof.
  intros Ha Hb. induction a as [|c a IH]; simpl in *; [exact Hb|].
  apply andb_prop in Ha. destruct Ha as [Hc Ha]. rewrite Hc, IH by exact Ha. reflexivity.
Qed.

Lemma percent_safe (c : ascii) : Aux.url_safe (Url.percent c) = true.
Proof. destruct c as [[] [] [] [] [] [] [] []]; vm_compute; reflexivity. Qed.

Lemma unreserved_safe (c : ascii) :
  Url.is_alnum c || Url.one_of "-_.!~*'()" c = true ->
  Url.is_alnum c || Url.one_of "-_.!~*'()%" c = true.
Proof.
  destruct c as [[] [] [] [] [] [] [] []]; vm_compute; intros H;
    try reflexivity; discriminate H.
Qed.

Lemma encodeURIComponent_safe (s : string) :
  Aux.url_safe (Url.encodeURIComponent s) = true.
Proof.
  induction s as [|c s IH]; cbn [Url.encodeURIComponent]; [reflexivity|].
  destruct (Url.is_alnum c || Url.one_of "-_.!~*'()" c) eqn:E.
  - cbn [Aux.url_safe]. rewrite IH, (unreserved_safe c E). reflexivity.
  - apply url_safe_app; [apply percent_safe|exact IH].
Qed.

Lemma url_safe_occurs (c : ascii) (s : string) :
  Url.is_alnum c || Url.one_of "-_.!~*'()%" c = false ->
  Aux.url_safe s = true -> Aux.occurs c s = false.
Proof.
  intros Hc. induction s as [|d s IH]; simpl; [reflexivity|].
  intros H. apply andb_prop in H. destruct H as [Hd Hs].
  rewrite IH by exact Hs. rewrite orb_false_r.
  destruct (Ascii.eqb d c) eqn:E; [|reflexivity].
  apply Ascii.eqb_eq in E. subst d. rewrite Hc in Hd. discriminate.
Qed.

Lemma url_safe_no_dollar (s : string) :
  Aux.url_safe s = true -> Aux.no_dollar s = true.
Proof.
  induction s as [|c s IH]; simpl; [reflexivity|].
  intros H. apply andb_prop in H. destruct H as [Hc Hs].
  rewrite IH by exact Hs. rewrite andb_true_r.
  destruct (Ascii.eqb c "$") eqn:E; [|reflexivity].
  apply Ascii.eqb_eq in E. subst c. discriminate Hc.
Qed.

(** X14: In the second script a path argument with a defined value replaces
    the first occurrence of its placeholder by the percent-encoded text
    of the value, and the inserted text holds none of [/ ? # & =], no
    space and no [$]. *)
Theorem Variant_pathStep_encodes
    (cleanArgs : object) (a : argSpec) (pre post : string) :
  arg_position a = "path" ->
  get cleanArgs (arg_name a) <> VUndef ->
  let placeholder := ("{" ++ arg_name a ++ "}")%string in
  let inserted := Url.encodeURIComponent (toStr (get cleanArgs (arg_name a))) in
  (exists pre' post',
     (pre ++ placeholder ++ post)%string = (pre' ++ placeholder ++ post')%string /\
     (String.length pre' <= String.length pre)%nat /\
     Variant.pathStep cleanArgs (pre ++ placeholder ++ post) a
     = (pre' ++ inserted ++ post')%string) /\
  (forall c, In c ["/"; "?"; "#"; "&"; "="; " "; "$"]%char ->
             Aux.occurs c inserted = false).
Proof.
  intros Hp Hv placeholder inserted.
  assert (Hsafe : Aux.url_safe inserted = true) by apply encodeURIComponent_safe.
  split.
  - destruct (split_first_complete placeholder pre post) as (pre' & post' & Hs & Hlen).
    exists pre', post'. split; [apply split_first_sound; exact Hs|]. split; [exact Hlen|].
    unfold Variant.pathStep. rewrite Hp, String.eqb_refl.
    replace (negb (is_undefined (get cleanArgs (arg_name a)))) with true
      by (destruct (get cleanArgs (arg_name a)); try reflexivity; contradiction).
    cbn [andb]. unfold Str.replace. fold placeholder. rewrite Hs. fold inserted.
    rewrite expand_replacement_plain by (apply url_safe_no_dollar; exact Hsafe).
    reflexivity.
  - intros c Hc. apply url_safe_occurs; [|exact Hsafe].
    simpl in Hc.
    repeat (destruct Hc as [<-|Hc]; [reflexivity|]). contradiction.
Qed.

End VariantPath.

Lemma Variant_pathStep_encodes_witness :
  Aux.occurs "/"
    (Url.encodeURIComponent (JS.toStr (JS.get [("customer_id", JS.VStr "a/b")] "customer_id")))
  = false.
Proof.
  refine (proj2 (Variant_pathStep_encodes [("customer_id", JS.VStr "a/b")]
            (Config.mkArg "customer_id" "string" "path" true "Customer id")
            "https://api.zenskar.com/customers/" "" eq_refl _) "/"%char _).
  - discriminate.
  - simpl. auto.
Defined.

(** ** The second server script: column types *)

Section VariantTypes.
Import JS.

(** X15: [normalizeClickHouseType] is idempotent: the backend's names and
    the trimmed unknown names it returns are returned as they are when
    normalized again; a value that is not a text, or a text of white
    space only, is returned unchanged. *)
Theorem normalizeClickHouseType_idempotent (type : value) :
  Variant.normalizeClickHouseType (Variant.normalizeClickHouseType type)
  = Variant.normalizeClickHouseType type
  /\ (forall t, type = VStr t -> Str.trim t = "" ->
        Variant.normalizeClickHouseType type = type)
  /\ ((forall t, type <> VStr t) -> Variant.normalizeClickHouseType type = type).
Proof.
  split; [|split].
  - destruct type as [| |b|n|t|l|o]; try reflexivity.
    unfold Variant.normalizeClickHouseType at 2 3.
    destruct (String.eqb (Str.trim t) "") eqn:Etrim.
    { unfold Variant.normalizeClickHouseType. rewrite Etrim. reflexivity. }
    repeat match goal with
    | |- context [if (?a || ?b)%bool then _ else _] =>
        let E := fresh "E" in destruct (a || b)%bool eqn:E; [reflexivity|]
    | |- context [if String.eqb ?a ?b then _ else _] =>
        let E := fresh "E" in destruct (String.eqb a b) eqn:E; [reflexivity|]
    end.
    unfold Variant.normalizeClickHouseType.
    rewrite trim_idem, Etrim.
    repeat match goal with
    | H : _ = false |- _ => rewrite H; clear H
    end.
    reflexivity.
  - intros t -> Ht. unfold Variant.normalizeClickHouseType. rewrite Ht. reflexivity.
  - intros Hn. destruct type; try reflexivity. exfalso. exact (Hn _ eq_refl).
Qed.

End VariantTypes.

(** ** The second server script: the approval check *)

Section VariantApproval.
Import JS Config.




Lemma checkNeedsApproval_cases (tool : toolSpec) (args : object) :
  fst (Variant.checkNeedsApproval tool args)
  = tool_needsApproval tool && negb (Spec.approvedDecision args)
  /\ (tool_needsApproval tool && Spec.approvedDecision args = false ->
      snd (Variant.checkNeedsApproval tool args) = args).
Proof.
  unfold Variant.checkNeedsApproval, Spec.approvedDecision, Variant.field.
  destruct (tool_needsApproval tool); simpl; [|split; reflexivity].
  destruct (get args "__userContext") as [| | | | | |ctx]; try (split; reflexivity).
  destruct (get ctx "approval") as [| | | | | |a]; try (split; reflexivity).
  destruct (get a "approved") as [| |[]| | | |]; try (split; reflexivity).
  split; [|discriminate].
  destruct (get a "modifiedArguments"); reflexivity.
Qed.

(** X16: [checkNeedsApproval] asks for approval exactly when the tool is
    flagged and the arguments carry no [approval.approved === true]; it
    changes the arguments only for an approved decision that brings
    [modifiedArguments]. *)
Theorem checkNeedsApproval_gate (tool : toolSpec) (args : object) :
  fst (Variant.checkNeedsApproval tool args)
  = tool_needsApproval tool && negb (Spec.approvedDecision args)
  /\ (tool_needsApproval tool && Spec.approvedDecision args = false ->
      snd (Variant.checkNeedsApproval tool args) = args).
Proof. exact (checkNeedsApproval_cases tool args). Qed.


End VariantApproval.


(** ** The second server script: the query string *)

Section VariantQuery.
Import JS Config.
Variables (tool : toolSpec) (cleanArgs : object).

Lemma appendValue_In (q : Url.searchParams) (name : string) (val : value) (n v : string) :
  In (n, v) (Variant.appendValue q name val) -> In (n, v) q \/ n = name.
Proof.
  unfold Variant.appendValue, Url.append.
  assert (Hone : forall q x, In (n, v) (q ++ [(name, x)]) -> In (n, v) q \/ n = name).
  { intros q0 x H. apply in_app_or in H. destruct H as [H|[H|[]]]; [auto|].
    injection H as <- _. auto. }
  destruct val; try apply Hone.
  revert q. induction l as [|x l IH]; intros q; simpl; [auto|].
  intros H. apply IH in H. destruct H as [H|H]; [|auto].
  apply Hone in H. exact H.
Qed.

Lemma In_has (o : object) (k : string) (v : value) : In (k, v) o -> has o k = true.
Proof.
  intros H. apply has_keys. apply in_map_iff. exists (k, v). auto.
Qed.

Lemma declaredAt_intro (a : argSpec) (position : string) :
  In a (tool_args tool) -> arg_position a = position ->
  Variant.declaredAt tool position (arg_name a) = true.
Proof.
  intros Hin Hp. unfold Variant.declaredAt. apply existsb_exists.
  exists a. split; [exact Hin|]. rewrite Hp, !String.eqb_refl. reflexivity.
Qed.

Lemma fold_queryStep_ok (l : list argSpec) (q : Url.searchParams) :
  (forall a, In a l -> In a (tool_args tool)) ->
  (forall nv, In nv q -> Aux.entry_ok tool cleanArgs nv) ->
  forall nv, In nv (fold_left (Variant.queryStep cleanArgs) l q) -> Aux.entry_ok tool cleanArgs nv.
Proof.
  revert q. induction l as [|a l IH]; intros q Hl Hq; simpl; [exact Hq|].
  apply IH; [intros a' Ha'; apply Hl; right; exact Ha'|].
  intros [n v] Hin. unfold Variant.queryStep in Hin.
  destruct (String.eqb (arg_position a) "query") eqn:Ep; simpl in Hin; [|auto].
  destruct (Variant.present (get cleanArgs (arg_name a))) eqn:Epr; [|auto].
  apply appendValue_In in Hin. destruct Hin as [Hin| ->]; [auto|].
  split; [exact Epr|]. left. apply declaredAt_intro.
  - apply Hl. left. reflexivity.
  - apply String.eqb_eq. exact Ep.
Qed.

Lemma fold_extraStep_ok (l : object) (q : Url.searchParams) :
  (forall kv, In kv l -> In kv cleanArgs) ->
  (forall nv, In nv q -> Aux.entry_ok tool cleanArgs nv) ->
  forall nv, In nv (fold_left (Variant.extraStep tool cleanArgs) l q) -> Aux.entry_ok tool cleanArgs nv.
Proof.
  revert q. induction l as [|[k val] l IH]; intros q Hl Hq; simpl; [exact Hq|].
  apply IH; [intros kv Hkv; apply Hl; right; exact Hkv|].
  intros [n v] Hin. unfold Variant.extraStep in Hin. cbn [fst] in Hin.
  destruct (negb (Variant.hasParam q k)); simpl in Hin; [|auto].
  destruct (Variant.present (get cleanArgs k)) eqn:Epr; simpl in Hin; [|auto].
  destruct (Variant.declaredAt tool "path" k) eqn:E1; simpl in Hin; [auto|].
  destruct (Variant.declaredAt tool "body" k) eqn:E2; simpl in Hin; [auto|].
  apply appendValue_In in Hin. destruct Hin as [Hin| ->]; [auto|].
  split; [exact Epr|]. right. split; [|auto].
  apply (In_has cleanArgs k val). apply Hl. left. reflexivity.
Qed.

End VariantQuery.

(** X18: In the second script every entry of the query string bears the name
    of an argument whose value is neither [undefined], [null] nor the
    empty text, and that name is declared at the [query] position or is
    a key of the arguments declared neither at [path] nor at [body]: a
    name declared only at the [path] or [body] position never enters the
    query string. *)
Theorem Variant_buildQuery_names
    (tool : Config.toolSpec) (cleanArgs : JS.object) (n v : string) :
  In (n, v) (Variant.buildQuery tool cleanArgs) ->
  Variant.present (JS.get cleanArgs n) = true /\
  (Variant.declaredAt tool "query" n = true \/
   (JS.has cleanArgs n = true /\
    Variant.declaredAt tool "path" n = false /\
    Variant.declaredAt tool "body" n = false)).
Proof.
  intros Hin. unfold Variant.buildQuery in Hin.
  apply (fold_extraStep_ok tool cleanArgs cleanArgs _ (fun kv H => H)) in Hin.
  - exact Hin.
  - apply fold_queryStep_ok; [auto|intros nv []].
Qed.

Lemma Variant_buildQuery_names_witness :
  Variant.present
    (JS.get [("customer_id", JS.VStr "cus_1"); ("expand", JS.VBool true)] "expand") = true /\
  (Variant.declaredAt Sample.getCustomer "query" "expand" = true \/
   (JS.has [("customer_id", JS.VStr "cus_1"); ("expand", JS.VBool true)] "expand" = true /\
    Variant.declaredAt Sample.getCustomer "path" "expand" = false /\
    Variant.declaredAt Sample.getCustomer "body" "expand" = false)).
Proof.
  apply (Variant_buildQuery_names Sample.getCustomer
           [("customer_id", JS.VStr "cus_1"); ("expand", JS.VBool true)] "expand" "true").
  vm_compute. left. reflexivity.
Defined.

(** ** The second server script: headers *)

Section VariantHeaders.
Import JS Config Net.

Lemma fold_extraHeaderStep_keeps (contextHeaders l headers : object) (K : string) :
  Variant.toLowerCase K = K ->
  truthy (get headers K) = true ->
  (forall k, has headers k = true -> Variant.toLowerCase k = K -> k = K) ->
  let headers' := fold_left (Variant.extraHeaderStep contextHeaders) l headers in
  get headers' K = get headers K /\
  (forall k, has headers' k = true -> Variant.toLowerCase k = K -> k = K).
Proof.
  intros HK. revert headers.
  induction l as [|[k0 v0] l IH]; intros headers Ht Hcase; simpl; [auto|].
  unfold Variant.extraHeaderStep at 2 4. cbn [fst].
  destruct (truthy (get contextHeaders k0)
            && negb (truthy (get headers (Variant.toLowerCase k0)))) eqn:E;
    [|apply IH; assumption].
  apply andb_prop in E. destruct E as [_ E]. apply negb_true_iff in E.
  assert (Hne : Variant.toLowerCase k0 <> K).
  { intros Heq. rewrite Heq, Ht in E. discriminate. }
  assert (Hk0 : k0 <> K).
  { intros ->. rewrite HK in Hne. apply Hne. reflexivity. }
  destruct (IH (set headers k0 (get contextHeaders k0))) as [H1 H2].
  - rewrite get_set_other by exact Hk0. exact Ht.
  - intros k Hhas Hl. rewrite has_set in Hhas. apply orb_prop in Hhas.
    destruct Hhas as [Hhas|Hhas]; [|auto].
    apply String.eqb_eq in Hhas. subst k. contradiction.
  - split; [|exact H2].
    rewrite H1. apply get_set_other. exact Hk0.
Qed.

Lemma fold_set_keeps (l headers : object) (K : string) :
  (forall k, has l k = true -> Variant.toLowerCase k <> K) ->
  Variant.toLowerCase K = K ->
  (forall k, has headers k = true -> Variant.toLowerCase k = K -> k = K) ->
  let headers' := fold_left (fun hs kv => set hs (fst kv) (snd kv)) l headers in
  get headers' K = get headers K /\
  (forall k, has headers' k = true -> Variant.toLowerCase k = K -> k = K).
Proof.
  intros Hl HK. revert headers.
  induction l as [|[k0 v0] l IH]; intros headers Hcase; simpl; [auto|].
  assert (Hk0 : Variant.toLowerCase k0 <> K).
  { apply Hl. simpl. rewrite String.eqb_refl. reflexivity. }
  assert (Hl' : forall k, has l k = true -> Variant.toLowerCase k <> K).
  { intros k Hk. apply Hl. simpl. rewrite Hk. apply orb_true_r. }
  destruct (IH Hl' (set headers k0 v0)) as [H1 H2].
  - intros k Hhas Hlow. rewrite has_set in Hhas. apply orb_prop in Hhas.
    destruct Hhas as [Hhas|Hhas]; [|auto].
    apply String.eqb_eq in Hhas. subst k. contradiction.
  - split; [|exact H2]. rewrite H1. apply get_set_other.
    intros ->. rewrite HK in Hk0. apply Hk0. reflexivity.
Qed.

End VariantHeaders.

Section VariantHeaderTheorems.
Import JS Config Net.

Lemma base_headers_case (headers : object) (K : string) :
  (forall k, has headers k = true ->
     In k ["Content-Type"; "User-Agent"; "apiversion"; "organisation";
           "Authorization"; "x-api-key"]) ->
  In K ["organisation"; "x-api-key"; "apiversion"] ->
  forall k, has headers k = true -> Variant.toLowerCase k = K -> k = K.
Proof.
  intros Hkeys HK k Hhas Hlow. specialize (Hkeys k Hhas).
  simpl in Hkeys, HK.
  repeat (destruct Hkeys as [<-|Hkeys]);
    try contradiction;
    repeat (destruct HK as [<-|HK]); try contradiction;
    vm_compute in Hlow; try reflexivity; discriminate Hlow.
Qed.

Lemma has_set_In (o : object) (k0 : string) (v : value) (names : list string) :
  (forall k, has o k = true -> In k names) -> In k0 names ->
  forall k, has (set o k0 v) k = true -> In k names.
Proof.
  intros Ho Hk0 k Hhas. rewrite has_set in Hhas. apply orb_prop in Hhas.
  destruct Hhas as [Hhas|Hhas]; [|auto].
  apply String.eqb_eq in Hhas. subst k. exact Hk0.
Qed.

(** What the headers of the second script hold for the organization id
    and the API key, when they are built. *)
Lemma buildHeaders_protected
    (h : host) (userContext : value) (templateHeaders headers : object) :
  Variant.buildHeaders h userContext templateHeaders = Server.Returned headers ->
  (forall k, has templateHeaders k = true ->
     Variant.toLowerCase k <> "organisation" /\ Variant.toLowerCase k <> "x-api-key") ->
  get headers "organisation" = Variant.resolveOrganization h userContext /\
  truthy (get headers "organisation") = true /\
  (forall k, has headers k = true -> Variant.toLowerCase k = "organisation" ->
             k = "organisation") /\
  (truthy (Variant.field userContext "apiKey") = true ->
   get headers "x-api-key" = Variant.field userContext "apiKey").
Proof.
  unfold Variant.buildHeaders. intros Hb Htpl.
  destruct (truthy (Variant.resolveOrganization h userContext)) eqn:Eorg;
    [|discriminate Hb].
  destruct (truthy (Variant.resolveAuthorization h userContext)) eqn:Eauth;
    [|discriminate Hb].
  cbn [negb] in Hb.
  destruct (Variant.resolveAuthorization h userContext) as [| | | |token| |];
    try discriminate Hb.
  set (org := Variant.resolveOrganization h userContext) in *.
  pose (headers2 :=
    set (set [ ("Content-Type", VStr "application/json");
               ("User-Agent", VStr "Zenskar-MCP-Server/1.0.0");
               ("apiversion", VStr "20230501") ] "organisation" org)
      "Authorization"
      (VStr (if Str.starts_with "Bearer " token then token
             else ("Bearer " ++ token)%string))).
  pose (headers3 :=
    if truthy (Variant.field userContext "apiKey")
    then set headers2 "x-api-key" (Variant.field userContext "apiKey")
    else if truthy (Variant.field (Variant.field userContext "headers") "x-api-key")
    then set headers2 "x-api-key"
           (Variant.field (Variant.field userContext "headers") "x-api-key")
    else headers2).
  pose (headers4 :=
    match Variant.field userContext "headers" with
    | VObj c => fold_left (Variant.extraHeaderStep c) c headers3
    | _ => headers3
    end).
  assert (Hb' : fold_left (fun hs kv => set hs (fst kv) (snd kv)) templateHeaders headers4
                = headers).
  { injection Hb as <-. reflexivity. }
  clear Hb. rename Hb' into Hb.
  assert (Hnames : forall k, has headers3 k = true ->
            In k ["Content-Type"; "User-Agent"; "apiversion"; "organisation";
                  "Authorization"; "x-api-key"]).
  { assert (H2 : forall k, has headers2 k = true ->
              In k ["Content-Type"; "User-Agent"; "apiversion"; "organisation";
                    "Authorization"; "x-api-key"]).
    { unfold headers2. apply has_set_In; [|simpl; tauto].
      apply has_set_In; [|simpl; tauto].
      intros k Hk. cbn [has] in Hk.
      repeat (apply orb_prop in Hk;
              destruct Hk as [Hk|Hk];
              [apply String.eqb_eq in Hk; subst k; simpl; tauto|]).
      discriminate Hk. }
    unfold headers3.
    destruct (truthy (Variant.field userContext "apiKey"));
      [apply has_set_In; [exact H2|simpl; tauto]|].
    destruct (truthy (Variant.field (Variant.field userContext "headers") "x-api-key"));
      [apply has_set_In; [exact H2|simpl; tauto]|exact H2]. }
  assert (Horg3 : get headers3 "organisation" = org).
  { unfold headers3.
    destruct (truthy (Variant.field userContext "apiKey"));
      [rewrite get_set_other by discriminate|
       destruct (truthy (Variant.field (Variant.field userContext "headers") "x-api-key"));
         [rewrite get_set_other by discriminate|]];
      unfold headers2; rewrite get_set_other by discriminate; apply get_set_same. }
  assert (H4 : forall K, In K ["organisation"; "x-api-key"; "apiversion"] ->
            Variant.toLowerCase K = K ->
            truthy (get headers3 K) = true ->
            get headers4 K = get headers3 K /\
            (forall k, has headers4 k = true -> Variant.toLowerCase k = K -> k = K)).
  { intros K HK Hlow Ht. unfold headers4.
    destruct (Variant.field userContext "headers") as [| | | | | |c];
      try (split; [reflexivity|apply base_headers_case; assumption]).
    apply fold_extraHeaderStep_keeps; [exact Hlow|exact Ht|].
    apply base_headers_case; assumption. }
  assert (H5 : forall K, In K ["organisation"; "x-api-key"; "apiversion"] ->
            Variant.toLowerCase K = K ->
            (forall k, has templateHeaders k = true -> Variant.toLowerCase k <> K) ->
            truthy (get headers3 K) = true ->
            get headers K = get headers3 K /\
            (forall k, has headers k = true -> Variant.toLowerCase k = K -> k = K)).
  { intros K HK Hlow Ht Htr. destruct (H4 K HK Hlow Htr) as [Hg Hc].
    rewrite <- Hb.
    destruct (fold_set_keeps templateHeaders headers4 K Ht Hlow Hc) as [Hg' Hc'].
    split; [rewrite Hg', Hg; reflexivity|exact Hc']. }
  destruct (H5 "organisation") as [Hg Hc].
  { simpl. tauto. } { reflexivity. }
  { intros k Hk. apply (Htpl k Hk). }
  { rewrite Horg3. exact Eorg. }
  split; [rewrite Hg; exact Horg3|]. split; [rewrite Hg, Horg3; exact Eorg|].
  split; [exact Hc|].
  intros Hkey.
  assert (Hk3 : get headers3 "x-api-key" = Variant.field userContext "apiKey").
  { unfold headers3. rewrite Hkey. apply get_set_same. }
  destruct (H5 "x-api-key") as [Hg' _].
  { simpl. tauto. } { reflexivity. }
  { intros k Hk. apply (Htpl k Hk). }
  { rewrite Hk3. exact Hkey. }
  rewrite Hg'. exact Hk3.
Qed.

(** X19: The headers of the second script, when it builds them: the
    [organisation] header is the resolved organization id, and the
    headers of the user context can neither replace it nor add a header
    whose name differs from [organisation] by letter case only; a truthy
    [apiKey] of the context is always sent as [x-api-key], whatever the
    credential.  (The headers of the tool's request template come last
    and are assumed not to name these two.) *)
Theorem Variant_headers_protected
    (h : host) (userContext : value) (templateHeaders headers : object) :
  Variant.buildHeaders h userContext templateHeaders = Server.Returned headers ->
  (forall k, has templateHeaders k = true ->
     Variant.toLowerCase k <> "organisation" /\ Variant.toLowerCase k <> "x-api-key") ->
  get headers "organisation" = Variant.resolveOrganization h userContext /\
  truthy (get headers "organisation") = true /\
  (forall k, has headers k = true -> Variant.toLowerCase k = "organisation" ->
             k = "organisation") /\
  (truthy (Variant.field userContext "apiKey") = true ->
   get headers "x-api-key" = Variant.field userContext "apiKey").
Proof. exact (buildHeaders_protected h userContext templateHeaders headers). Qed.

End VariantHeaderTheorems.

Lemma Variant_headers_protected_witness :
  JS.get
    [ ("Content-Type", JS.VStr "application/json");
      ("User-Agent", JS.VStr "Zenskar-MCP-Server/1.0.0");
      ("apiversion", JS.VStr "20230501");
      ("organisation", JS.VStr "org_1");
      ("Authorization", JS.VStr "Bearer tok");
      ("x-api-key", JS.VStr "key_1"); ("X-Trace", JS.VStr "t1") ]
    "x-api-key"
  = JS.VStr "key_1".
Proof.
  refine (proj2 (proj2 (proj2 (Variant_headers_protected Sample.hostWithEnv
    (JS.VObj [ ("organization", JS.VStr "org_1"); ("authorization", JS.VStr "tok");
               ("apiKey", JS.VStr "key_1");
               ("headers", JS.VObj [ ("Organisation", JS.VStr "org_2");
                                     ("X-Trace", JS.VStr "t1") ]) ])
    [] _ eq_refl _))) eq_refl).
  intros k Hk. discriminate Hk.
Defined.

(** X20: Without a user context the second script takes both credentials
    from the process environment: the organization id as it is, the token
    behind [Bearer ] (also when the token itself starts with it); with
    neither in the environment the organization error is thrown, with the
    organization id alone the authorization error. *)
Theorem Variant_headers_from_environment (h : Net.host) :
  (forall org token,
     Net.env h "ZENSKAR_ORGANIZATION" = Some org -> org <> "" ->
     Net.env h "ZENSKAR_AUTH_TOKEN" = Some token -> token <> "" ->
     Variant.buildHeaders h JS.VUndef []
     = Server.Returned
         [ ("Content-Type", JS.VStr "application/json");
           ("User-Agent", JS.VStr "Zenskar-MCP-Server/1.0.0");
           ("apiversion", JS.VStr "20230501");
           ("organisation", JS.VStr org);
           ("Authorization", JS.VStr ("Bearer " ++ token)) ]) /\
  (Net.env h "ZENSKAR_ORGANIZATION" = None ->
     Variant.buildHeaders h JS.VUndef []
     = Server.Thrown
         "Organization ID is required for API access. Set ZENSKAR_ORGANIZATION env var or provide in user context.") /\
  (forall org,
     Net.env h "ZENSKAR_ORGANIZATION" = Some org -> org <> "" ->
     Net.env h "ZENSKAR_AUTH_TOKEN" = None ->
     Variant.buildHeaders h JS.VUndef []
     = Server.Thrown
         "Authorization token is required for API access. Set ZENSKAR_AUTH_TOKEN env var or provide in user context.").
Proof.
  unfold Variant.buildHeaders, Variant.resolveOrganization, Variant.resolveAuthorization,
    Variant.envValue.
  split; [|split].
  - intros org token Ho Hone Ht Htne. rewrite Ho, Ht.
    destruct org as [|c org]; [contradiction|].
    destruct token as [|c' token]; [contradiction|].
    reflexivity.
  - intros Ho. rewrite Ho. reflexivity.
  - intros org Ho Hone Ht. rewrite Ho, Ht.
    destruct org as [|c org]; [contradiction|]. reflexivity.
Qed.

Lemma Variant_headers_from_environment_witness :
  Variant.buildHeaders Sample.hostWithEnv JS.VUndef []
  = Server.Returned
      [ ("Content-Type", JS.VStr "application/json");
        ("User-Agent", JS.VStr "Zenskar-MCP-Server/1.0.0");
        ("apiversion", JS.VStr "20230501");
        ("organisation", JS.VStr "org_env");
        ("Authorization", JS.VStr "Bearer token_env") ].
Proof.
  refine (proj1 (Variant_headers_from_environment Sample.hostWithEnv)
            "org_env" "token_env" eq_refl _ eq_refl _); discriminate.
Defined.

(** ** The environment fallback of the second script (C4) *)

Section EnvironmentFallback.
Import JS Config Net.



End EnvironmentFallback.



(** ** The second server script: the approval request and the body *)

Section VariantArtifacts.
Import JS Config Net.

(** X21: The approval request of a tool: its argument snapshot is the
    arguments without [__userContext] (where the credentials travel), and
    it has one field for each declared argument, in declaration order,
    holding the argument's current value, marked sensitive exactly when
    the tool's [sensitiveFields] list names it. *)
Theorem generateApprovalRequest_shape
    (tool : toolSpec) (approvalConfig : value) (args : object) :
  let r := Variant.generateApprovalRequest tool approvalConfig args in
  get (Variant.ar_arguments r) "__userContext" = VUndef /\
  (forall k, k <> "__userContext" -> get (Variant.ar_arguments r) k = get args k) /\
  map Variant.fd_name (Variant.ar_fields r) = map arg_name (tool_args tool) /\
  (forall f, In f (Variant.ar_fields r) ->
     Variant.fd_value f = get (Variant.ar_arguments r) (Variant.fd_name f) /\
     Variant.fd_sensitive f
     = Variant.includes (Variant.field approvalConfig "sensitiveFields") (Variant.fd_name f)).
Proof.
  cbv zeta. unfold Variant.generateApprovalRequest. cbn [Variant.ar_arguments Variant.ar_fields].
  split; [apply get_without_removed; reflexivity|].
  split.
  { intros k Hk. apply get_without_other. simpl.
    apply String.eqb_neq in Hk. rewrite Hk. reflexivity. }
  split; [rewrite map_map; reflexivity|].
  intros f Hf. apply in_map_iff in Hf. destruct Hf as (a & <- & _). split; reflexivity.
Qed.

(** X22: [createRawMetric] in the second script, for every method but [GET]
    and [DELETE]: a body is always sent, its [column_order] is
    [["timestamp"]] whatever the caller gave, and [connector], [api_type]
    and [dataschema] are truthy. *)
Theorem Variant_createRawMetric_body
    (h : host) (tool : toolSpec) (userContext : value) (cleanArgs : object) :
  tool_name tool = "createRawMetric" ->
  Variant.methodOf tool <> "GET" -> Variant.methodOf tool <> "DELETE" ->
  exists b,
    Variant.buildBody h tool userContext cleanArgs = Some b /\
    get b "column_order" = VArr [VStr "timestamp"] /\
    truthy (get b "connector") = true /\
    truthy (get b "api_type") = true /\
    truthy (get b "dataschema") = true.
Proof.
  intros Hname Hg Hd. apply String.eqb_neq in Hg, Hd.
  unfold Variant.buildBody. rewrite Hg, Hd, Hname. cbn [negb andb String.eqb Ascii.eqb Bool.eqb].
  change (String.eqb "createRawMetric" "extractContractFromRaw") with false.
  change (String.eqb "createRawMetric" "createRawMetric") with true.
  cbv iota.
  set (b0 := fold_left _ _ _).
  set (b := Variant.rawMetricDefaults cleanArgs b0).
  assert (Hcol : get b "column_order" = VArr [VStr "timestamp"])
    by apply Variant_column_order_forced.
  exists b. split.
  { destruct b; [discriminate Hcol|reflexivity]. }
  split; [exact Hcol|].
  unfold b, Variant.rawMetricDefaults.
  set (b3 := Server.defaultKey _ "dataschema" _).
  assert (H3 : truthy (get b3 "dataschema") = true).
  { apply defaultKey_truthy. reflexivity. }
  assert (H1 : truthy (get b3 "connector") = true).
  { unfold b3. rewrite !defaultKey_other by discriminate.
    apply defaultKey_truthy, or_else_truthy. reflexivity. }
  assert (H2 : truthy (get b3 "api_type") = true).
  { unfold b3. rewrite !defaultKey_other by discriminate.
    apply defaultKey_truthy, or_else_truthy. reflexivity. }
  rewrite H3. rewrite !get_set_other by discriminate. rewrite get_set_same.
  split; [exact H1|]. split; [exact H2|].
  unfold Variant.normalizeRawMetricDataschema.
  destruct (get b3 "dataschema"); try exact H3.
  destruct (get _ "data"); reflexivity.
Qed.

End VariantArtifacts.

Lemma Variant_createRawMetric_body_witness :
  exists b,
    Variant.buildBody Sample.hostWithEnv Sample.createRawMetric JS.VUndef
      [ ("name", JS.VStr "api_calls");
        ("column_order", JS.VArr [JS.VStr "customer_id"; JS.VStr "timestamp"]) ]
    = Some b /\
    JS.get b "column_order" = JS.VArr [JS.VStr "timestamp"].
Proof.
  destruct (Variant_createRawMetric_body Sample.hostWithEnv Sample.createRawMetric JS.VUndef
              [ ("name", JS.VStr "api_calls");
                ("column_order", JS.VArr [JS.VStr "customer_id"; JS.VStr "timestamp"]) ]
              eq_refl) as (b & Hb & Hc & _); try discriminate.
  exists b. split; assumption.
Defined.

(** ** The second server script: the dataschema *)

Section VariantSchema.
Import JS.






End VariantSchema.

(** ** The second server script: the tool handler *)

Section VariantHandler.
Import JS Config VariantServer.
Variables (w : world) (x : toolExtras) (tool : toolSpec).

Lemma executeAPICall_calls (args : object) :
  (length (Server.calls (executeAPICall w x tool args)) <= 1)%nat.
Proof.
  unfold executeAPICall.
  destruct (String.eqb (tool_name tool) "getCurrentDateTime"); simpl; [lia|].
  destruct (Variant.buildHeaders _ _ _); simpl; [|lia].
  destruct (fetch w _); simpl; [|lia].
  destruct (Net.ok status); simpl; lia.
Qed.

(** The gate of the handler, as a test. *)
Lemma toolHandler_gate (args : object) :
  isApprovalRequired (result (toolHandler w x tool args))
  = fst (Variant.checkNeedsApproval tool args)
    && negb (match Variant.field
                     (get (snd (Variant.checkNeedsApproval tool args)) "__userContext")
                     "approved"
             with VBool true => true | _ => false end).
Proof.
  unfold toolHandler, afterCheck.
  destruct (fst (Variant.checkNeedsApproval tool args)
            && negb _) eqn:E; [reflexivity|].
  destruct (negb (valid _)); [reflexivity|].
  destruct (Server.result _); reflexivity.
Qed.

End VariantHandler.

(** ** The approval gate and the limits of the second script (C1, C2) *)

Section ApprovalGate.
Import JS Config VariantServer.
Variables (w : world) (x : toolExtras) (tool : toolSpec).


(** For a boolean flag the handler of either kind of flag is the handler
    of the boolean flag. *)
Lemma toolHandlerOf_boolean (args : object) :
  toolHandlerOf w x tool (Variant.FlagValue (VBool (tool_needsApproval tool))) args
  = toolHandler w x tool args.
Proof.
  unfold toolHandlerOf, toolHandler, Variant.checkNeedsApprovalOf, Variant.checkNeedsApproval.
  destruct (tool_needsApproval tool); cbn [truthy negb]; [|reflexivity].
  destruct (Variant.field (Variant.field (get args "__userContext") "approval") "approved")
    as [| |[]| | | |]; try reflexivity.
  destruct (Variant.field (Variant.field (get args "__userContext") "approval")
              "modifiedArguments"); reflexivity.
Qed.


(** The remediation text suggests smaller lists. *)
Lemma blockedText_suggestion :
  exists a b,
    blockedText = (a ++ "(try 10-20 items instead of larger amounts)" ++ b)%string.
Proof.
  exists ("I'm sorry, but this request is too large to process efficiently. To get better results, please try:"
          ++ nl ++ nl ++ bullet ++ " Using smaller numbers when asking for lists ")%string.
  exists (nl ++ bullet ++ " Being more specific with your search criteria" ++ nl
          ++ bullet ++ " Breaking your request into smaller parts" ++ nl ++ nl
          ++ "For example, instead of asking for all customers, try asking for "
          ++ dq ++ "customers created this month" ++ dq ++ " or "
          ++ dq ++ "customers from a specific region." ++ dq)%string.
  vm_compute. reflexivity.
Qed.

End ApprovalGate.



(** C2: in the second script, when the limits library rejects the
    arguments of an invocation (they lie outside the tool's policy and
    the library clamps nothing), no network call is made; unless the
    invocation is waiting for approval, the handler returns the fixed
    remediation text, which suggests smaller lists, as an error result of
    its own and no error's message or stack, and hands the monitor one
    record with status [blocked] and the reasons the library gave.  (The
    limits library is not part of the sources: the policy is whatever
    [validateToolLimits] decides.) *)
Theorem C2_rejected_limits_block_the_call
    (w : VariantServer.world) (x : VariantServer.toolExtras) (tool : Config.toolSpec)
    (flag : Variant.approvalFlag) (args0 : JS.object) (v : JS.value) (args : JS.object) :
  Variant.checkNeedsApprovalOf flag args0 = Server.Returned (v, args) ->
  VariantServer.valid (VariantServer.validateToolLimits w (Config.tool_name tool) args)
  = false ->
  let t := VariantServer.toolHandlerOf w x tool flag args0 in
  VariantServer.calls t = [] /\
  (JS.truthy v && negb (Spec.approvedInContext args) = false ->
   VariantServer.result t
   = VariantServer.mkResult VariantServer.blockedText true false None /\
   exists u,
     VariantServer.logs t = [u] /\
     VariantServer.u_tool u = Config.tool_name tool /\
     VariantServer.u_status u = "blocked" /\
     VariantServer.u_reason u
     = JS.VStr (String.concat "; "
                  (VariantServer.errors
                     (VariantServer.validateToolLimits w (Config.tool_name tool) args))) /\
     VariantServer.u_limitRequested u = JS.get args "limit" /\
     VariantServer.u_limitApplied u = JS.VNull) /\
  (JS.truthy v && negb (Spec.approvedInContext args) = true ->
   VariantServer.isApprovalRequired (VariantServer.result t) = true) /\
  (exists a b,
     VariantServer.blockedText
     = (a ++ "(try 10-20 items instead of larger amounts)" ++ b)%string) /\
  Str.starts_with "I'm sorry, but this request is too large to process efficiently."
    VariantServer.blockedText = true.
Proof.
  intros Hcheck Hvalid t.
  unfold t, VariantServer.toolHandlerOf. rewrite Hcheck.
  unfold VariantServer.afterCheck. cbn [fst snd].
  fold (Spec.approvedInContext args).
  destruct (JS.truthy v && negb (Spec.approvedInContext args)) eqn:Egate.
  - split; [reflexivity|]. split; [discriminate|]. split; [reflexivity|].
    split; [apply blockedText_suggestion|reflexivity].
  - rewrite Hvalid. cbn [negb].
    split; [reflexivity|]. split.
    + intros _. split; [reflexivity|]. eexists. split; [reflexivity|]. repeat split.
    + split; [discriminate|]. split; [apply blockedText_suggestion|reflexivity].
Qed.

Lemma C2_rejected_limits_block_the_call_witness :
  let t := VariantServer.toolHandlerOf VariantSample.strictWorld VariantSample.noExtras
             Sample.listCustomers (Variant.FlagValue (JS.VBool false))
             [ ("limit", JS.VNum 500) ] in
  VariantServer.calls t = [] /\
  VariantServer.result t
  = VariantServer.mkResult VariantServer.blockedText true false None.
Proof.
  cbv zeta.
  destruct (C2_rejected_limits_block_the_call
              VariantSample.strictWorld VariantSample.noExtras Sample.listCustomers
              (Variant.FlagValue (JS.VBool false)) [ ("limit", JS.VNum 500) ]
              (JS.VBool false) [ ("limit", JS.VNum 500) ] eq_refl eq_refl)
    as (Hcalls & Hres & _).
  split; [exact Hcalls|]. exact (proj1 (Hres eq_refl)).
Defined.

(** X24: The handler of the second script asks for approval exactly when the
    tool is flagged, the arguments carry no [approval.approved === true]
    and the context has no [approved === true] of its own; it then
    returns the approval request of the arguments as they came, makes no
    network call and hands no usage record to the monitor. *)
Theorem Variant_handler_approval_path
    (w : VariantServer.world) (x : VariantServer.toolExtras)
    (tool : Config.toolSpec) (args : JS.object) :
  let t := VariantServer.toolHandler w x tool args in
  let approvedInContext :=
    match Variant.field (JS.get args "__userContext") "approved" with
    | JS.VBool true => true
    | _ => false
    end in
  VariantServer.isApprovalRequired (VariantServer.result t)
  = Config.tool_needsApproval tool && negb (Spec.approvedDecision args)
    && negb approvedInContext /\
  (VariantServer.isApprovalRequired (VariantServer.result t) = true ->
   VariantServer.calls t = [] /\ VariantServer.logs t = [] /\
   VariantServer.isError (VariantServer.result t) = false /\
   VariantServer.approvalRequest (VariantServer.result t)
   = Some (Variant.generateApprovalRequest tool (VariantServer.approvalConfig x) args)).
Proof.
  cbv zeta.
  destruct (checkNeedsApproval_cases tool args) as [Hfst Hsnd].
  split.
  - rewrite toolHandler_gate, Hfst.
    destruct (Config.tool_needsApproval tool && negb (Spec.approvedDecision args)) eqn:E;
      [|reflexivity].
    rewrite Hsnd; [reflexivity|].
    apply andb_prop in E. destruct E as [-> E]. apply negb_true_iff in E. rewrite E.
    reflexivity.
  - intros Hreq. rewrite toolHandler_gate, Hfst in Hreq.
    apply andb_prop in Hreq. destruct Hreq as [Hg Hc].
    assert (Hargs : snd (Variant.checkNeedsApproval tool args) = args).
    { apply Hsnd. apply andb_prop in Hg. destruct Hg as [-> Hg].
      apply negb_true_iff in Hg. rewrite Hg. reflexivity. }
    unfold VariantServer.toolHandler, VariantServer.afterCheck. rewrite Hfst, Hg. rewrite Hargs in *.
    rewrite Hc. repeat split.
Qed.

(** X25: When the limits library rejects the arguments of an invocation that
    is not waiting for approval, the handler of the second script makes
    no network call, returns the fixed remediation text (which suggests
    smaller lists) as an error, and hands the monitor one record, with
    status [blocked], 200 response tokens and the requested limit. *)
Theorem Variant_handler_blocked
    (w : VariantServer.world) (x : VariantServer.toolExtras)
    (tool : Config.toolSpec) (args0 : JS.object) :
  let args := snd (Variant.checkNeedsApproval tool args0) in
  let t := VariantServer.toolHandler w x tool args0 in
  VariantServer.isApprovalRequired (VariantServer.result t) = false ->
  VariantServer.valid (VariantServer.validateToolLimits w (Config.tool_name tool) args)
  = false ->
  VariantServer.calls t = [] /\
  VariantServer.result t = VariantServer.mkResult VariantServer.blockedText true false None /\
  (exists a b,
     VariantServer.blockedText
     = (a ++ "(try 10-20 items instead of larger amounts)" ++ b)%string) /\
  exists u,
    VariantServer.logs t = [u] /\
    VariantServer.u_status u = "blocked" /\
    VariantServer.u_tool u = Config.tool_name tool /\
    VariantServer.u_responseTokens u = 200 /\
    VariantServer.u_totalTokens u = (VariantServer.u_requestTokens u + 200)%nat /\
    VariantServer.u_limitRequested u = JS.get args "limit" /\
    VariantServer.u_limitApplied u = JS.VNull.
Proof.
  cbv zeta. intros Hgate Hvalid.
  rewrite toolHandler_gate in Hgate.
  unfold VariantServer.toolHandler, VariantServer.afterCheck. rewrite Hgate, Hvalid. cbn [negb].
  split; [reflexivity|]. split; [reflexivity|]. split.
  - exists ("I'm sorry, but this request is too large to process efficiently. To get better results, please try:"
            ++ VariantServer.nl ++ VariantServer.nl ++ VariantServer.bullet
            ++ " Using smaller numbers when asking for lists ")%string.
    exists (VariantServer.nl
            ++ VariantServer.bullet ++ " Being more specific with your search criteria"
            ++ VariantServer.nl
            ++ VariantServer.bullet ++ " Breaking your request into smaller parts"
            ++ VariantServer.nl ++ VariantServer.nl
            ++ "For example, instead of asking for all customers, try asking for "
            ++ VariantServer.dq ++ "customers created this month" ++ VariantServer.dq ++ " or "
            ++ VariantServer.dq ++ "customers from a specific region." ++ VariantServer.dq)%string.
    vm_compute. reflexivity.
  - eexists. split; [reflexivity|]. repeat split.
Qed.

Lemma Variant_handler_blocked_witness :
  VariantServer.calls
    (VariantServer.toolHandler VariantSample.strictWorld VariantSample.noExtras
       Sample.listCustomers [("limit", JS.VNum 500)])
  = [].
Proof.
  exact (proj1 (Variant_handler_blocked VariantSample.strictWorld VariantSample.noExtras
                  Sample.listCustomers [("limit", JS.VNum 500)] eq_refl eq_refl)).
Defined.

Section VariantAccounting.
Import JS Config VariantServer.

(** X26: Whatever the invocation, the handler of the second script makes at
    most one network call and hands the monitor at most one usage
    record, none exactly when it asks for approval; the record bears the
    tool's name, its total is the sum of its two estimates, its status is
    [success], [truncated] or [blocked], and it is [blocked] exactly when
    the result is an error. *)
Theorem Variant_handler_accounting
    (w : world) (x : toolExtras) (tool : toolSpec) (args : object) :
  let t := toolHandler w x tool args in
  (length (calls t) <= 1)%nat /\
  (length (logs t) <= 1)%nat /\
  (logs t = [] <-> isApprovalRequired (result t) = true) /\
  (forall u, In u (logs t) ->
     u_tool u = tool_name tool /\
     u_totalTokens u = (u_requestTokens u + u_responseTokens u)%nat /\
     In (u_status u) ["success"; "truncated"; "blocked"] /\
     (u_status u = "blocked" <-> isError (result t) = true)).
Proof.
  cbv zeta. unfold toolHandler, afterCheck.
  destruct (fst (Variant.checkNeedsApproval tool args) && negb _).
  { simpl. repeat split; auto; try lia; intros; contradiction. }
  destruct (negb (valid _)).
  { simpl. split; [lia|]. split; [lia|]. split; [split; discriminate|].
    intros u [<-|[]]. simpl. repeat split; auto. }
  match goal with
  | |- context [executeAPICall ?a ?b ?c ?d] =>
      pose proof (executeAPICall_calls a b c d) as Hcalls;
      destruct (executeAPICall a b c d) as [r cs]
  end.
  simpl in Hcalls. destruct r as [raw|message]; simpl.
  - split; [exact Hcalls|]. split; [lia|]. split; [split; discriminate|].
    intros u [<-|[]]. simpl.
    destruct (negb _ || _)%bool; simpl; repeat split; auto; discriminate.
  - split; [exact Hcalls|]. split; [lia|]. split; [split; discriminate|].
    intros u [<-|[]]. simpl. repeat split; auto.
Qed.

(** X27: In the second script a request is never sent without a resolved
    organization id and a resolved credential: each request of the trace
    was built with both truthy, from the context or the environment. *)
Theorem Variant_no_request_without_credentials
    (w : world) (x : toolExtras) (tool : toolSpec) (args : object) (req : Net.request) :
  In req (Server.calls (executeAPICall w x tool args)) ->
  truthy (Variant.resolveOrganization (host w) (get args "__userContext")) = true /\
  truthy (Variant.resolveAuthorization (host w) (get args "__userContext")) = true.
Proof.
  unfold executeAPICall.
  destruct (String.eqb (tool_name tool) "getCurrentDateTime"); simpl; [contradiction|].
  unfold Variant.buildHeaders.
  destruct (truthy (Variant.resolveOrganization _ _)); simpl; [|contradiction].
  destruct (truthy (Variant.resolveAuthorization _ _)); simpl; [|contradiction].
  auto.
Qed.

End VariantAccounting.

Lemma Variant_no_request_without_credentials_witness :
  JS.truthy (Variant.resolveOrganization Sample.hostWithEnv (JS.get [] "__userContext")) = true /\
  JS.truthy (Variant.resolveAuthorization Sample.hostWithEnv (JS.get [] "__userContext")) = true.
Proof.
  apply (Variant_no_request_without_credentials VariantSample.strictWorld
           VariantSample.noExtras Sample.listCustomers []
           {| Net.req_url := "https://api.zenskar.com/customers";
              Net.req_method := "GET";
              Net.req_headers :=
                [ ("Content-Type", "application/json");
                  ("User-Agent", "Zenskar-MCP-Server/1.0.0");
                  ("apiversion", "20230501");
                  ("organisation", "org_env");
                  ("Authorization", "Bearer token_env") ];
              Net.req_body := None |}).
  vm_compute. left. reflexivity.
Defined.
